(** * seller-apis: stock and price synchronisation for Ozon and Yandex Market

    A shallow embedding of [seller.py] and [market.py].

    - Python values that reach the reconciler are [pyval]s; an inventory
      record is a dict with string keys, kept as an association list.
    - Strings are byte strings holding the UTF-8 encoding of the Python
      text.  Every character the code looks at (the dot, the ASCII digits,
      the sign, the underscore, ASCII white space) is a one-byte character
      and no byte of a longer UTF-8 sequence is below 128, so splitting
      and filtering on bytes agrees with doing it on code points.
    - Exceptions are a [result]; the unbounded [while True] loops of the
      two enumerators take fuel and answer [OutOfFuel] when it runs out.
    - What [int] does that the interpreter and its Unicode tables decide
      (the limit on the digits of an integer string, strings with
      characters outside ASCII, the text of its errors) is taken from an
      [Interpreter]; everything is stated for every interpreter, and
      instantiated at CPython 3.11.
    - Network calls go through a state monad over the log of requests
      sent so far; the remote side is an arbitrary function of that log. *)

From Stdlib Require Import String Ascii List ZArith Arith Bool Lia.
From Stdlib Require Import Permutation DecimalString.
Import ListNotations.

Open Scope string_scope.
Open Scope list_scope.

(** ** Python values, exceptions *)

Inductive pyval : Type :=
| PyNone
| PyInt (z : Z)
| PyStr (s : string).

Inductive exn_class : Type :=
| ReadTimeout
| ConnectionError
| HTTPError
| ValueError
| TypeError
| AttributeError
| EnvError.

Record exn : Type := mkExn { exn_cls : exn_class; exn_msg : string }.

Inductive result (A : Type) : Type :=
| Ok (a : A)
| Raise (e : exn)
| OutOfFuel.

Arguments Ok {A} a.
Arguments Raise {A} e.
Arguments OutOfFuel {A}.

Definition rbind {A B} (r : result A) (k : A -> result B) : result B :=
  match r with
  | Ok a => k a
  | Raise e => Raise e
  | OutOfFuel => OutOfFuel
  end.

(** [str(v)] *)
Definition py_str (v : pyval) : string :=
  match v with
  | PyNone => "None"
  | PyInt z => NilZero.string_of_int (Z.to_int z)
  | PyStr s => s
  end.

Definition is_digit (c : ascii) : bool :=
  (48 <=? nat_of_ascii c)%nat && (nat_of_ascii c <=? 57)%nat.

Definition digit_val (c : ascii) : Z := Z.of_nat (nat_of_ascii c - 48).

(** White space that [int] skips around the number in an ASCII string:
    tab, line feed, vertical tab, form feed, carriage return, space. *)
Definition is_space (c : ascii) : bool :=
  let n := nat_of_ascii c in
  ((9 <=? n)%nat && (n <=? 13)%nat) || (n =? 32)%nat.

Fixpoint lstrip (l : list ascii) : list ascii :=
  match l with
  | c :: l' => if is_space c then lstrip l' else l
  | [] => []
  end.

Definition strip (l : list ascii) : list ascii :=
  rev (lstrip (rev (lstrip l))).

(** Digits of an integer literal: single underscores may separate digits. *)
Fixpoint int_digits (after_digit : bool) (acc : Z) (l : list ascii)
  : option Z :=
  match l with
  | [] => if after_digit then Some acc else None
  | c :: l' =>
      if is_digit c then int_digits true (10 * acc + digit_val c) l'
      else if Ascii.eqb c "_" then
             if after_digit then int_digits false acc l' else None
      else None
  end.

Definition int_of_string (s : string) : option Z :=
  match strip (list_ascii_of_string s) with
  | "-"%char :: l => option_map Z.opp (int_digits false 0 l)
  | "+"%char :: l => int_digits false 0 l
  | l => int_digits false 0 l
  end.

(** What [int] takes from the interpreter it runs on.
    - [int_max_str_digits]: the limit on the digits of an integer string
      ([sys.get_int_max_str_digits()]), 0 when there is none, as on
      interpreters that have no such limit.
    - [int_of_non_ascii]: [int(s)] for a [str] that holds a character
      outside ASCII, where the Unicode tables of the interpreter say what
      is white space and what is a decimal digit; [None] is ValueError.
    - [int_error_text]: [str] of the exception [int(v)] raises. *)
Class Interpreter : Type :=
  { int_max_str_digits : nat;
    int_of_non_ascii : string -> option Z;
    int_error_text : pyval -> string }.

Definition ascii_only (s : string) : bool :=
  forallb (fun c => (nat_of_ascii c <? 128)%nat) (list_ascii_of_string s).

(** Number of digits of an integer string. *)
Definition literal_digits (s : string) : nat :=
  length (filter is_digit (list_ascii_of_string s)).

Section IntOfValue.
Context `{py : Interpreter}.

(** The check on the number of digits: made only above 640 digits and
    only when a limit is set. *)
Definition over_limit (digits : nat) : bool :=
  (640 <? digits)%nat && negb (int_max_str_digits =? 0)%nat
  && (int_max_str_digits <? digits)%nat.

(** [int(v)], base 10. *)
Definition py_int (v : pyval) : result Z :=
  match v with
  | PyNone => Raise (mkExn TypeError (int_error_text v))
  | PyInt z => Ok z
  | PyStr s =>
      match (if ascii_only s then
               if over_limit (literal_digits s) then None
               else int_of_string s
             else int_of_non_ascii s) with
      | Some z => Ok z
      | None => Raise (mkExn ValueError (int_error_text v))
      end
  end.
End IntOfValue.

(** ** CPython 3.11, the interpreter the statements are instantiated at

    [int] of a [str] with a character outside ASCII first turns every
    white space character from 127 on into a space, every decimal digit
    into its ASCII digit and any other character from 127 on into a
    question mark, then reads the result as it reads an ASCII string.
    The tables are those of Unicode 14.0. *)

Definition in_ranges (ranges : list (N * N)) (cp : N) : bool :=
  existsb (fun r => (fst r <=? cp)%N && (cp <=? snd r)%N) ranges.

(** Code points from 127 on that [int] takes for white space
    ([Py_UNICODE_ISSPACE]), as inclusive ranges. *)
Definition unicode_spaces : list (N * N) :=
  [(133, 133); (160, 160); (5760, 5760); (8192, 8202); (8232, 8233);
   (8239, 8239); (8287, 8287); (12288, 12288)]%N.

(** Code points from 128 on that are decimal digits
    ([Py_UNICODE_TODECIMAL]), as inclusive ranges; each range starts at a
    digit 0 and goes through the ten digits in turn. *)
Definition unicode_decimals : list (N * N) :=
  [(1632, 1641); (1776, 1785); (1984, 1993); (2406, 2415); (2534, 2543);
   (2662, 2671); (2790, 2799); (2918, 2927); (3046, 3055); (3174, 3183);
   (3302, 3311); (3430, 3439); (3558, 3567); (3664, 3673); (3792, 3801);
   (3872, 3881); (4160, 4169); (4240, 4249); (6112, 6121); (6160, 6169);
   (6470, 6479); (6608, 6617); (6784, 6793); (6800, 6809); (6992, 7001);
   (7088, 7097); (7232, 7241); (7248, 7257); (42528, 42537); (43216, 43225);
   (43264, 43273); (43472, 43481); (43504, 43513); (43600, 43609);
   (44016, 44025); (65296, 65305); (66720, 66729); (68912, 68921);
   (69734, 69743); (69872, 69881); (69942, 69951); (70096, 70105);
   (70384, 70393); (70736, 70745); (70864, 70873); (71248, 71257);
   (71360, 71369); (71472, 71481); (71904, 71913); (72016, 72025);
   (72784, 72793); (73040, 73049); (73120, 73129); (92768, 92777);
   (92864, 92873); (93008, 93017); (120782, 120831); (123200, 123209);
   (123632, 123641); (125264, 125273); (130032, 130041)]%N.

(** Code points from 128 on that [repr] escapes (those that are not
    [Py_UNICODE_ISPRINTABLE]), as inclusive ranges. *)
Definition unicode_unprintable : list (N * N) :=
  [(128, 160); (173, 173); (888, 889); (896, 899); (907, 907); (909, 909);
   (930, 930); (1328, 1328); (1367, 1368); (1419, 1420); (1424, 1424);
   (1480, 1487); (1515, 1518); (1525, 1541); (1564, 1564); (1757, 1757);
   (1806, 1807); (1867, 1868); (1970, 1983); (2043, 2044); (2094, 2095);
   (2111, 2111); (2140, 2141); (2143, 2143); (2155, 2159); (2191, 2199);
   (2274, 2274); (2436, 2436); (2445, 2446); (2449, 2450); (2473, 2473);
   (2481, 2481); (2483, 2485); (2490, 2491); (2501, 2502); (2505, 2506);
   (2511, 2518); (2520, 2523); (2526, 2526); (2532, 2533); (2559, 2560);
   (2564, 2564); (2571, 2574); (2577, 2578); (2601, 2601); (2609, 2609);
   (2612, 2612); (2615, 2615); (2618, 2619); (2621, 2621); (2627, 2630);
   (2633, 2634); (2638, 2640); (2642, 2648); (2653, 2653); (2655, 2661);
   (2679, 2688); (2692, 2692); (2702, 2702); (2706, 2706); (2729, 2729);
   (2737, 2737); (2740, 2740); (2746, 2747); (2758, 2758); (2762, 2762);
   (2766, 2767); (2769, 2783); (2788, 2789); (2802, 2808); (2816, 2816);
   (2820, 2820); (2829, 2830); (2833, 2834); (2857, 2857); (2865, 2865);
   (2868, 2868); (2874, 2875); (2885, 2886); (2889, 2890); (2894, 2900);
   (2904, 2907); (2910, 2910); (2916, 2917); (2936, 2945); (2948, 2948);
   (2955, 2957); (2961, 2961); (2966, 2968); (2971, 2971); (2973, 2973);
   (2976, 2978); (2981, 2983); (2987, 2989); (3002, 3005); (3011, 3013);
   (3017, 3017); (3022, 3023); (3025, 3030); (3032, 3045); (3067, 3071);
   (3085, 3085); (3089, 3089); (3113, 3113); (3130, 3131); (3141, 3141);
   (3145, 3145); (3150, 3156); (3159, 3159); (3163, 3164); (3166, 3167);
   (3172, 3173); (3184, 3190); (3213, 3213); (3217, 3217); (3241, 3241);
   (3252, 3252); (3258, 3259); (3269, 3269); (3273, 3273); (3278, 3284);
   (3287, 3292); (3295, 3295); (3300, 3301); (3312, 3312); (3315, 3327);
   (3341, 3341); (3345, 3345); (3397, 3397); (3401, 3401); (3408, 3411);
   (3428, 3429); (3456, 3456); (3460, 3460); (3479, 3481); (3506, 3506);
   (3516, 3516); (3518, 3519); (3527, 3529); (3531, 3534); (3541, 3541);
   (3543, 3543); (3552, 3557); (3568, 3569); (3573, 3584); (3643, 3646);
   (3676, 3712); (3715, 3715); (3717, 3717); (3723, 3723); (3748, 3748);
   (3750, 3750); (3774, 3775); (3781, 3781); (3783, 3783); (3790, 3791);
   (3802, 3803); (3808, 3839); (3912, 3912); (3949, 3952); (3992, 3992);
   (4029, 4029); (4045, 4045); (4059, 4095); (4294, 4294); (4296, 4300);
   (4302, 4303); (4681, 4681); (4686, 4687); (4695, 4695); (4697, 4697);
   (4702, 4703); (4745, 4745); (4750, 4751); (4785, 4785); (4790, 4791);
   (4799, 4799); (4801, 4801); (4806, 4807); (4823, 4823); (4881, 4881);
   (4886, 4887); (4955, 4956); (4989, 4991); (5018, 5023); (5110, 5111);
   (5118, 5119); (5760, 5760); (5789, 5791); (5881, 5887); (5910, 5918);
   (5943, 5951); (5972, 5983); (5997, 5997); (6001, 6001); (6004, 6015);
   (6110, 6111); (6122, 6127); (6138, 6143); (6158, 6158); (6170, 6175);
   (6265, 6271); (6315, 6319); (6390, 6399); (6431, 6431); (6444, 6447);
   (6460, 6463); (6465, 6467); (6510, 6511); (6517, 6527); (6572, 6575);
   (6602, 6607); (6619, 6621); (6684, 6685); (6751, 6751); (6781, 6782);
   (6794, 6799); (6810, 6815); (6830, 6831); (6863, 6911); (6989, 6991);
   (7039, 7039); (7156, 7163); (7224, 7226); (7242, 7244); (7305, 7311);
   (7355, 7356); (7368, 7375); (7419, 7423); (7958, 7959); (7966, 7967);
   (8006, 8007); (8014, 8015); (8024, 8024); (8026, 8026); (8028, 8028);
   (8030, 8030); (8062, 8063); (8117, 8117); (8133, 8133); (8148, 8149);
   (8156, 8156); (8176, 8177); (8181, 8181); (8191, 8207); (8232, 8239);
   (8287, 8303); (8306, 8307); (8335, 8335); (8349, 8351); (8385, 8399);
   (8433, 8447); (8588, 8591); (9255, 9279); (9291, 9311); (11124, 11125);
   (11158, 11158); (11508, 11512); (11558, 11558); (11560, 11564);
   (11566, 11567); (11624, 11630); (11633, 11646); (11671, 11679);
   (11687, 11687); (11695, 11695); (11703, 11703); (11711, 11711);
   (11719, 11719); (11727, 11727); (11735, 11735); (11743, 11743);
   (11870, 11903); (11930, 11930); (12020, 12031); (12246, 12271);
   (12284, 12288); (12352, 12352); (12439, 12440); (12544, 12548);
   (12592, 12592); (12687, 12687); (12772, 12783); (12831, 12831);
   (42125, 42127); (42183, 42191); (42540, 42559); (42744, 42751);
   (42955, 42959); (42962, 42962); (42964, 42964); (42970, 42993);
   (43053, 43055); (43066, 43071); (43128, 43135); (43206, 43213);
   (43226, 43231); (43348, 43358); (43389, 43391); (43470, 43470);
   (43482, 43485); (43519, 43519); (43575, 43583); (43598, 43599);
   (43610, 43611); (43715, 43738); (43767, 43776); (43783, 43784);
   (43791, 43792); (43799, 43807); (43815, 43815); (43823, 43823);
   (43884, 43887); (44014, 44015); (44026, 44031); (55204, 55215);
   (55239, 55242); (55292, 63743); (64110, 64111); (64218, 64255);
   (64263, 64274); (64280, 64284); (64311, 64311); (64317, 64317);
   (64319, 64319); (64322, 64322); (64325, 64325); (64451, 64466);
   (64912, 64913); (64968, 64974); (64976, 65007); (65050, 65055);
   (65107, 65107); (65127, 65127); (65132, 65135); (65141, 65141);
   (65277, 65280); (65471, 65473); (65480, 65481); (65488, 65489);
   (65496, 65497); (65501, 65503); (65511, 65511); (65519, 65531);
   (65534, 65535); (65548, 65548); (65575, 65575); (65595, 65595);
   (65598, 65598); (65614, 65615); (65630, 65663); (65787, 65791);
   (65795, 65798); (65844, 65846); (65935, 65935); (65949, 65951);
   (65953, 65999); (66046, 66175); (66205, 66207); (66257, 66271);
   (66300, 66303); (66340, 66348); (66379, 66383); (66427, 66431);
   (66462, 66462); (66500, 66503); (66518, 66559); (66718, 66719);
   (66730, 66735); (66772, 66775); (66812, 66815); (66856, 66863);
   (66916, 66926); (66939, 66939); (66955, 66955); (66963, 66963);
   (66966, 66966); (66978, 66978); (66994, 66994); (67002, 67002);
   (67005, 67071); (67383, 67391); (67414, 67423); (67432, 67455);
   (67462, 67462); (67505, 67505); (67515, 67583); (67590, 67591);
   (67593, 67593); (67638, 67638); (67641, 67643); (67645, 67646);
   (67670, 67670); (67743, 67750); (67760, 67807); (67827, 67827);
   (67830, 67834); (67868, 67870); (67898, 67902); (67904, 67967);
   (68024, 68027); (68048, 68049); (68100, 68100); (68103, 68107);
   (68116, 68116); (68120, 68120); (68150, 68151); (68155, 68158);
   (68169, 68175); (68185, 68191); (68256, 68287); (68327, 68330);
   (68343, 68351); (68406, 68408); (68438, 68439); (68467, 68471);
   (68498, 68504); (68509, 68520); (68528, 68607); (68681, 68735);
   (68787, 68799); (68851, 68857); (68904, 68911); (68922, 69215);
   (69247, 69247); (69290, 69290); (69294, 69295); (69298, 69375);
   (69416, 69423); (69466, 69487); (69514, 69551); (69580, 69599);
   (69623, 69631); (69710, 69713); (69750, 69758); (69821, 69821);
   (69827, 69839); (69865, 69871); (69882, 69887); (69941, 69941);
   (69960, 69967); (70007, 70015); (70112, 70112); (70133, 70143);
   (70162, 70162); (70207, 70271); (70279, 70279); (70281, 70281);
   (70286, 70286); (70302, 70302); (70314, 70319); (70379, 70383);
   (70394, 70399); (70404, 70404); (70413, 70414); (70417, 70418);
   (70441, 70441); (70449, 70449); (70452, 70452); (70458, 70458);
   (70469, 70470); (70473, 70474); (70478, 70479); (70481, 70486);
   (70488, 70492); (70500, 70501); (70509, 70511); (70517, 70655);
   (70748, 70748); (70754, 70783); (70856, 70863); (70874, 71039);
   (71094, 71095); (71134, 71167); (71237, 71247); (71258, 71263);
   (71277, 71295); (71354, 71359); (71370, 71423); (71451, 71452);
   (71468, 71471); (71495, 71679); (71740, 71839); (71923, 71934);
   (71943, 71944); (71946, 71947); (71956, 71956); (71959, 71959);
   (71990, 71990); (71993, 71994); (72007, 72015); (72026, 72095);
   (72104, 72105); (72152, 72153); (72165, 72191); (72264, 72271);
   (72355, 72367); (72441, 72703); (72713, 72713); (72759, 72759);
   (72774, 72783); (72813, 72815); (72848, 72849); (72872, 72872);
   (72887, 72959); (72967, 72967); (72970, 72970); (73015, 73017);
   (73019, 73019); (73022, 73022); (73032, 73039); (73050, 73055);
   (73062, 73062); (73065, 73065); (73103, 73103); (73106, 73106);
   (73113, 73119); (73130, 73439); (73465, 73647); (73649, 73663);
   (73714, 73726); (74650, 74751); (74863, 74863); (74869, 74879);
   (75076, 77711); (77811, 77823); (78895, 82943); (83527, 92159);
   (92729, 92735); (92767, 92767); (92778, 92781); (92863, 92863);
   (92874, 92879); (92910, 92911); (92918, 92927); (92998, 93007);
   (93018, 93018); (93026, 93026); (93048, 93052); (93072, 93759);
   (93851, 93951); (94027, 94030); (94088, 94094); (94112, 94175);
   (94181, 94191); (94194, 94207); (100344, 100351); (101590, 101631);
   (101641, 110575); (110580, 110580); (110588, 110588); (110591, 110591);
   (110883, 110927); (110931, 110947); (110952, 110959); (111356, 113663);
   (113771, 113775); (113789, 113791); (113801, 113807); (113818, 113819);
   (113824, 118527); (118574, 118575); (118599, 118607); (118724, 118783);
   (119030, 119039); (119079, 119080); (119155, 119162); (119275, 119295);
   (119366, 119519); (119540, 119551); (119639, 119647); (119673, 119807);
   (119893, 119893); (119965, 119965); (119968, 119969); (119971, 119972);
   (119975, 119976); (119981, 119981); (119994, 119994); (119996, 119996);
   (120004, 120004); (120070, 120070); (120075, 120076); (120085, 120085);
   (120093, 120093); (120122, 120122); (120127, 120127); (120133, 120133);
   (120135, 120137); (120145, 120145); (120486, 120487); (120780, 120781);
   (121484, 121498); (121504, 121504); (121520, 122623); (122655, 122879);
   (122887, 122887); (122905, 122906); (122914, 122914); (122917, 122917);
   (122923, 123135); (123181, 123183); (123198, 123199); (123210, 123213);
   (123216, 123535); (123567, 123583); (123642, 123646); (123648, 124895);
   (124903, 124903); (124908, 124908); (124911, 124911); (124927, 124927);
   (125125, 125126); (125143, 125183); (125260, 125263); (125274, 125277);
   (125280, 126064); (126133, 126208); (126270, 126463); (126468, 126468);
   (126496, 126496); (126499, 126499); (126501, 126502); (126504, 126504);
   (126515, 126515); (126520, 126520); (126522, 126522); (126524, 126529);
   (126531, 126534); (126536, 126536); (126538, 126538); (126540, 126540);
   (126544, 126544); (126547, 126547); (126549, 126550); (126552, 126552);
   (126554, 126554); (126556, 126556); (126558, 126558); (126560, 126560);
   (126563, 126563); (126565, 126566); (126571, 126571); (126579, 126579);
   (126584, 126584); (126589, 126589); (126591, 126591); (126602, 126602);
   (126620, 126624); (126628, 126628); (126634, 126634); (126652, 126703);
   (126706, 126975); (127020, 127023); (127124, 127135); (127151, 127152);
   (127168, 127168); (127184, 127184); (127222, 127231); (127406, 127461);
   (127491, 127503); (127548, 127551); (127561, 127567); (127570, 127583);
   (127590, 127743); (128728, 128732); (128749, 128751); (128765, 128767);
   (128884, 128895); (128985, 128991); (129004, 129007); (129009, 129023);
   (129036, 129039); (129096, 129103); (129114, 129119); (129160, 129167);
   (129198, 129199); (129202, 129279); (129620, 129631); (129646, 129647);
   (129653, 129655); (129661, 129663); (129671, 129679); (129709, 129711);
   (129723, 129727); (129734, 129743); (129754, 129759); (129768, 129775);
   (129783, 129791); (129939, 129939); (129995, 130031); (130042, 131071);
   (173792, 173823); (177977, 177983); (178206, 178207); (183970, 183983);
   (191457, 194559); (195102, 196607); (201547, 917759); (918000, 1114111)]%N.

(** Value of a continuation byte of a UTF-8 sequence. *)
Definition continuation (c : ascii) : option N :=
  let n := N_of_ascii c in
  if (128 <=? n)%N && (n <? 192)%N then Some (n - 128)%N else None.

(** The code points of a [str], from its UTF-8 bytes; [None] for bytes
    that are the encoding of no [str]. *)
Fixpoint utf8_decode (l : list ascii) : option (list N) :=
  match l with
  | [] => Some []
  | c :: l1 =>
      let n := N_of_ascii c in
      if (n <? 128)%N then option_map (cons n) (utf8_decode l1)
      else if (n <? 194)%N then None
      else if (n <? 224)%N then
        match l1 with
        | c1 :: l2 =>
            match continuation c1 with
            | Some n1 =>
                option_map (cons ((n - 192) * 64 + n1)%N) (utf8_decode l2)
            | None => None
            end
        | [] => None
        end
      else if (n <? 240)%N then
        match l1 with
        | c1 :: c2 :: l3 =>
            match continuation c1, continuation c2 with
            | Some n1, Some n2 =>
                let cp := (((n - 224) * 64 + n1) * 64 + n2)%N in
                if (cp <? 2048)%N || ((55296 <=? cp)%N && (cp <? 57344)%N)
                then None
                else option_map (cons cp) (utf8_decode l3)
            | _, _ => None
            end
        | _ => None
        end
      else if (n <? 245)%N then
        match l1 with
        | c1 :: c2 :: c3 :: l4 =>
            match continuation c1, continuation c2, continuation c3 with
            | Some n1, Some n2, Some n3 =>
                let cp := ((((n - 240) * 64 + n1) * 64 + n2) * 64 + n3)%N in
                if (cp <? 65536)%N || (1114111 <? cp)%N then None
                else option_map (cons cp) (utf8_decode l4)
            | _, _, _ => None
            end
        | _ => None
        end
      else None
  end.

(** The UTF-8 bytes of a code point. *)
Definition utf8_encode (cp : N) : list ascii :=
  map ascii_of_N
      (if (cp <? 128)%N then [cp]
       else if (cp <? 2048)%N then [192 + cp / 64; 128 + cp mod 64]
       else if (cp <? 65536)%N then
              [224 + cp / 4096; 128 + (cp / 64) mod 64; 128 + cp mod 64]
       else [240 + cp / 262144; 128 + (cp / 4096) mod 64;
             128 + (cp / 64) mod 64; 128 + cp mod 64])%N.

(** The ASCII character [int] reads for a code point. *)
Definition to_ascii_digit (cp : N) : ascii :=
  if (cp <? 127)%N then ascii_of_N cp
  else if in_ranges unicode_spaces cp then " "%char
  else match find (fun r => (fst r <=? cp)%N && (cp <=? snd r)%N)
                  unicode_decimals with
       | Some r => ascii_of_N (48 + (cp - fst r) mod 10)
       | None => "?"%char
       end.

(** The digits [int] goes through before it checks their number: those
    of the longest run of digits and single underscores after the white
    space and the sign; [None] when the run starts or ends with an
    underscore or has two in a row. *)
Fixpoint scanned_digits (after_underscore : bool) (digits : nat)
         (l : list ascii) : option nat :=
  match l with
  | c :: l' =>
      if is_digit c then scanned_digits false (S digits) l'
      else if Ascii.eqb c "_" then
             if after_underscore then None else scanned_digits true digits l'
           else if after_underscore then None else Some digits
  | [] => if after_underscore then None else Some digits
  end.

Definition digits_checked (l : list ascii) : option nat :=
  let unsigned := match lstrip l with
                  | "-"%char :: l' => l'
                  | "+"%char :: l' => l'
                  | l' => l'
                  end in
  match unsigned with
  | "_"%char :: _ => None
  | _ => scanned_digits false 0 unsigned
  end.

(** [repr] of a [str], on code points. *)
Definition hex_digit (n : N) : N :=
  if (n <? 10)%N then (48 + n)%N else (87 + n)%N.

Fixpoint hex_of (width : nat) (n : N) : list N :=
  match width with
  | O => []
  | S width' => hex_of width' (n / 16) ++ [hex_digit (n mod 16)]
  end.

Definition repr_char (quote cp : N) : list N :=
  if (cp =? quote)%N || (cp =? 92)%N then [92; cp]%N
  else if (cp =? 9)%N then [92; 116]%N
  else if (cp =? 10)%N then [92; 110]%N
  else if (cp =? 13)%N then [92; 114]%N
  else if (cp <? 32)%N || (cp =? 127)%N then (92 :: 120 :: hex_of 2 cp)%N
  else if (cp <? 127)%N then [cp]
  else if negb (in_ranges unicode_unprintable cp) then [cp]
  else if (cp <? 256)%N then (92 :: 120 :: hex_of 2 cp)%N
  else if (cp <? 65536)%N then (92 :: 117 :: hex_of 4 cp)%N
  else (92 :: 85 :: hex_of 8 cp)%N.

Definition py_repr (cps : list N) : list N :=
  let quote := if existsb (N.eqb 39) cps && negb (existsb (N.eqb 34) cps)
               then 34%N else 39%N in
  quote :: flat_map (repr_char quote) cps ++ [quote].

(** [str(n)] for a count. *)
Definition decimal_of_nat (n : nat) : string :=
  NilZero.string_of_uint (Nat.to_uint n).

(** The text of the ValueError of [int(s)] for the code points [cps] of
    [s]: the one for too many digits when the check on their number is
    what fails, else the one that shows the first 200 characters of
    [repr(s)]. *)
Definition int_value_error_text (cps : list N) : string :=
  let too_many :=
    match digits_checked (map to_ascii_digit cps) with
    | Some digits => if (4300 <? digits)%nat then Some digits else None
    | None => None
    end in
  match too_many with
  | Some digits =>
      ("Exceeds the limit (4300 digits) for integer string conversion: "
       ++ "value has " ++ decimal_of_nat digits
       ++ " digits; use sys.set_int_max_str_digits() to increase the limit")
        %string
  | None =>
      ("invalid literal for int() with base 10: "
       ++ string_of_list_ascii
            (flat_map utf8_encode (firstn 200 (py_repr cps))))%string
  end.

(** Bytes that are the encoding of no [str] get the ValueError of a
    string that is no number, with an empty text. *)
Definition cpython_3_11 : Interpreter :=
  {| int_max_str_digits := 4300;
     int_of_non_ascii := fun s =>
       match utf8_decode (list_ascii_of_string s) with
       | Some cps =>
           let read := string_of_list_ascii (map to_ascii_digit cps) in
           if (4300 <? literal_digits read)%nat then None
           else int_of_string read
       | None => None
       end;
     int_error_text := fun v =>
       match v with
       | PyStr s =>
           match utf8_decode (list_ascii_of_string s) with
           | Some cps => int_value_error_text cps
           | None => ""
           end
       | PyNone =>
           ("int() argument must be a string, a bytes-like object or a "
            ++ "real number, not 'NoneType'")%string
       | PyInt _ => ""
       end |}.

(** [x in l] *)
Definition py_in (x : string) (l : list string) : bool :=
  existsb (String.eqb x) l.

(** [l.remove(x)]: drops the first occurrence, [None] stands for the
    [ValueError] raised when there is none. *)
Fixpoint list_remove (x : string) (l : list string) : option (list string) :=
  match l with
  | [] => None
  | y :: l' =>
      if String.eqb x y then Some l'
      else option_map (cons y) (list_remove x l')
  end.

(** [d.get(k)] on a dict kept as an association list. *)
Definition dict := list (string * pyval).

Fixpoint dict_get (d : dict) (k : string) : pyval :=
  match d with
  | [] => PyNone
  | (k', v) :: d' => if String.eqb k k' then v else dict_get d' k
  end.

(** [s.split(sep)] for a one-character separator. *)
Fixpoint py_split (sep : ascii) (s : string) : list string :=
  match s with
  | EmptyString => [EmptyString]
  | String c s' =>
      if Ascii.eqb c sep then EmptyString :: py_split sep s'
      else match py_split sep s' with
           | piece :: pieces => String c piece :: pieces
           | [] => [String c EmptyString]
           end
  end.

(** [re.sub("[^0-9]", "", s)] *)
Fixpoint re_sub_non_digits (s : string) : string :=
  match s with
  | EmptyString => EmptyString
  | String c s' =>
      if is_digit c then String c (re_sub_non_digits s')
      else re_sub_non_digits s'
  end.

(** [range(i, stop, step)] for a positive step; at most [stop] values
    exist, which bounds the recursion. *)
Fixpoint py_range_from (fuel i stop step : nat) : list nat :=
  match fuel with
  | O => []
  | S fuel' =>
      if (i <? stop)%nat then i :: py_range_from fuel' (i + step) stop step
      else []
  end.

Definition py_range (stop step : nat) : list nat :=
  py_range_from stop 0 stop step.

(** [l[i:j]] for [0 <= i <= j] *)
Definition py_slice {A} (l : list A) (i j : nat) : list A :=
  firstn (j - i) (skipn i l).

(** ** Payloads of the two platforms *)

Module Ozon.
(** One element of ["items"] in the answer of [/v2/product/list]. *)
Record product : Type :=
  { item_offer_id : string; item_product_id : Z }.

(** The ["result"] object of [/v2/product/list]. *)
Record product_list : Type :=
  { items : list product; last_id : string; total : Z }.

(** [{"offer_id": ..., "stock": ...}] *)
Record stock_entry : Type :=
  { offer_id : string; stock : Z }.

(** [{"auto_action_enabled": ..., "currency_code": ..., "offer_id": ...,
     "old_price": ..., "price": ...}] *)
Record price_entry : Type :=
  { auto_action_enabled : string;
    currency_code : string;
    price_offer_id : string;
    old_price : string;
    price : string }.
End Ozon.

Module Yandex.
(** One element of ["offerMappingEntries"]: [{"offer": {"shopSku": ...}}]. *)
Record mapping_entry : Type := { shopSku : string }.

(** The ["result"] object of [offer-mapping-entries]; a missing
    ["nextPageToken"] is [None]. *)
Record mapping_page : Type :=
  { offerMappingEntries : list mapping_entry;
    nextPageToken : option string }.

(** [{"count": ..., "type": ..., "updatedAt": ...}] *)
Record stock_item : Type :=
  { count : Z; type : string; updatedAt : string }.

(** [{"sku": ..., "warehouseId": ..., "items": [...]}] *)
Record stock_entry : Type :=
  { sku : string; warehouseId : string; items : list stock_item }.

(** [{"id": ..., "price": {"value": ..., "currencyId": ...}}] *)
Record price_entry : Type :=
  { id : string; value : Z; currencyId : string }.
End Yandex.

(** ** The outside world *)

Inductive request : Type :=
| GetStockArchive
| OzonProductList (last_id client_id seller_token : string)
| OzonImportPrices (prices : list Ozon.price_entry)
                   (client_id seller_token : string)
| OzonImportStocks (stocks : list Ozon.stock_entry)
                   (client_id seller_token : string)
| MarketOfferMappingEntries (page campaign_id access_token : string)
| MarketPutStocks (stocks : list Yandex.stock_entry)
                  (campaign_id access_token : string)
| MarketPostPrices (prices : list Yandex.price_entry)
                   (campaign_id access_token : string).

Inductive response : Type :=
| InventoryRows (rows : list dict)
| OzonProducts (page : Ozon.product_list)
| MarketMappings (page : Yandex.mapping_page)
| JsonBody.

(** What the remote side answers to a request, given everything it was
    sent before.  [Raise] is what [requests] or [raise_for_status] throws,
    [OutOfFuel] a call that never comes back. *)
Definition server : Type := list request -> request -> result response.

Definition M (A : Type) : Type :=
  server -> list request -> result A * list request.

Definition ret {A} (a : A) : M A := fun _ sent => (Ok a, sent).

Definition bind {A B} (m : M A) (k : A -> M B) : M B :=
  fun srv sent =>
    match m srv sent with
    | (Ok a, sent') => k a srv sent'
    | (Raise e, sent') => (Raise e, sent')
    | (OutOfFuel, sent') => (OutOfFuel, sent')
    end.

Definition lift {A} (r : result A) : M A := fun _ sent => (r, sent).

Definition raise {A} (c : exn_class) (msg : string) : M A :=
  lift (Raise (mkExn c msg)).

Definition call (req : request) : M response :=
  fun srv sent => (srv sent req, sent ++ [req]).

Notation "x <- m ;; k" := (bind m (fun x => k))
  (at level 61, m at next level, right associativity).
Notation "m ;;; k" := (bind m (fun _ => k))
  (at level 61, right associativity).

(** [for x in l: body(x)] *)
Fixpoint for_each {A} (l : list A) (body : A -> M unit) : M unit :=
  match l with
  | [] => ret tt
  | x :: l' => body x ;;; for_each l' body
  end.

(** Calling an [async def] function builds a coroutine object and runs
    nothing; the body runs when the coroutine is awaited or handed to an
    event loop. *)
Inductive coroutine (A : Type) : Type :=
| Coroutine (body : M A).

Arguments Coroutine {A} body.

Definition await {A} (c : coroutine A) : M A :=
  match c with Coroutine body => body end.

(** How a run of [main] ends. *)
Inductive outcome : Type :=
| Exit (code : Z)
| Hangs.

Record run : Type :=
  { ending : outcome; stdout : list string; sent : list request }.

(** The three [except] clauses shared by both [main]s; each [print] is
    one element of [stdout]. *)
Definition handler (e : exn) : string :=
  match exn_cls e with
  | ReadTimeout => "Превышено время ожидания..."
  | ConnectionError => (exn_msg e ++ " Ошибка соединения")%string
  | _ => (exn_msg e ++ " ERROR_2")%string
  end.

Definition try_except (r : result unit * list request) : run :=
  match r with
  | (Ok _, log) => {| ending := Exit 0; stdout := []; sent := log |}
  | (Raise e, log) =>
      {| ending := Exit 0; stdout := [handler e]; sent := log |}
  | (OutOfFuel, log) => {| ending := Hangs; stdout := []; sent := log |}
  end.

(** An exception nobody catches: traceback on stderr, exit status 1. *)
Definition uncaught (log : list request) : run :=
  {| ending := Exit 1; stdout := []; sent := log |}.

Definition environ : Type := string -> option string.

(** ** seller.py *)

Module Seller.
Import Ozon.

Section WithInterpreter.
Context `{py : Interpreter}.

Definition get_product_list (last_id client_id seller_token : string)
  : M product_list :=
  response_object <- call (OzonProductList last_id client_id seller_token) ;;
  match response_object with
  | OzonProducts result => ret result
  | _ => raise AttributeError "'NoneType' object has no attribute 'get'"
  end.

(** The [while True] loop of [get_offer_ids]. *)
Fixpoint get_offer_ids_loop (fuel : nat) (last_id : string)
         (product_list : list product) (client_id seller_token : string)
  : M (list product) :=
  match fuel with
  | O => lift OutOfFuel
  | S fuel' =>
      some_prod <- get_product_list last_id client_id seller_token ;;
      let product_list := product_list ++ items some_prod in
      if (total some_prod =? Z.of_nat (length product_list))%Z
      then ret product_list
      else get_offer_ids_loop fuel' (Ozon.last_id some_prod) product_list
                              client_id seller_token
  end.

Definition get_offer_ids (fuel : nat) (client_id seller_token : string)
  : M (list string) :=
  product_list <- get_offer_ids_loop fuel "" [] client_id seller_token ;;
  ret (map item_offer_id product_list).

Definition update_price (prices : list price_entry)
           (client_id seller_token : string) : M response :=
  call (OzonImportPrices prices client_id seller_token).

Definition update_stocks (stocks : list stock_entry)
           (client_id seller_token : string) : M response :=
  call (OzonImportStocks stocks client_id seller_token).

(** Download, unpack, read and delete the spreadsheet: one exchange
    with the outside whose answer is the list of rows. *)
Definition download_stock : M (list dict) :=
  response <- call GetStockArchive ;;
  match response with
  | InventoryRows watch_remnants => ret watch_remnants
  | _ => raise ValueError "Excel file format cannot be determined"
  end.

(** The first loop of [create_stocks].  [offer_ids] is the caller's
    list object: the loop removes from it, so its last state is handed
    back next to the result. *)
Fixpoint create_stocks_loop (watch_remnants : list dict)
         (stocks : list stock_entry) (offer_ids : list string)
  : result (list stock_entry) * list string :=
  match watch_remnants with
  | [] => (Ok stocks, offer_ids)
  | watch :: rest =>
      if py_in (py_str (dict_get watch "Код")) offer_ids then
        let count := py_str (dict_get watch "Количество") in
        match (if count =? ">10" then Ok 100%Z
               else if count =? "1" then Ok 0%Z
               else py_int (dict_get watch "Количество")) with
        | Ok stock =>
            let stocks :=
              stocks ++ [{| offer_id := py_str (dict_get watch "Код");
                            stock := stock |}] in
            match list_remove (py_str (dict_get watch "Код")) offer_ids with
            | Some offer_ids => create_stocks_loop rest stocks offer_ids
            | None =>
                (Raise (mkExn ValueError "list.remove(x): x not in list"),
                 offer_ids)
            end
        | Raise e => (Raise e, offer_ids)
        | OutOfFuel => (OutOfFuel, offer_ids)
        end
      else create_stocks_loop rest stocks offer_ids
  end.

Definition create_stocks (watch_remnants : list dict)
           (offer_ids : list string)
  : result (list stock_entry) * list string :=
  match create_stocks_loop watch_remnants [] offer_ids with
  | (Ok stocks, offer_ids) =>
      (Ok (stocks ++
           map (fun offer_id => {| offer_id := offer_id; stock := 0 |})
               offer_ids),
       offer_ids)
  | other => other
  end.

Definition price_conversion (price : string) : string :=
  re_sub_non_digits (hd EmptyString (py_split "." price)).

(** [price_conversion(watch.get("Цена"))]: only a [str] has [split]. *)
Definition price_conversion_of (v : pyval) : result string :=
  match v with
  | PyStr price => Ok (price_conversion price)
  | PyNone =>
      Raise (mkExn AttributeError "'NoneType' object has no attribute 'split'")
  | PyInt _ =>
      Raise (mkExn AttributeError "'int' object has no attribute 'split'")
  end.

Fixpoint create_prices_loop (watch_remnants : list dict)
         (prices : list price_entry) (offer_ids : list string)
  : result (list price_entry) :=
  match watch_remnants with
  | [] => Ok prices
  | watch :: rest =>
      if py_in (py_str (dict_get watch "Код")) offer_ids then
        rbind (price_conversion_of (dict_get watch "Цена")) (fun p =>
          let price :=
            {| auto_action_enabled := "UNKNOWN";
               currency_code := "RUB";
               price_offer_id := py_str (dict_get watch "Код");
               old_price := "0";
               price := p |} in
          create_prices_loop rest (prices ++ [price]) offer_ids)
      else create_prices_loop rest prices offer_ids
  end.

Definition create_prices (watch_remnants : list dict)
           (offer_ids : list string) : result (list price_entry) :=
  create_prices_loop watch_remnants [] offer_ids.

(** The generator is taken as the list of what it yields; a zero step
    makes [range] raise, a negative one gives an empty range. *)
Definition divide {A} (lst : list A) (n : Z) : result (list (list A)) :=
  if (n =? 0)%Z then
    Raise (mkExn ValueError "range() arg 3 must not be zero")
  else if (n <? 0)%Z then Ok []
  else Ok (map (fun i => py_slice lst i (i + Z.to_nat n))
               (py_range (length lst) (Z.to_nat n))).

Definition upload_prices (fuel : nat) (watch_remnants : list dict)
           (client_id seller_token : string)
  : coroutine (list price_entry) :=
  Coroutine (
    offer_ids <- get_offer_ids fuel client_id seller_token ;;
    prices <- lift (create_prices watch_remnants offer_ids) ;;
    chunks <- lift (divide prices 1000) ;;
    for_each chunks (fun some_price =>
      update_price some_price client_id seller_token ;;; ret tt) ;;;
    ret prices).

Definition upload_stocks (fuel : nat) (watch_remnants : list dict)
           (client_id seller_token : string)
  : coroutine (list stock_entry * list stock_entry) :=
  Coroutine (
    offer_ids <- get_offer_ids fuel client_id seller_token ;;
    stocks <- lift (fst (create_stocks watch_remnants offer_ids)) ;;
    chunks <- lift (divide stocks 100) ;;
    for_each chunks (fun some_stock =>
      update_stocks some_stock client_id seller_token ;;; ret tt) ;;;
    let not_empty := filter (fun s => negb (stock s =? 0)%Z) stocks in
    ret (not_empty, stocks)).

(** The body of the [try] block of [main].  [create_prices] is given
    the list object [create_stocks] has removed from. *)
Definition main_try (fuel : nat) (client_id seller_token : string)
  : M unit :=
  offer_ids <- get_offer_ids fuel client_id seller_token ;;
  watch_remnants <- download_stock ;;
  let '(created, offer_ids) := create_stocks watch_remnants offer_ids in
  stocks <- lift created ;;
  chunks <- lift (divide stocks 100) ;;
  for_each chunks (fun some_stock =>
    update_stocks some_stock client_id seller_token ;;; ret tt) ;;;
  prices <- lift (create_prices watch_remnants offer_ids) ;;
  chunks <- lift (divide prices 900) ;;
  for_each chunks (fun some_price =>
    update_price some_price client_id seller_token ;;; ret tt).

Definition main (env : environ) (fuel : nat) (srv : server) : run :=
  match env "SELLER_TOKEN" with
  | None => uncaught []
  | Some seller_token =>
      match env "CLIENT_ID" with
      | None => uncaught []
      | Some client_id =>
          try_except (main_try fuel client_id seller_token srv [])
      end
  end.
End WithInterpreter.
End Seller.

(** ** market.py *)

Module Market.
Import Yandex.

Section WithInterpreter.
Context `{py : Interpreter}.

Definition get_product_list (page campaign_id access_token : string)
  : M mapping_page :=
  response_object <-
    call (MarketOfferMappingEntries page campaign_id access_token) ;;
  match response_object with
  | MarketMappings result => ret result
  | _ => raise AttributeError "'NoneType' object has no attribute 'get'"
  end.

Definition update_stocks (stocks : list stock_entry)
           (campaign_id access_token : string) : M response :=
  call (MarketPutStocks stocks campaign_id access_token).

Definition update_price (prices : list price_entry)
           (campaign_id access_token : string) : M response :=
  call (MarketPostPrices prices campaign_id access_token).

(** The [while True] loop of [get_offer_ids]; [if not page] holds for
    [None] and for the empty string. *)
Fixpoint get_offer_ids_loop (fuel : nat) (page : string)
         (product_list : list mapping_entry)
         (campaign_id market_token : string) : M (list mapping_entry) :=
  match fuel with
  | O => lift OutOfFuel
  | S fuel' =>
      some_prod <- get_product_list page campaign_id market_token ;;
      let product_list := product_list ++ offerMappingEntries some_prod in
      match nextPageToken some_prod with
      | None => ret product_list
      | Some page =>
          if page =? "" then ret product_list
          else get_offer_ids_loop fuel' page product_list
                                  campaign_id market_token
      end
  end.

Definition get_offer_ids (fuel : nat) (campaign_id market_token : string)
  : M (list string) :=
  product_list <- get_offer_ids_loop fuel "" [] campaign_id market_token ;;
  ret (map shopSku product_list).

Definition stock_record (sku warehouse_id : string) (stock : Z)
           (date : string) : stock_entry :=
  {| sku := sku;
     warehouseId := warehouse_id;
     items := [{| count := stock; type := "FIT"; updatedAt := date |}] |}.

(** The first loop of [create_stocks]; [date] is the clock reading
    taken on entry, [offer_ids] the caller's list object. *)
Fixpoint create_stocks_loop (watch_remnants : list dict)
         (stocks : list stock_entry) (offer_ids : list string)
         (warehouse_id date : string)
  : result (list stock_entry) * list string :=
  match watch_remnants with
  | [] => (Ok stocks, offer_ids)
  | watch :: rest =>
      if py_in (py_str (dict_get watch "Код")) offer_ids then
        let count := py_str (dict_get watch "Количество") in
        match (if count =? ">10" then Ok 100%Z
               else if count =? "1" then Ok 0%Z
               else py_int (dict_get watch "Количество")) with
        | Ok stock =>
            let stocks :=
              stocks ++ [stock_record (py_str (dict_get watch "Код"))
                                      warehouse_id stock date] in
            match list_remove (py_str (dict_get watch "Код")) offer_ids with
            | Some offer_ids =>
                create_stocks_loop rest stocks offer_ids warehouse_id date
            | None =>
                (Raise (mkExn ValueError "list.remove(x): x not in list"),
                 offer_ids)
            end
        | Raise e => (Raise e, offer_ids)
        | OutOfFuel => (OutOfFuel, offer_ids)
        end
      else create_stocks_loop rest stocks offer_ids warehouse_id date
  end.

Definition create_stocks (watch_remnants : list dict)
           (offer_ids : list string) (warehouse_id date : string)
  : result (list stock_entry) * list string :=
  match create_stocks_loop watch_remnants [] offer_ids warehouse_id date with
  | (Ok stocks, offer_ids) =>
      (Ok (stocks ++
           map (fun offer_id => stock_record offer_id warehouse_id 0 date)
               offer_ids),
       offer_ids)
  | other => other
  end.

Fixpoint create_prices_loop (watch_remnants : list dict)
         (prices : list price_entry) (offer_ids : list string)
  : result (list price_entry) :=
  match watch_remnants with
  | [] => Ok prices
  | watch :: rest =>
      if py_in (py_str (dict_get watch "Код")) offer_ids then
        rbind (Seller.price_conversion_of (dict_get watch "Цена")) (fun p =>
        rbind (py_int (PyStr p)) (fun v =>
          let price :=
            {| id := py_str (dict_get watch "Код");
               value := v;
               currencyId := "RUR" |} in
          create_prices_loop rest (prices ++ [price]) offer_ids))
      else create_prices_loop rest prices offer_ids
  end.

Definition create_prices (watch_remnants : list dict)
           (offer_ids : list string) : result (list price_entry) :=
  create_prices_loop watch_remnants [] offer_ids.

Definition upload_prices (fuel : nat) (watch_remnants : list dict)
           (campaign_id market_token : string)
  : coroutine (list price_entry) :=
  Coroutine (
    offer_ids <- get_offer_ids fuel campaign_id market_token ;;
    prices <- lift (create_prices watch_remnants offer_ids) ;;
    chunks <- lift (Seller.divide prices 500) ;;
    for_each chunks (fun some_prices =>
      update_price some_prices campaign_id market_token ;;; ret tt) ;;;
    ret prices).

(** [datetime.utcnow()]: the clock is read as a function of what has
    been sent so far. *)
Definition utcnow (clock : list request -> string) : M string :=
  fun _ sent => (Ok (clock sent), sent).

Definition upload_stocks (clock : list request -> string) (fuel : nat)
           (watch_remnants : list dict)
           (campaign_id market_token warehouse_id : string)
  : coroutine (list stock_entry * list stock_entry) :=
  Coroutine (
    offer_ids <- get_offer_ids fuel campaign_id market_token ;;
    date <- utcnow clock ;;
    stocks <- lift (fst (create_stocks watch_remnants offer_ids
                                       warehouse_id date)) ;;
    chunks <- lift (Seller.divide stocks 2000) ;;
    for_each chunks (fun some_stock =>
      update_stocks some_stock campaign_id market_token ;;; ret tt) ;;;
    let not_empty :=
      filter (fun s => match items s with
                       | item :: _ => negb (count item =? 0)%Z
                       | [] => false
                       end) stocks in
    ret (not_empty, stocks)).

(** The body of the [try] block of [main].  The two calls of
    [upload_prices] are plain calls of an [async def] function: each
    builds a coroutine that is dropped at once. *)
Definition main_try (clock : list request -> string) (fuel : nat)
           (watch_remnants : list dict)
           (market_token campaign_fbs_id campaign_dbs_id
            warehouse_fbs_id warehouse_dbs_id : string) : M unit :=
  offer_ids <- get_offer_ids fuel campaign_fbs_id market_token ;;
  date <- utcnow clock ;;
  stocks <- lift (fst (create_stocks watch_remnants offer_ids
                                     warehouse_fbs_id date)) ;;
  chunks <- lift (Seller.divide stocks 2000) ;;
  for_each chunks (fun some_stock =>
    update_stocks some_stock campaign_fbs_id market_token ;;; ret tt) ;;;
  let _ := upload_prices fuel watch_remnants campaign_fbs_id market_token in
  offer_ids <- get_offer_ids fuel campaign_dbs_id market_token ;;
  date <- utcnow clock ;;
  stocks <- lift (fst (create_stocks watch_remnants offer_ids
                                     warehouse_dbs_id date)) ;;
  chunks <- lift (Seller.divide stocks 2000) ;;
  for_each chunks (fun some_stock =>
    update_stocks some_stock campaign_dbs_id market_token ;;; ret tt) ;;;
  let _ := upload_prices fuel watch_remnants campaign_dbs_id market_token in
  ret tt.

(** [download_stock()] is called before the [try] block is entered. *)
Definition main (env : environ) (clock : list request -> string)
           (fuel : nat) (srv : server) : run :=
  match env "MARKET_TOKEN", env "FBS_ID", env "DBS_ID",
        env "WAREHOUSE_FBS_ID", env "WAREHOUSE_DBS_ID" with
  | Some market_token, Some campaign_fbs_id, Some campaign_dbs_id,
    Some warehouse_fbs_id, Some warehouse_dbs_id =>
      match Seller.download_stock srv [] with
      | (Ok watch_remnants, log) =>
          try_except
            (main_try clock fuel watch_remnants market_token
                      campaign_fbs_id campaign_dbs_id
                      warehouse_fbs_id warehouse_dbs_id srv log)
      | (Raise e, log) => uncaught log
      | (OutOfFuel, log) =>
          {| ending := Hangs; stdout := []; sent := log |}
      end
  | _, _, _, _, _ => uncaught []
  end.
End WithInterpreter.
End Market.

(** * Definitions used to state the properties *)

Section Properties.
Context `{py : Interpreter}.

(** [str(watch.get("Код"))] *)
Definition code_of (watch : dict) : string := py_str (dict_get watch "Код").

(** Ceiling of [a / b] for a positive [b]. *)
Definition ceil_div (a b : nat) : nat := (a + b - 1) / b.

(** [l'] is [l] with some elements left out, order kept. *)
Inductive subseq {A : Type} : list A -> list A -> Prop :=
| subseq_nil : subseq [] []
| subseq_skip x l' l : subseq l' l -> subseq l' (x :: l)
| subseq_keep x l' l : subseq l' l -> subseq (x :: l') (x :: l).

(** Put one more entry in front of what a reconciliation gives. *)
Definition with_head {E : Type} (e : E)
           (r : result (list E) * list string)
  : result (list E) * list string :=
  (rbind (fst r) (fun stocks => Ok (e :: stocks)), snd r).

(** The quantity rule of [create_stocks], on the raw quantity field. *)
Definition bucket (raw : pyval) : result Z :=
  if py_str raw =? ">10" then Ok 100%Z
  else if py_str raw =? "1" then Ok 0%Z
  else py_int raw.

(** The shape the two [create_stocks] share: they differ in the record
    built from an identifier and a quantity. *)
Section ReconcileShape.
Variable E : Type.
Variable mk : string -> Z -> E.

Fixpoint stocks_loop (watch_remnants : list dict) (stocks : list E)
         (offer_ids : list string) : result (list E) * list string :=
  match watch_remnants with
  | [] => (Ok stocks, offer_ids)
  | watch :: rest =>
      if py_in (code_of watch) offer_ids then
        match bucket (dict_get watch "Количество") with
        | Ok stock =>
            match list_remove (code_of watch) offer_ids with
            | Some offer_ids =>
                stocks_loop rest (stocks ++ [mk (code_of watch) stock])
                            offer_ids
            | None =>
                (Raise (mkExn ValueError "list.remove(x): x not in list"),
                 offer_ids)
            end
        | Raise e => (Raise e, offer_ids)
        | OutOfFuel => (OutOfFuel, offer_ids)
        end
      else stocks_loop rest stocks offer_ids
  end.

Definition stocks_of (watch_remnants : list dict) (offer_ids : list string)
  : result (list E) * list string :=
  match stocks_loop watch_remnants [] offer_ids with
  | (Ok stocks, offer_ids) =>
      (Ok (stocks ++ map (fun offer_id => mk offer_id 0%Z) offer_ids),
       offer_ids)
  | other => other
  end.

(** The bucketing rule, stated for a reconciler [create]: what it
    gives on an empty inventory, and what it does with the first record
    of any other, by whether the code is in the list. *)
Definition bucketing_rule
           (create : list dict -> list string
                     -> result (list E) * list string) : Prop :=
  (forall offer_ids : list string,
      create [] offer_ids
      = (Ok (map (fun offer_id => mk offer_id 0%Z) offer_ids), offer_ids)) /\
  forall (watch : dict) (rest : list dict) (offer_ids : list string),
    let raw := dict_get watch "Количество" in
    (In (code_of watch) offer_ids ->
     exists remaining,
       list_remove (code_of watch) offer_ids = Some remaining /\
       (py_str raw = ">10" ->
        create (watch :: rest) offer_ids
        = with_head (mk (code_of watch) 100%Z) (create rest remaining)) /\
       (py_str raw = "1" ->
        create (watch :: rest) offer_ids
        = with_head (mk (code_of watch) 0%Z) (create rest remaining)) /\
       (py_str raw <> ">10" -> py_str raw <> "1" ->
        forall q, py_int raw = Ok q ->
        create (watch :: rest) offer_ids
        = with_head (mk (code_of watch) q) (create rest remaining)) /\
       (py_str raw <> ">10" -> py_str raw <> "1" ->
        forall e, py_int raw = Raise e ->
        create (watch :: rest) offer_ids = (Raise e, offer_ids))) /\
    (~ In (code_of watch) offer_ids ->
     create (watch :: rest) offer_ids = create rest offer_ids).
End ReconcileShape.

Arguments stocks_loop {E} mk watch_remnants stocks offer_ids.
Arguments stocks_of {E} mk watch_remnants offer_ids.
Arguments bucketing_rule {E} mk create.

(** [watch] is a record of the inventory and no record before it has
    its code: the records a list without repetition can match. *)
Definition first_of_its_code (watch_remnants : list dict) (watch : dict)
  : Prop :=
  exists before after,
    watch_remnants = before ++ watch :: after /\
    ~ In (code_of watch) (map code_of before).

(** The quantity field of a record is one the bucketing rule accepts. *)
Definition quantity_ok (watch : dict) : Prop :=
  let raw := dict_get watch "Количество" in
  py_str raw = ">10" \/ py_str raw = "1" \/ exists q, py_int raw = Ok q.

(** Quantity carried by a Marketplace B stock record. *)
Definition market_count (s : Yandex.stock_entry) : Z :=
  match Yandex.items s with
  | item :: _ => Yandex.count item
  | [] => 0%Z
  end.

(** [x] is the code of no record of the inventory. *)
Definition unmatched (watch_remnants : list dict) (x : string) : bool :=
  negb (py_in x (map code_of watch_remnants)).

(** A spreadsheet row with the three columns the code reads. *)
Definition inventory_row (code quantity price : pyval) : dict :=
  [("Код", code); ("Количество", quantity); ("Цена", price)].

(** [l.remove(c)] for each [c] of [codes] in turn. *)
Fixpoint remove_each (codes : list string) (l : list string)
  : option (list string) :=
  match codes with
  | [] => Some l
  | c :: codes' =>
      match list_remove c l with
      | Some l' => remove_each codes' l'
      | None => None
      end
  end.



(** What [main] of seller.py still does once [create_stocks] has
    returned [stocks]; [created_prices] is what its call of
    [create_prices] gives. *)
Definition seller_uploads (stocks : list Ozon.stock_entry)
           (created_prices : result (list Ozon.price_entry))
           (client_id seller_token : string) : M unit :=
  chunks <- lift (Seller.divide stocks 100) ;;
  for_each chunks (fun some_stock =>
    Seller.update_stocks some_stock client_id seller_token ;;; ret tt) ;;;
  prices <- lift created_prices ;;
  chunks <- lift (Seller.divide prices 900) ;;
  for_each chunks (fun some_price =>
    Seller.update_price some_price client_id seller_token ;;; ret tt).

(** The end-to-end scenario of the specification. *)
Definition scenario_inventory : list dict :=
  [inventory_row (PyStr "A1") (PyStr ">10") (PyStr "500.00 р.");
   inventory_row (PyStr "A2") (PyStr "1") (PyStr "100.00 р.")].

Definition scenario_offer_ids : list string := ["A1"; "A2"; "A3"].

Definition scenario_env : environ :=
  fun name =>
    if name =? "SELLER_TOKEN" then Some "token"
    else if name =? "CLIENT_ID" then Some "client"
    else None.

Definition scenario_server : server :=
  fun _ req =>
    match req with
    | GetStockArchive => Ok (InventoryRows scenario_inventory)
    | OzonProductList _ _ _ =>
        Ok (OzonProducts
              {| Ozon.items :=
                   map (fun i => {| Ozon.item_offer_id := i;
                                    Ozon.item_product_id := 0 |})
                       scenario_offer_ids;
                 Ozon.last_id := "";
                 Ozon.total := 3 |})
    | _ => Ok JsonBody
    end.

Definition ozon_price (offer_id price : string) : Ozon.price_entry :=
  {| Ozon.auto_action_enabled := "UNKNOWN";
     Ozon.currency_code := "RUB";
     Ozon.price_offer_id := offer_id;
     Ozon.old_price := "0";
     Ozon.price := price |}.

(** The remote side answers the successive requests of [exchanges], sent
    after [log], with the responses paired with them. *)
Fixpoint serves (srv : server) (log : list request)
         (exchanges : list (request * response)) : Prop :=
  match exchanges with
  | [] => True
  | (req, resp) :: rest =>
      srv log req = Ok resp /\ serves srv (log ++ [req]) rest
  end.

(** A mock source of three pages for each platform: the page served
    depends on how many requests came before. *)
Definition numbered (prefix : string) (start len : nat) : list string :=
  map (fun n => (prefix ++ NilEmpty.string_of_uint (Nat.to_uint n))%string)
      (seq start len).

Definition mock_market_page (start len : nat) (next : option string)
  : response :=
  MarketMappings
    {| Yandex.offerMappingEntries :=
         map Yandex.Build_mapping_entry (numbered "sku-" start len);
       Yandex.nextPageToken := next |}.

Definition mock_market_source : server :=
  fun log _ =>
    match length log with
    | 0 => Ok (mock_market_page 0 200 (Some "page-2"))
    | 1 => Ok (mock_market_page 200 200 (Some "page-3"))
    | 2 => Ok (mock_market_page 400 50 (Some ""))
    | _ => Raise (mkExn HTTPError "404 Client Error")
    end.

Definition mock_ozon_page (start len : nat) (last : string) : response :=
  OzonProducts
    {| Ozon.items :=
         map (fun s => {| Ozon.item_offer_id := s;
                          Ozon.item_product_id := 0 |})
             (numbered "offer-" start len);
       Ozon.last_id := last;
       Ozon.total := 450 |}.

Definition mock_ozon_source : server :=
  fun log _ =>
    match length log with
    | 0 => Ok (mock_ozon_page 0 200 "cursor-1")
    | 1 => Ok (mock_ozon_page 200 200 "cursor-2")
    | 2 => Ok (mock_ozon_page 400 50 "")
    | _ => Raise (mkExn HTTPError "404 Client Error")
    end.

(** [if not page]: a missing or empty next-page token. *)
Definition exhausted (token : option string) : Prop :=
  token = None \/ token = Some "".

(** Whatever [m] is run against, it only adds requests satisfying [P] to
    the log. *)
Definition emits {A : Type} (P : request -> Prop) (m : M A) : Prop :=
  forall srv log,
  exists added, snd (m srv log) = log ++ added /\ Forall P added.

(** The campaign a Marketplace B request is addressed to. *)
Definition campaign_of (req : request) : option string :=
  match req with
  | MarketOfferMappingEntries _ campaign_id _
  | MarketPutStocks _ campaign_id _
  | MarketPostPrices _ campaign_id _ => Some campaign_id
  | _ => None
  end.

Definition is_price_update (req : request) : bool :=
  match req with
  | MarketPostPrices _ _ _ => true
  | _ => false
  end.

(** One channel's share of the [try] block of [main] in market.py: the
    block is this for FBS followed by this for DBS. *)
Definition market_channel (clock : list request -> string) (fuel : nat)
           (watch_remnants : list dict)
           (market_token campaign_id warehouse_id : string) : M unit :=
  offer_ids <- Market.get_offer_ids fuel campaign_id market_token ;;
  date <- Market.utcnow clock ;;
  stocks <- lift (fst (Market.create_stocks watch_remnants offer_ids
                                            warehouse_id date)) ;;
  chunks <- lift (Seller.divide stocks 2000) ;;
  for_each chunks (fun some_stock =>
    Market.update_stocks some_stock campaign_id market_token ;;; ret tt) ;;;
  let _ := Market.upload_prices fuel watch_remnants campaign_id market_token in
  ret tt.

(** Settings, clock and remote sides for runs of market.py. *)
Definition market_env : environ :=
  fun name =>
    if name =? "MARKET_TOKEN" then Some "token"
    else if name =? "FBS_ID" then Some "fbs"
    else if name =? "DBS_ID" then Some "dbs"
    else if name =? "WAREHOUSE_FBS_ID" then Some "wh-fbs"
    else if name =? "WAREHOUSE_DBS_ID" then Some "wh-dbs"
    else None.

Definition fixed_clock : list request -> string :=
  fun _ => "2024-01-01T00:00:00Z".

Definition market_server : server :=
  fun _ req =>
    match req with
    | GetStockArchive => Ok (InventoryRows scenario_inventory)
    | MarketOfferMappingEntries _ _ _ =>
        Ok (MarketMappings
              {| Yandex.offerMappingEntries :=
                   map Yandex.Build_mapping_entry scenario_offer_ids;
                 Yandex.nextPageToken := None |})
    | _ => Ok JsonBody
    end.

(** The catalogue of the FBS campaign cannot be reached. *)
Definition fbs_down_server : server :=
  fun log req =>
    match req with
    | MarketOfferMappingEntries _ campaign_id _ =>
        if campaign_id =? "fbs"
        then Raise (mkExn ConnectionError "HTTPSConnectionPool: FBS")
        else market_server log req
    | _ => market_server log req
    end.

(** The stock archive cannot be reached. *)
Definition archive_down_server : server :=
  fun log req =>
    match req with
    | GetStockArchive =>
        Raise (mkExn ConnectionError "HTTPSConnectionPool: timeworld.ru")
    | OzonProductList _ _ _ => scenario_server log req
    | _ => market_server log req
    end.

Definition market_price (id : string) (value : Z) : Yandex.price_entry :=
  {| Yandex.id := id; Yandex.value := value; Yandex.currencyId := "RUR" |}.

(** The FBS share of a run raises. *)
Definition fbs_fails (env : environ) (clock : list request -> string)
           (fuel : nat) (srv : server) : Prop :=
  exists market_token campaign_fbs_id warehouse_fbs_id watch_remnants
         log0 e log1,
    env "MARKET_TOKEN" = Some market_token /\
    env "FBS_ID" = Some campaign_fbs_id /\
    env "WAREHOUSE_FBS_ID" = Some warehouse_fbs_id /\
    Seller.download_stock srv [] = (Ok watch_remnants, log0) /\
    market_channel clock fuel watch_remnants market_token campaign_fbs_id
                   warehouse_fbs_id srv log0 = (Raise e, log1).

(** The catalogue of the DBS campaign was asked for during a run. *)
Definition dbs_enumerated (env : environ) (r : run) : Prop :=
  exists market_token campaign_dbs_id page,
    env "MARKET_TOKEN" = Some market_token /\
    env "DBS_ID" = Some campaign_dbs_id /\
    In (MarketOfferMappingEntries page campaign_dbs_id market_token) (sent r).

(** Channel independence as the specification words it, for one run. *)
Definition channel_independence (env : environ)
           (clock : list request -> string) (fuel : nat) (srv : server)
  : Prop :=
  fbs_fails env clock fuel srv ->
  dbs_enumerated env (Market.main env clock fuel srv).

(** ** Definitions for the properties of the uploads *)

(** The payload of an update request stays within the batch size its
    call site cuts to, and is not empty. *)
Definition within_batch_limits (req : request) : Prop :=
  match req with
  | OzonImportStocks stocks _ _ => 1 <= length stocks <= 100
  | OzonImportPrices prices _ _ => 1 <= length prices <= 900
  | MarketPutStocks stocks _ _ => 1 <= length stocks <= 2000
  | MarketPostPrices prices _ _ => 1 <= length prices <= 500
  | _ => True
  end.

(** The remote side answers each request of [reqs], sent in turn after
    [log], without an error. *)
Fixpoint accepts (srv : server) (log : list request) (reqs : list request)
  : Prop :=
  match reqs with
  | [] => True
  | req :: rest =>
      (exists resp, srv log req = Ok resp) /\ accepts srv (log ++ [req]) rest
  end.


(** A catalogue of 150 products and an empty inventory, on a remote side
    that takes the first stock import and refuses the ones after it. *)
Definition large_offer_ids : list string := numbered "offer-" 0 150.

Definition large_stocks : list Ozon.stock_entry :=
  map (fun offer_id => Ozon.Build_stock_entry offer_id 0) large_offer_ids.

Definition second_batch_down_server : server :=
  fun log req =>
    match req with
    | GetStockArchive => Ok (InventoryRows [])
    | OzonProductList _ _ _ =>
        Ok (OzonProducts
              {| Ozon.items :=
                   map (fun s => Ozon.Build_product s 0) large_offer_ids;
                 Ozon.last_id := "";
                 Ozon.total := 150 |})
    | OzonImportStocks _ _ _ =>
        if (length log =? 2)%nat then Ok JsonBody
        else Raise (mkExn HTTPError
                          "500 Server Error: /v1/product/import/stocks")
    | _ => Ok JsonBody
    end.

(** ** Definitions for the properties of the enumerators *)

(** Second platform: the exchanges for pages that each carry a next-page
    token, starting from the cursor [page], and the cursor they end on. *)
Fixpoint market_prefix (campaign_id market_token page : string)
         (pages : list (list Yandex.mapping_entry * string))
  : list (request * response) :=
  match pages with
  | [] => []
  | (entries, next) :: rest =>
      (MarketOfferMappingEntries page campaign_id market_token,
       MarketMappings (Yandex.Build_mapping_page entries (Some next)))
        :: market_prefix campaign_id market_token next rest
  end.

Fixpoint market_cursor (page : string)
         (pages : list (list Yandex.mapping_entry * string)) : string :=
  match pages with
  | [] => page
  | (_, next) :: rest => market_cursor next rest
  end.

(** First platform: the exchanges for a run of pages starting from the
    cursor [last_id], the cursor they end on, and the condition that, with
    [count] products held before, none of these pages reports a total
    equal to the number of products held after it. *)
Fixpoint ozon_prefix (client_id seller_token last_id : string)
         (pages : list Ozon.product_list) : list (request * response) :=
  match pages with
  | [] => []
  | page :: rest =>
      (OzonProductList last_id client_id seller_token, OzonProducts page)
        :: ozon_prefix client_id seller_token (Ozon.last_id page) rest
  end.

Fixpoint ozon_cursor (last_id : string) (pages : list Ozon.product_list)
  : string :=
  match pages with
  | [] => last_id
  | page :: rest => ozon_cursor (Ozon.last_id page) rest
  end.

Fixpoint ozon_goes_on (count : nat) (pages : list Ozon.product_list) : Prop :=
  match pages with
  | [] => True
  | page :: rest =>
      Ozon.total page <> Z.of_nat (count + length (Ozon.items page)) /\
      ozon_goes_on (count + length (Ozon.items page)) rest
  end.

Definition ozon_items (pages : list Ozon.product_list) : list Ozon.product :=
  concat (map Ozon.items pages).

Definition market_entries (pages : list (list Yandex.mapping_entry * string))
  : list Yandex.mapping_entry :=
  concat (map fst pages).


(** A source that always names a next page, one that delivers more than
    the total it reports, and one that breaks down after its first page. *)
Definition endless_market_source : server :=
  fun _ _ => Ok (mock_market_page 0 2 (Some "more")).

Definition overshooting_ozon_source : server :=
  fun _ _ =>
    Ok (OzonProducts
          {| Ozon.items := [Ozon.Build_product "offer-0" 0;
                            Ozon.Build_product "offer-1" 0];
             Ozon.last_id := "offer-1";
             Ozon.total := 1 |}).

Definition second_page_down_source : server :=
  fun log req =>
    match length log with
    | 0 =>
        match req with
        | OzonProductList _ _ _ => Ok (mock_ozon_page 0 200 "cursor-1")
        | _ => Ok (mock_market_page 0 200 (Some "page-2"))
        end
    | _ => Raise (mkExn ReadTimeout "Read timed out.")
    end.


(** ** Definitions for further properties of the reconciler *)

(** The second platform's record for a first platform's stock entry. *)
Definition to_market_stock (warehouse_id date : string)
           (s : Ozon.stock_entry) : Yandex.stock_entry :=
  Market.stock_record (Ozon.offer_id s) warehouse_id (Ozon.stock s) date.

(** The price field of a record is a string. *)
Definition price_is_string (watch : dict) : Prop :=
  exists s, dict_get watch "Цена" = PyStr s.

(** The number a string of digits writes, from [acc] on. *)
Definition digits_value (acc : Z) (l : list ascii) : Z :=
  fold_left (fun n c => (10 * n + digit_val c)%Z) l acc.


(** The price field of a record is a string with a digit before its
    first dot, and no more digits there than [int] takes. *)
Definition price_parses (watch : dict) : Prop :=
  exists s,
    dict_get watch "Цена" = PyStr s /\
    Seller.price_conversion s <> "" /\
    over_limit (String.length (Seller.price_conversion s)) = false.

(** A second platform's price record says what a first platform's says. *)
Definition same_price (m : Yandex.price_entry) (s : Ozon.price_entry) : Prop :=
  Yandex.id m = Ozon.price_offer_id s /\
  Yandex.currencyId m = "RUR" /\
  Ozon.price s <> "" /\
  Yandex.value m = digits_value 0 (list_ascii_of_string (Ozon.price s)) /\
  (0 <= Yandex.value m)%Z.


Definition is_ozon_price_update (req : request) : bool :=
  match req with
  | OzonImportPrices _ _ _ => true
  | _ => false
  end.

(** * Properties *)

(** ** Strings and prices *)

Lemma is_digit_spec (c : ascii) :
  is_digit c = true <-> In c (list_ascii_of_string "0123456789").
Proof.
  destruct c as [[] [] [] [] [] [] [] []]; vm_compute; split; intro H;
    try discriminate; try tauto;
    repeat (destruct H as [H | H]; [discriminate H |]); try contradiction.
Qed.

Lemma py_split_head (s : string) :
  exists pre post pieces,
    py_split "." s = pre :: pieces /\
    s = (pre ++ post)%string /\
    (post = "" \/ exists rest, post = String "." rest) /\
    ~ In "."%char (list_ascii_of_string pre).
Proof.
  induction s as [| c s IH].
  - exists "", "", []. simpl. repeat split; auto.
  - simpl. destruct (Ascii.eqb c ".") eqn:E.
    + apply Ascii.eqb_eq in E. subst c.
      exists "", (String "." s), (py_split "." s). simpl.
      repeat split; eauto.
    + destruct IH as (pre & post & pieces & Hs & Hcat & Hpost & Hno).
      rewrite Hs. exists (String c pre), post, pieces. simpl.
      repeat split; auto.
      * now rewrite Hcat.
      * intros [Hc | Hin]; [| now apply Hno].
        subst c. discriminate E.
Qed.

Lemma re_sub_non_digits_filter (s : string) :
  list_ascii_of_string (re_sub_non_digits s)
  = filter is_digit (list_ascii_of_string s).
Proof.
  induction s as [| c s IH]; simpl; [reflexivity |].
  destruct (is_digit c); simpl; now rewrite IH.
Qed.

(** C7. [price_conversion] keeps the part of the price before its first
    dot and deletes from it every character that is not one of the ten
    ASCII digits; the three prices of the specification come out as
    5990, 100 and 1234. *)
Theorem price_conversion_spec :
  (forall price : string,
      exists pre post,
        price = (pre ++ post)%string /\
        (post = "" \/ exists rest, post = String "." rest) /\
        ~ In "."%char (list_ascii_of_string pre) /\
        list_ascii_of_string (Seller.price_conversion price)
        = filter is_digit (list_ascii_of_string pre)) /\
  Seller.price_conversion "5'990.00 руб." = "5990" /\
  Seller.price_conversion "100.00" = "100" /\
  Seller.price_conversion "1,234.50 $" = "1234".
Proof.
  split; [| repeat split; reflexivity].
  intros price.
  destruct (py_split_head price) as (pre & post & pieces & Hs & Hcat & Hpost & Hno).
  exists pre, post. repeat split; auto.
  unfold Seller.price_conversion. rewrite Hs. simpl.
  apply re_sub_non_digits_filter.
Qed.

(** ** Batching *)

Lemma ceil_div_bounds (a b : nat) :
  0 < b ->
  a <= ceil_div a b * b /\ (0 < a -> (ceil_div a b - 1) * b < a) /\
  (a = 0 -> ceil_div a b = 0).
Proof.
  intros Hb. unfold ceil_div.
  pose proof (Nat.div_mod_eq (a + b - 1) b) as Hdm.
  pose proof (Nat.mod_upper_bound (a + b - 1) b ltac:(lia)) as Hr.
  set (q := (a + b - 1) / b) in *. set (r := (a + b - 1) mod b) in *.
  repeat split; intros; nia.
Qed.

Lemma ceil_div_step (m step : nat) :
  0 < step -> 0 < m ->
  ceil_div m step = S (ceil_div (m - step) step).
Proof.
  intros Hs Hm. unfold ceil_div.
  replace (m + step - 1) with ((m - 1) + 1 * step) by lia.
  rewrite Nat.div_add by lia.
  destruct (le_lt_dec step m) as [Hle | Hlt].
  - replace (m - step + step - 1) with (m - 1) by lia. lia.
  - replace (m - step + step - 1) with (step - 1) by lia.
    rewrite !Nat.div_small by lia. lia.
Qed.

Lemma py_range_from_eq (fuel i stop step : nat) :
  0 < step -> stop - i <= fuel ->
  py_range_from fuel i stop step
  = map (fun k => i + k * step) (seq 0 (ceil_div (stop - i) step)).
Proof.
  intros Hstep. revert i.
  induction fuel as [| fuel IH]; intros i Hfuel; simpl.
  - replace (stop - i) with 0 by lia.
    destruct (ceil_div_bounds 0 step Hstep) as (_ & _ & ->); reflexivity.
  - destruct (Nat.ltb_spec i stop) as [Hlt | Hge].
    + rewrite (ceil_div_step (stop - i) step) by lia.
      replace (stop - i - step) with (stop - (i + step)) by lia.
      rewrite IH by lia. simpl. rewrite <- seq_shift, map_map.
      f_equal; [lia |]. apply map_ext. intros k. lia.
    + replace (stop - i) with 0 by lia.
      destruct (ceil_div_bounds 0 step Hstep) as (_ & _ & ->); reflexivity.
Qed.

Section Batching.
Variable A : Type.

Lemma firstn_plus (a b : nat) (l : list A) :
  firstn (a + b) l = firstn a l ++ firstn b (skipn a l).
Proof.
  revert l. induction a as [| a IH]; intros l; simpl; [reflexivity |].
  destruct l as [| x l]; simpl.
  - now rewrite firstn_nil.
  - now rewrite IH.
Qed.

(** The chunks of [divide] are the consecutive windows of width [n]. *)
Lemma divide_windows (lst : list A) (n : Z) :
  (0 < n)%Z ->
  Seller.divide lst n
  = Ok (map (fun k => firstn (Z.to_nat n) (skipn (k * Z.to_nat n) lst))
            (seq 0 (ceil_div (length lst) (Z.to_nat n)))).
Proof.
  intros Hn. unfold Seller.divide, py_range.
  destruct (Z.eqb_spec n 0) as [-> | _]; [lia |].
  destruct (Z.ltb_spec n 0) as [Hneg | _]; [lia |].
  rewrite py_range_from_eq by lia.
  rewrite Nat.sub_0_r, map_map. f_equal. apply map_ext. intros k.
  unfold py_slice. f_equal. lia.
Qed.

Lemma concat_windows (lst : list A) (n k : nat) :
  concat (map (fun j => firstn n (skipn (j * n) lst)) (seq 0 k))
  = firstn (k * n) lst.
Proof.
  induction k as [| k IH]; [reflexivity |].
  rewrite seq_S, map_app, concat_app, IH. simpl.
  rewrite app_nil_r, (Nat.add_comm n (k * n)). symmetry. apply firstn_plus.
Qed.

Lemma last_error_map_seq (f : nat -> list A) (k : nat) (x : list A) :
  nth_error (map f (seq 0 k)) (k - 1) = Some x -> 0 < k -> x = f (k - 1).
Proof.
  intros H Hk. rewrite nth_error_map, nth_error_seq in H.
  destruct (Nat.ltb_spec (k - 1) k) as [_ | Hbad]; [| lia].
  simpl in H. now inversion H.
Qed.
End Batching.

(** C9. For a positive [n], [divide lst n] yields [ceil (len lst / n)]
    chunks, every chunk but the last has [n] elements, the last one has
    between 1 and [n] and is short exactly when [n] does not divide the
    length, and the chunks put end to end are [lst]. *)
Theorem divide_spec (A : Type) (lst : list A) (n : Z) :
  (0 < n)%Z ->
  exists chunks,
    Seller.divide lst n = Ok chunks /\
    length chunks = ceil_div (length lst) (Z.to_nat n) /\
    (forall i, S i < length chunks ->
               length (nth i chunks []) = Z.to_nat n) /\
    (forall last,
        nth_error chunks (length chunks - 1) = Some last ->
        0 < length last <= Z.to_nat n /\
        (length last < Z.to_nat n <-> length lst mod Z.to_nat n <> 0)) /\
    concat chunks = lst.
Proof.
  intros Hn. rewrite divide_windows by assumption.
  set (w := Z.to_nat n). assert (Hw : 0 < w) by (subst w; lia).
  set (K := ceil_div (length lst) w).
  destruct (ceil_div_bounds (length lst) w Hw) as (Hup & Hlow & Hzero).
  fold K in Hup, Hlow, Hzero.
  eexists. split; [reflexivity |].
  assert (Hlen : length (map (fun k => firstn w (skipn (k * w) lst)) (seq 0 K)) = K)
    by now rewrite length_map, length_seq.
  rewrite Hlen. split; [reflexivity |]. split; [| split].
  - intros i Hi.
    rewrite (nth_indep _ [] (firstn w (skipn (0 * w) lst)))
      by (rewrite Hlen; lia).
    rewrite (map_nth (fun k => firstn w (skipn (k * w) lst))).
    rewrite seq_nth by lia. simpl.
    rewrite length_firstn, length_skipn.
    assert (0 < length lst) by (destruct (length lst); [rewrite Hzero in Hi |]; lia).
    specialize (Hlow ltac:(lia)). nia.
  - intros last Hlast.
    assert (HK : 0 < K).
    { destruct K; [simpl in Hlast; discriminate | lia]. }
    apply last_error_map_seq in Hlast; [| assumption]. subst last.
    rewrite length_firstn, length_skipn.
    assert (Hpos : 0 < length lst).
    { destruct (length lst); [rewrite Hzero in HK |]; lia. }
    specialize (Hlow Hpos).
    set (t := length lst - (K - 1) * w).
    assert (Ht : 0 < t <= w) by (subst t; nia).
    assert (HL : length lst = t + (K - 1) * w) by (subst t; lia).
    split; [lia |].
    fold t. replace (length lst mod w) with (t mod w)
      by (rewrite HL; now rewrite Nat.Div0.mod_add).
    destruct (Nat.eq_dec t w) as [-> | Hne].
    + rewrite Nat.Div0.mod_same. lia.
    + rewrite Nat.mod_small by lia. lia.
  - rewrite concat_windows. apply firstn_all2. lia.
Qed.

(** ** Lists of identifiers *)

Lemma py_in_In (x : string) (l : list string) :
  py_in x l = true <-> In x l.
Proof.
  unfold py_in. rewrite existsb_exists. split.
  - intros (y & Hy & Heq). apply String.eqb_eq in Heq. now subst.
  - intros H. exists x. split; [assumption | apply String.eqb_refl].
Qed.

Lemma py_in_false (x : string) (l : list string) :
  py_in x l = false <-> ~ In x l.
Proof.
  rewrite <- py_in_In. destruct (py_in x l); split; intro H;
    try reflexivity; try discriminate; try (intro; discriminate).
  now elim H.
Qed.

Lemma list_remove_split (x : string) (l : list string) :
  In x l ->
  exists l1 l2,
    l = l1 ++ x :: l2 /\ ~ In x l1 /\ list_remove x l = Some (l1 ++ l2).
Proof.
  induction l as [| y l IH]; intros Hin; [contradiction |].
  simpl. destruct (String.eqb_spec x y) as [<- | Hne].
  - exists [], l. simpl. auto.
  - destruct Hin as [Heq | Hin]; [congruence |].
    destruct (IH Hin) as (l1 & l2 & -> & Hno & ->).
    exists (y :: l1), l2. simpl. repeat split; auto.
    intros [H | H]; [congruence | contradiction].
Qed.

Lemma list_remove_some (x : string) (l l' : list string) :
  list_remove x l = Some l' ->
  exists l1 l2, l = l1 ++ x :: l2 /\ ~ In x l1 /\ l' = l1 ++ l2.
Proof.
  revert l'. induction l as [| y l IH]; intros l' H; [discriminate |].
  simpl in H. destruct (String.eqb_spec x y) as [<- | Hne].
  - inversion H; subst. exists [], l'. auto.
  - destruct (list_remove x l) as [l0 |] eqn:E; [| discriminate].
    simpl in H. inversion H; subst.
    destruct (IH l0 eq_refl) as (l1 & l2 & -> & Hno & ->).
    exists (y :: l1), l2. repeat split; auto.
    intros [Heq | Hin]; [congruence | contradiction].
Qed.

Lemma subseq_refl {A} (l : list A) : subseq l l.
Proof. induction l; constructor; assumption. Qed.

Lemma subseq_trans {A} (l1 l2 l3 : list A) :
  subseq l1 l2 -> subseq l2 l3 -> subseq l1 l3.
Proof.
  intros H12 H23. revert l1 H12.
  induction H23 as [| x l2 l3 H IH | x l2 l3 H IH]; intros l1 H12.
  - assumption.
  - constructor. now apply IH.
  - inversion H12; subst.
    + apply subseq_skip. now apply IH.
    + apply subseq_keep. now apply IH.
Qed.

Lemma subseq_In {A} (l' l : list A) (x : A) :
  subseq l' l -> In x l' -> In x l.
Proof.
  induction 1 as [| y l' l H IH | y l' l H IH]; simpl; intuition.
Qed.

Lemma subseq_drop_middle {A} (l1 l2 : list A) (x : A) :
  subseq (l1 ++ l2) (l1 ++ x :: l2).
Proof.
  induction l1 as [| y l1 IH]; simpl.
  - constructor. apply subseq_refl.
  - now constructor.
Qed.

Lemma list_remove_facts (x : string) (l l' : list string) :
  list_remove x l = Some l' ->
  Permutation l (x :: l') /\ subseq l' l /\ (NoDup l -> NoDup l' /\ ~ In x l').
Proof.
  intros H. destruct (list_remove_some x l l' H) as (l1 & l2 & -> & Hno & ->).
  split; [| split].
  - symmetry. apply Permutation_middle.
  - apply subseq_drop_middle.
  - intros Hnd. split.
    + eapply NoDup_remove_1; eassumption.
    + eapply NoDup_remove_2; eassumption.
Qed.

(** ** The reconciler *)

Lemma seller_loop_shape (watch_remnants : list dict)
      (stocks : list Ozon.stock_entry) (offer_ids : list string) :
  Seller.create_stocks_loop watch_remnants stocks offer_ids
  = stocks_loop Ozon.Build_stock_entry watch_remnants stocks offer_ids.
Proof. reflexivity. Qed.

Lemma seller_create_stocks_shape (watch_remnants : list dict)
      (offer_ids : list string) :
  Seller.create_stocks watch_remnants offer_ids
  = stocks_of Ozon.Build_stock_entry watch_remnants offer_ids.
Proof.
  unfold Seller.create_stocks, stocks_of. now rewrite seller_loop_shape.
Qed.

Lemma market_loop_shape (watch_remnants : list dict)
      (stocks : list Yandex.stock_entry) (offer_ids : list string)
      (warehouse_id date : string) :
  Market.create_stocks_loop watch_remnants stocks offer_ids warehouse_id date
  = stocks_loop (fun sku q => Market.stock_record sku warehouse_id q date)
                watch_remnants stocks offer_ids.
Proof.
  revert stocks offer_ids.
  induction watch_remnants as [| watch rest IH]; intros stocks offer_ids;
    [reflexivity |].
  cbn [Market.create_stocks_loop stocks_loop]. unfold code_of, bucket.
  destruct (py_in _ offer_ids); [| apply IH].
  destruct (if _ =? ">10" then _ else _); try reflexivity.
  destruct (list_remove _ offer_ids); [apply IH | reflexivity].
Qed.

Lemma market_create_stocks_shape (watch_remnants : list dict)
      (offer_ids : list string) (warehouse_id date : string) :
  Market.create_stocks watch_remnants offer_ids warehouse_id date
  = stocks_of (fun sku q => Market.stock_record sku warehouse_id q date)
              watch_remnants offer_ids.
Proof.
  unfold Market.create_stocks, stocks_of. now rewrite market_loop_shape.
Qed.

Section ReconcileFacts.
Variable E : Type.
Variable mk : string -> Z -> E.

Lemma stocks_loop_acc (watch_remnants : list dict) (acc : list E)
      (offer_ids : list string) :
  stocks_loop mk watch_remnants acc offer_ids
  = (rbind (fst (stocks_loop mk watch_remnants [] offer_ids))
           (fun stocks => Ok (acc ++ stocks)),
     snd (stocks_loop mk watch_remnants [] offer_ids)).
Proof.
  revert acc offer_ids.
  induction watch_remnants as [| watch rest IH]; intros acc offer_ids.
  - simpl. now rewrite app_nil_r.
  - cbn [stocks_loop].
    destruct (py_in (code_of watch) offer_ids); [| apply IH].
    destruct (bucket (dict_get watch "Количество")) as [q | e |];
      try reflexivity.
    destruct (list_remove (code_of watch) offer_ids) as [remaining |];
      [| reflexivity].
    rewrite (IH (acc ++ [mk (code_of watch) q])).
    rewrite (IH ([] ++ [mk (code_of watch) q])).
    destruct (stocks_loop mk rest [] remaining) as [[stocks | e |] ids'];
      simpl; try reflexivity.
    now rewrite <- app_assoc.
Qed.

Lemma stocks_loop_known (watch : dict) (rest : list dict)
      (offer_ids remaining : list string) (q : Z) :
  In (code_of watch) offer_ids ->
  bucket (dict_get watch "Количество") = Ok q ->
  list_remove (code_of watch) offer_ids = Some remaining ->
  stocks_loop mk (watch :: rest) [] offer_ids
  = with_head (mk (code_of watch) q) (stocks_loop mk rest [] remaining).
Proof.
  intros Hin Hq Hrem. cbn [stocks_loop].
  apply py_in_In in Hin. rewrite Hin, Hq, Hrem.
  rewrite stocks_loop_acc. unfold with_head. reflexivity.
Qed.

Lemma stocks_loop_unknown (watch : dict) (rest : list dict)
      (offer_ids : list string) :
  ~ In (code_of watch) offer_ids ->
  stocks_loop mk (watch :: rest) [] offer_ids
  = stocks_loop mk rest [] offer_ids.
Proof.
  intros Hout. cbn [stocks_loop].
  apply py_in_false in Hout. now rewrite Hout.
Qed.

Lemma stocks_of_known (watch : dict) (rest : list dict)
      (offer_ids remaining : list string) (q : Z) :
  In (code_of watch) offer_ids ->
  bucket (dict_get watch "Количество") = Ok q ->
  list_remove (code_of watch) offer_ids = Some remaining ->
  stocks_of mk (watch :: rest) offer_ids
  = with_head (mk (code_of watch) q) (stocks_of mk rest remaining).
Proof.
  intros Hin Hq Hrem. unfold stocks_of.
  rewrite (stocks_loop_known watch rest offer_ids remaining q) by assumption.
  destruct (stocks_loop mk rest [] remaining) as [[stocks | e |] ids'];
    reflexivity.
Qed.

Lemma stocks_of_raises (watch : dict) (rest : list dict)
      (offer_ids : list string) (e : exn) :
  In (code_of watch) offer_ids ->
  bucket (dict_get watch "Количество") = Raise e ->
  stocks_of mk (watch :: rest) offer_ids = (Raise e, offer_ids).
Proof.
  intros Hin He. unfold stocks_of. cbn [stocks_loop].
  apply py_in_In in Hin. now rewrite Hin, He.
Qed.

Lemma stocks_of_unknown (watch : dict) (rest : list dict)
      (offer_ids : list string) :
  ~ In (code_of watch) offer_ids ->
  stocks_of mk (watch :: rest) offer_ids = stocks_of mk rest offer_ids.
Proof.
  intros Hout. unfold stocks_of. now rewrite stocks_loop_unknown.
Qed.

Lemma stocks_of_bucketing : bucketing_rule mk (stocks_of mk).
Proof.
  split; [reflexivity |].
  intros watch rest offer_ids raw. split; [| apply stocks_of_unknown].
  intros Hin.
  destruct (list_remove_split _ _ Hin) as (l1 & l2 & _ & _ & Hrem).
  exists (l1 ++ l2). split; [assumption |].
  repeat split.
  - intros Hc. apply stocks_of_known; auto.
    unfold bucket. fold raw. now rewrite Hc.
  - intros Hc. apply stocks_of_known; auto.
    unfold bucket. fold raw. now rewrite Hc.
  - intros H10 H1 q Hq. apply stocks_of_known; auto.
    unfold bucket. fold raw.
    apply String.eqb_neq in H10, H1. now rewrite H10, H1.
  - intros H10 H1 e He. apply stocks_of_raises; auto.
    unfold bucket. fold raw.
    apply String.eqb_neq in H10, H1. now rewrite H10, H1.
Qed.
End ReconcileFacts.

Lemma bucketing_rule_ext (E : Type) (mk : string -> Z -> E)
      (create create' : list dict -> list string
                        -> result (list E) * list string) :
  (forall watch_remnants offer_ids,
      create watch_remnants offer_ids = create' watch_remnants offer_ids) ->
  bucketing_rule mk create' -> bucketing_rule mk create.
Proof.
  intros Hext [Hbase H]. split; [intros; now rewrite Hext |].
  intros watch rest offer_ids raw.
  destruct (H watch rest offer_ids) as [Hknown Hunknown]. split.
  - intros Hin.
    destruct (Hknown Hin) as (remaining & Hrem & H10 & H1 & Hint & Herr).
    exists remaining. split; [assumption |].
    repeat split; intros; rewrite !Hext; auto.
  - intros Hout. rewrite !Hext. auto.
Qed.

(** C6. For a record whose code is in the list, both [create_stocks]
    put out quantity 100 for the raw value >10, 0 for the raw value 1 and
    the integer the raw value parses to otherwise (7 for 7, 0 for 0),
    take the identifier off the list and go on with the other records;
    when the raw value does not parse, the error of [int] comes out.  A
    record whose code is not in the list is passed over, and at the end
    of the inventory the identifiers still in the list get quantity 0. *)
Theorem quantity_bucketing :
  bucketing_rule Ozon.Build_stock_entry Seller.create_stocks /\
  (forall warehouse_id date : string,
      bucketing_rule
        (fun sku q => Market.stock_record sku warehouse_id q date)
        (fun watch_remnants offer_ids =>
           Market.create_stocks watch_remnants offer_ids warehouse_id date)) /\
  (forall code : string,
      map (fun quantity =>
             Seller.create_stocks
               [inventory_row (PyStr code) (PyStr quantity) PyNone] [code])
          [">10"; "1"; "7"; "0"]
      = map (fun q => (Ok [Ozon.Build_stock_entry code q], []))
            [100; 0; 7; 0]%Z) /\
  (forall code warehouse_id date : string,
      map (fun quantity =>
             Market.create_stocks
               [inventory_row (PyStr code) (PyStr quantity) PyNone] [code]
               warehouse_id date)
          [">10"; "1"; "7"; "0"]
      = map (fun q => (Ok [Market.stock_record code warehouse_id q date], []))
            [100; 0; 7; 0]%Z).
Proof.
  split; [| split; [| split]].
  - apply (bucketing_rule_ext _ _ _ (stocks_of Ozon.Build_stock_entry)).
    + apply seller_create_stocks_shape.
    + apply stocks_of_bucketing.
  - intros warehouse_id date.
    apply (bucketing_rule_ext
             _ _ _
             (stocks_of (fun sku q =>
                           Market.stock_record sku warehouse_id q date))).
    + intros. apply market_create_stocks_shape.
    + apply stocks_of_bucketing.
  - intros code. unfold Seller.create_stocks. simpl.
    unfold py_in. simpl. rewrite String.eqb_refl. reflexivity.
  - intros code warehouse_id date. unfold Market.create_stocks. simpl.
    unfold py_in. simpl. rewrite String.eqb_refl. reflexivity.
Qed.

Lemma quantity_ok_bucket (watch : dict) :
  quantity_ok watch -> exists q, bucket (dict_get watch "Количество") = Ok q.
Proof.
  unfold quantity_ok, bucket. intros [H | [H | [q H]]].
  - rewrite H. simpl. eauto.
  - rewrite H. simpl. eauto.
  - destruct (_ =? ">10"); [eauto |]. destruct (_ =? "1"); eauto.
Qed.

Lemma unmatched_cons (watch : dict) (rest : list dict) (x : string) :
  unmatched (watch :: rest) x
  = negb (String.eqb x (code_of watch)) && unmatched rest x.
Proof. unfold unmatched, py_in. simpl. now rewrite negb_orb. Qed.

Section ReconcileKeys.
Variable E : Type.
Variable mk : string -> Z -> E.
Variable key : E -> string.
Variable qty : E -> Z.
Hypothesis key_mk : forall c q, key (mk c q) = c.
Hypothesis qty_mk : forall c q, qty (mk c q) = q.

(** What the first loop leaves: the matched entries carry codes of the
    inventory, together with the identifiers left over they make up the
    list the loop started from, and the left-overs kept their order. *)
Lemma stocks_loop_inv (watch_remnants : list dict) :
  forall offer_ids matched remaining,
    stocks_loop mk watch_remnants [] offer_ids = (Ok matched, remaining) ->
    Forall (fun m => In (key m) (map code_of watch_remnants)) matched /\
    remove_each (map key matched) offer_ids = Some remaining /\
    Permutation offer_ids (map key matched ++ remaining) /\
    subseq remaining offer_ids.
Proof.
  induction watch_remnants as [| watch rest IH];
    intros offer_ids matched remaining H.
  - inversion H; subst. repeat split; auto using subseq_refl.
  - destruct (py_in (code_of watch) offer_ids) eqn:Hin.
    + apply py_in_In in Hin.
      cbn [stocks_loop] in H. rewrite (proj2 (py_in_In _ _) Hin) in H.
      destruct (bucket (dict_get watch "Количество")) as [q | e |] eqn:Hq;
        try discriminate.
      destruct (list_remove (code_of watch) offer_ids) as [ids1 |] eqn:Hrem;
        [| discriminate].
      rewrite stocks_loop_acc in H.
      destruct (stocks_loop mk rest [] ids1) as [[tail | e |] ids2] eqn:Hrest;
        simpl in H; try discriminate.
      inversion H; subst matched remaining. clear H.
      destruct (IH _ _ _ Hrest) as (Hcodes & Heach & Hperm & Hsub).
      destruct (list_remove_facts _ _ _ Hrem) as (Hp1 & Hs1 & _).
      repeat split.
      * constructor; [rewrite key_mk; now left |].
        eapply Forall_impl; [| exact Hcodes]. simpl. auto.
      * simpl. now rewrite key_mk, Hrem.
      * simpl. rewrite key_mk. etransitivity; [exact Hp1 |].
        now constructor.
      * eapply subseq_trans; eassumption.
    + apply py_in_false in Hin.
      rewrite stocks_loop_unknown in H by assumption.
      destruct (IH _ _ _ H) as (Hcodes & Heach & Hperm & Hsub).
      repeat split; auto.
      eapply Forall_impl; [| exact Hcodes]. simpl. auto.
Qed.

(** On a list without repetition the left-overs are the identifiers
    that are the code of no record. *)
Lemma stocks_loop_filter (watch_remnants : list dict) :
  forall offer_ids matched remaining,
    NoDup offer_ids ->
    stocks_loop mk watch_remnants [] offer_ids = (Ok matched, remaining) ->
    remaining = filter (unmatched watch_remnants) offer_ids.
Proof.
  induction watch_remnants as [| watch rest IH];
    intros offer_ids matched remaining Hnd H.
  - inversion H; subst. symmetry. apply forallb_filter_id.
    apply forallb_forall. reflexivity.
  - destruct (py_in (code_of watch) offer_ids) eqn:Hin.
    + cbn [stocks_loop] in H. rewrite Hin in H.
      destruct (bucket (dict_get watch "Количество")) as [q | e |] eqn:Hq;
        try discriminate.
      destruct (list_remove (code_of watch) offer_ids) as [ids1 |] eqn:Hrem;
        [| discriminate].
      rewrite stocks_loop_acc in H.
      destruct (stocks_loop mk rest [] ids1) as [[tail | e |] ids2] eqn:Hrest;
        simpl in H; try discriminate.
      inversion H; subst matched remaining. clear H.
      destruct (list_remove_some _ _ _ Hrem) as (l1 & l2 & -> & Hno & ->).
      assert (Hnd1 : NoDup (l1 ++ l2)) by (eapply NoDup_remove_1; eassumption).
      assert (Hno2 : ~ In (code_of watch) (l1 ++ l2))
        by (eapply NoDup_remove_2; eassumption).
      rewrite (IH _ _ _ Hnd1 Hrest).
      rewrite !filter_app. simpl. rewrite unmatched_cons, String.eqb_refl.
      simpl. f_equal; apply filter_ext_in; intros x Hx;
        rewrite unmatched_cons;
        destruct (String.eqb_spec x (code_of watch)) as [-> | _];
        try reflexivity; exfalso; apply Hno2, in_or_app; auto.
    + apply py_in_false in Hin.
      rewrite stocks_loop_unknown in H by assumption.
      rewrite (IH _ _ _ Hnd H). apply filter_ext_in. intros x Hx.
      rewrite unmatched_cons.
      destruct (String.eqb_spec x (code_of watch)) as [-> | _];
        [contradiction | reflexivity].
Qed.

(** On a list without repetition the first loop returns when every
    record it matches has a quantity the bucketing rule accepts. *)
Lemma stocks_loop_total (watch_remnants : list dict) :
  forall offer_ids,
    NoDup offer_ids ->
    (forall watch, first_of_its_code watch_remnants watch ->
                   In (code_of watch) offer_ids -> quantity_ok watch) ->
    exists matched remaining,
      stocks_loop mk watch_remnants [] offer_ids = (Ok matched, remaining).
Proof.
  induction watch_remnants as [| watch rest IH]; intros offer_ids Hnd Hok.
  - simpl. eauto.
  - destruct (py_in (code_of watch) offer_ids) eqn:Hin.
    + apply py_in_In in Hin.
      destruct (quantity_ok_bucket watch) as [q Hq].
      { apply Hok; [| assumption]. exists [], rest. simpl. auto. }
      destruct (list_remove_split _ _ Hin) as (l1 & l2 & Hsplit & _ & Hrem).
      rewrite (stocks_loop_known _ mk watch rest offer_ids (l1 ++ l2) q)
        by assumption.
      subst offer_ids.
      assert (Hgone : ~ In (code_of watch) (l1 ++ l2))
        by (eapply NoDup_remove_2; eassumption).
      destruct (IH (l1 ++ l2)) as (matched & remaining & Hrest).
      { eapply NoDup_remove_1; eassumption. }
      { intros w (before & after & -> & Hfirst) Hc. apply Hok.
        - exists (watch :: before), after. split; [reflexivity |].
          simpl. intros [Heq | Hb]; [| contradiction].
          rewrite <- Heq in Hc. contradiction.
        - apply in_app_or in Hc. apply in_or_app.
          destruct Hc; [now left | right; now right]. }
      rewrite Hrest. unfold with_head. simpl. eauto.
    + apply py_in_false in Hin.
      rewrite stocks_loop_unknown by assumption.
      apply IH; [assumption |].
      intros w (before & after & -> & Hfirst) Hc. apply Hok; [| assumption].
      exists (watch :: before), after. split; [reflexivity |].
      simpl. intros [Heq | Hb]; [| contradiction].
      rewrite <- Heq in Hc. contradiction.
Qed.

(** [stocks_of] put together: entries for the matched records, then a
    zero entry for each identifier left over. *)
Lemma stocks_of_inv (watch_remnants : list dict)
      (offer_ids : list string) (stocks : list E)
      (remaining : list string) :
  stocks_of mk watch_remnants offer_ids = (Ok stocks, remaining) ->
  exists matched,
    stocks = matched ++ map (fun offer_id => mk offer_id 0%Z) remaining /\
    Forall (fun m => In (key m) (map code_of watch_remnants)) matched /\
    remove_each (map key matched) offer_ids = Some remaining /\
    Permutation offer_ids (map key matched ++ remaining) /\
    subseq remaining offer_ids /\
    (NoDup offer_ids ->
     remaining = filter (unmatched watch_remnants) offer_ids).
Proof.
  unfold stocks_of. intros H.
  destruct (stocks_loop mk watch_remnants [] offer_ids)
    as [[matched | e |] ids'] eqn:Hloop; try discriminate.
  inversion H; subst stocks remaining. clear H.
  destruct (stocks_loop_inv _ _ _ _ Hloop) as (Hcodes & Heach & Hperm & Hsub).
  exists matched. repeat split; auto.
  intros Hnd. eapply stocks_loop_filter; eassumption.
Qed.

Lemma stocks_of_complete (watch_remnants : list dict)
      (offer_ids : list string) :
  NoDup offer_ids ->
  (forall watch, first_of_its_code watch_remnants watch ->
                 In (code_of watch) offer_ids -> quantity_ok watch) ->
  exists stocks remaining,
    stocks_of mk watch_remnants offer_ids = (Ok stocks, remaining) /\
    Permutation (map key stocks) offer_ids /\
    NoDup (map key stocks) /\
    (forall s, In s stocks ->
               unmatched watch_remnants (key s) = true -> qty s = 0%Z).
Proof.
  intros Hnd Hok.
  destruct (stocks_loop_total _ _ Hnd Hok) as (matched & remaining & Hloop).
  assert (Hof : stocks_of mk watch_remnants offer_ids
                = (Ok (matched ++ map (fun i => mk i 0%Z) remaining),
                   remaining))
    by (unfold stocks_of; now rewrite Hloop).
  destruct (stocks_loop_inv _ _ _ _ Hloop) as (Hcodes & _ & Hperm & Hsub).
  assert (Hkeys : map key (matched ++ map (fun i => mk i 0%Z) remaining)
                  = map key matched ++ remaining).
  { rewrite map_app, map_map. f_equal.
    rewrite <- (map_id remaining) at 2. apply map_ext. intros; apply key_mk. }
  eexists _, _. split; [exact Hof |]. rewrite Hkeys.
  split; [now symmetry |]. split.
  - eapply Permutation_NoDup; eassumption.
  - intros s Hs Hun. apply in_app_or in Hs. destruct Hs as [Hs | Hs].
    + rewrite Forall_forall in Hcodes. specialize (Hcodes s Hs).
      unfold unmatched in Hun. apply py_in_In in Hcodes.
      rewrite Hcodes in Hun. discriminate.
    + apply in_map_iff in Hs. destruct Hs as (i & <- & _). apply qty_mk.
Qed.

End ReconcileKeys.

(** ** Price records *)

Lemma seller_prices_loop_ids (watch_remnants : list dict) :
  forall acc offer_ids prices,
    Seller.create_prices_loop watch_remnants acc offer_ids = Ok prices ->
    map Ozon.price_offer_id prices
    = map Ozon.price_offer_id acc
      ++ filter (fun c => py_in c offer_ids) (map code_of watch_remnants).
Proof.
  induction watch_remnants as [| watch rest IH]; intros acc offer_ids prices H.
  - inversion H; subst. simpl. now rewrite app_nil_r.
  - cbn [Seller.create_prices_loop] in H. cbn [map filter]. unfold code_of at 1.
    destruct (py_in (py_str (dict_get watch "Код")) offer_ids).
    + destruct (Seller.price_conversion_of (dict_get watch "Цена"));
        simpl in H; try discriminate.
      rewrite (IH _ _ _ H), map_app. simpl. now rewrite <- app_assoc.
    + now apply IH.
Qed.

Lemma market_prices_loop_ids (watch_remnants : list dict) :
  forall acc offer_ids prices,
    Market.create_prices_loop watch_remnants acc offer_ids = Ok prices ->
    map Yandex.id prices
    = map Yandex.id acc
      ++ filter (fun c => py_in c offer_ids) (map code_of watch_remnants).
Proof.
  induction watch_remnants as [| watch rest IH]; intros acc offer_ids prices H.
  - inversion H; subst. simpl. now rewrite app_nil_r.
  - cbn [Market.create_prices_loop] in H. cbn [map filter]. unfold code_of at 1.
    destruct (py_in (py_str (dict_get watch "Код")) offer_ids).
    + destruct (Seller.price_conversion_of (dict_get watch "Цена")) as [p | |];
        cbn [rbind] in H; try discriminate.
      destruct (py_int (PyStr p)); cbn [rbind] in H; try discriminate.
      rewrite (IH _ _ _ H), map_app. simpl. now rewrite <- app_assoc.
    + now apply IH.
Qed.

Lemma seller_prices_loop_none (watch_remnants : list dict) :
  forall acc offer_ids,
    (forall watch, In watch watch_remnants -> ~ In (code_of watch) offer_ids) ->
    Seller.create_prices_loop watch_remnants acc offer_ids = Ok acc.
Proof.
  induction watch_remnants as [| watch rest IH]; intros acc offer_ids Hout;
    [reflexivity |].
  cbn [Seller.create_prices_loop].
  fold (code_of watch).
  rewrite (proj2 (py_in_false _ _) (Hout watch (or_introl eq_refl))).
  apply IH. intros w Hw. apply Hout. now right.
Qed.


(** [create_prices] of the first platform returns whenever the price
    field of every record it matches is a string. *)
Lemma seller_create_prices_total (watch_remnants : list dict)
      (offer_ids : list string) :
  (forall watch, In watch watch_remnants -> In (code_of watch) offer_ids ->
                 exists s, dict_get watch "Цена" = PyStr s) ->
  exists prices, Seller.create_prices watch_remnants offer_ids = Ok prices.
Proof.
  unfold Seller.create_prices. generalize (@nil Ozon.price_entry).
  induction watch_remnants as [| watch rest IH]; intros acc Hstr;
    [simpl; eauto |].
  cbn [Seller.create_prices_loop].
  destruct (py_in (py_str (dict_get watch "Код")) offer_ids) eqn:Hin.
  - destruct (Hstr watch (or_introl eq_refl)) as [s Hs];
      [now apply py_in_In |].
    rewrite Hs. simpl. apply IH. intros w Hw. apply Hstr. now right.
  - apply IH. intros w Hw. apply Hstr. now right.
Qed.

Lemma filter_known_In (offer_ids codes : list string) (c : string) :
  In c (filter (fun c => py_in c offer_ids) codes) -> In c offer_ids.
Proof. intros H. apply filter_In in H. now apply py_in_In. Qed.

Lemma unmatched_not_code (watch_remnants : list dict) (x : string) :
  unmatched watch_remnants x = true ->
  forall watch, In watch watch_remnants -> code_of watch <> x.
Proof.
  unfold unmatched. intros H watch Hw Heq.
  apply negb_true_iff, py_in_false in H. apply H.
  subst x. now apply in_map.
Qed.

(** C2. With no identifier repeated and every matched quantity (that of
    the first record of a known code) one the bucketing rule accepts,
    both [create_stocks] return a collection
    whose identifiers are the known ones, each once, where an entry
    whose identifier is the code of no record has quantity zero; the
    identifiers of the entries of [create_prices] are the codes of the
    records whose code is in the list it is given, so all of them are in
    that list. *)
Theorem reconciliation_complete
        (watch_remnants : list dict) (offer_ids : list string) :
  NoDup offer_ids ->
  (forall watch, first_of_its_code watch_remnants watch ->
                 In (code_of watch) offer_ids -> quantity_ok watch) ->
  (exists stocks remaining,
      Seller.create_stocks watch_remnants offer_ids = (Ok stocks, remaining) /\
      Permutation (map Ozon.offer_id stocks) offer_ids /\
      NoDup (map Ozon.offer_id stocks) /\
      (forall s, In s stocks ->
                 unmatched watch_remnants (Ozon.offer_id s) = true ->
                 Ozon.stock s = 0%Z)) /\
  (forall warehouse_id date : string,
      exists stocks remaining,
        Market.create_stocks watch_remnants offer_ids warehouse_id date
        = (Ok stocks, remaining) /\
        Permutation (map Yandex.sku stocks) offer_ids /\
        NoDup (map Yandex.sku stocks) /\
        (forall s, In s stocks ->
                   unmatched watch_remnants (Yandex.sku s) = true ->
                   market_count s = 0%Z)) /\
  (forall prices,
      Seller.create_prices watch_remnants offer_ids = Ok prices ->
      map Ozon.price_offer_id prices
      = filter (fun c => py_in c offer_ids) (map code_of watch_remnants) /\
      Forall (fun p => In (Ozon.price_offer_id p) offer_ids) prices) /\
  (forall prices,
      Market.create_prices watch_remnants offer_ids = Ok prices ->
      map Yandex.id prices
      = filter (fun c => py_in c offer_ids) (map code_of watch_remnants) /\
      Forall (fun p => In (Yandex.id p) offer_ids) prices).
Proof.
  intros Hnd Hok. repeat split.
  - rewrite seller_create_stocks_shape.
    apply (stocks_of_complete _ Ozon.Build_stock_entry
                              Ozon.offer_id Ozon.stock); auto.
  - intros warehouse_id date. rewrite market_create_stocks_shape.
    apply (stocks_of_complete
             _ (fun sku q => Market.stock_record sku warehouse_id q date)
             Yandex.sku market_count); auto.
  - apply seller_prices_loop_ids in H. exact H.
  - apply seller_prices_loop_ids in H. simpl in H.
    apply Forall_forall. intros p Hp.
    apply (filter_known_In offer_ids (map code_of watch_remnants)).
    rewrite <- H. now apply in_map.
  - apply market_prices_loop_ids in H. exact H.
  - apply market_prices_loop_ids in H. simpl in H.
    apply Forall_forall. intros p Hp.
    apply (filter_known_In offer_ids (map code_of watch_remnants)).
    rewrite <- H. now apply in_map.
Qed.

(** ** The list of identifiers after [create_stocks] *)

Lemma filter_unmatched_out (watch_remnants : list dict)
      (offer_ids : list string) (watch : dict) :
  In watch watch_remnants ->
  ~ In (code_of watch) (filter (unmatched watch_remnants) offer_ids).
Proof.
  intros Hw Hin. apply filter_In in Hin. destruct Hin as [_ Hun].
  now apply (unmatched_not_code _ _ Hun watch Hw).
Qed.

(** An identifier listed twice is removed once by a matching record. *)
Example repeated_identifier :
  Seller.create_stocks [inventory_row (PyStr "A") (PyStr "5") PyNone]
                       ["A"; "A"]
  = (Ok [Ozon.Build_stock_entry "A" 5; Ozon.Build_stock_entry "A" 0], ["A"]).
Proof. reflexivity. Qed.


(** ** The end-to-end scenario on the first platform *)

(** C1. On the scenario of the specification [create_stocks] gives the
    three stock entries A1 100, A2 0, A3 0 and leaves only A3 in the list
    of identifiers.  [main] then hands that list to [create_prices], which
    finds no record for A3 and gives no price entry, so the run uploads
    the stocks and sends no price request.  With the list as it was
    enumerated [create_prices] gives the two entries A1 500 and A2 100. *)
Theorem seller_scenario :
  Seller.create_stocks scenario_inventory scenario_offer_ids
  = (Ok [Ozon.Build_stock_entry "A1" 100; Ozon.Build_stock_entry "A2" 0;
         Ozon.Build_stock_entry "A3" 0], ["A3"]) /\
  Seller.create_prices scenario_inventory ["A3"] = Ok [] /\
  Seller.create_prices scenario_inventory scenario_offer_ids
  = Ok [ozon_price "A1" "500"; ozon_price "A2" "100"] /\
  Seller.main scenario_env 1 scenario_server
  = {| ending := Exit 0;
       stdout := [];
       sent := [OzonProductList "" "client" "token";
                GetStockArchive;
                OzonImportStocks
                  [Ozon.Build_stock_entry "A1" 100;
                   Ozon.Build_stock_entry "A2" 0;
                   Ozon.Build_stock_entry "A3" 0] "client" "token"] |}.
Proof. repeat split; reflexivity. Qed.

(** ** Pagination *)

(** C8. Against a source of three pages of 200, 200 and 50 identifiers
    each enumerator, given fuel for three rounds or more, stops after
    exactly three page requests and returns the 450 identifiers in page
    order: the second platform's when the first two pages carry a
    non-empty next-page token and the third none, the first platform's
    when every page reports a total of 450. *)
Theorem pagination_three_pages
        (srv : server) (log : list request) (fuel : nat) :
  3 <= fuel ->
  (forall (campaign_id market_token token1 token2 : string)
          (end_token : option string)
          (page1 page2 page3 : list Yandex.mapping_entry),
      length page1 = 200 -> length page2 = 200 -> length page3 = 50 ->
      token1 <> "" -> token2 <> "" -> exhausted end_token ->
      serves srv log
             [(MarketOfferMappingEntries "" campaign_id market_token,
               MarketMappings (Yandex.Build_mapping_page page1 (Some token1)));
              (MarketOfferMappingEntries token1 campaign_id market_token,
               MarketMappings (Yandex.Build_mapping_page page2 (Some token2)));
              (MarketOfferMappingEntries token2 campaign_id market_token,
               MarketMappings (Yandex.Build_mapping_page page3 end_token))] ->
      Market.get_offer_ids fuel campaign_id market_token srv log
      = (Ok (map Yandex.shopSku (page1 ++ page2 ++ page3)),
         log ++ [MarketOfferMappingEntries "" campaign_id market_token;
                 MarketOfferMappingEntries token1 campaign_id market_token;
                 MarketOfferMappingEntries token2 campaign_id market_token]) /\
      length (map Yandex.shopSku (page1 ++ page2 ++ page3)) = 450) /\
  (forall (client_id seller_token last1 last2 last3 : string)
          (page1 page2 page3 : list Ozon.product),
      length page1 = 200 -> length page2 = 200 -> length page3 = 50 ->
      serves srv log
             [(OzonProductList "" client_id seller_token,
               OzonProducts (Ozon.Build_product_list page1 last1 450));
              (OzonProductList last1 client_id seller_token,
               OzonProducts (Ozon.Build_product_list page2 last2 450));
              (OzonProductList last2 client_id seller_token,
               OzonProducts (Ozon.Build_product_list page3 last3 450))] ->
      Seller.get_offer_ids fuel client_id seller_token srv log
      = (Ok (map Ozon.item_offer_id (page1 ++ page2 ++ page3)),
         log ++ [OzonProductList "" client_id seller_token;
                 OzonProductList last1 client_id seller_token;
                 OzonProductList last2 client_id seller_token]) /\
      length (map Ozon.item_offer_id (page1 ++ page2 ++ page3)) = 450).
Proof.
  intros Hfuel.
  destruct fuel as [| [| [| fuel]]]; try lia. clear Hfuel.
  split.
  - intros campaign_id market_token token1 token2 end_token page1 page2 page3
           H1 H2 H3 Ht1 Ht2 Hend (Hs1 & Hs2 & Hs3 & _).
    split; [| rewrite length_map, !length_app; lia].
    unfold Market.get_offer_ids, bind at 1.
    cbn [Market.get_offer_ids_loop].
    unfold bind at 1, Market.get_product_list, bind at 1, call.
    rewrite Hs1. cbn.
    apply String.eqb_neq in Ht1, Ht2. rewrite Ht1.
    unfold bind at 1, Market.get_product_list, bind at 1, call.
    rewrite Hs2. cbn. rewrite Ht2.
    unfold bind at 1, Market.get_product_list, bind at 1, call.
    rewrite Hs3. cbn.
    rewrite <- !app_assoc. simpl.
    destruct Hend as [-> | ->]; reflexivity.
  - intros client_id seller_token last1 last2 last3 page1 page2 page3
           H1 H2 H3 (Hs1 & Hs2 & Hs3 & _).
    split; [| rewrite length_map, !length_app; lia].
    unfold Seller.get_offer_ids, bind at 1.
    cbn [Seller.get_offer_ids_loop].
    unfold bind at 1, Seller.get_product_list, bind at 1, call.
    rewrite Hs1. cbn [ret Ozon.items Ozon.total Ozon.last_id app].
    rewrite H1. cbn [Z.eqb Z.of_nat Pos.of_succ_nat Pos.succ Pos.eqb].
    unfold bind at 1, Seller.get_product_list, bind at 1, call.
    rewrite Hs2. cbn [ret Ozon.items Ozon.total Ozon.last_id].
    rewrite length_app, H1, H2.
    replace (Z.of_nat (200 + 200)) with 400%Z by reflexivity.
    cbn [Z.eqb Pos.eqb].
    unfold bind at 1, Seller.get_product_list, bind at 1, call.
    rewrite Hs3. cbn [ret Ozon.items Ozon.total Ozon.last_id].
    rewrite !length_app, H1, H2, H3.
    replace (Z.of_nat (200 + 200 + 50)) with 450%Z by reflexivity.
    cbn [Z.eqb Pos.eqb]. unfold ret.
    rewrite <- !app_assoc. reflexivity.
Qed.

(** ** What a run sends *)

Lemma emits_ret {A} (P : request -> Prop) (a : A) : emits P (ret a).
Proof. intros srv log. exists []. simpl. now rewrite app_nil_r. Qed.

Lemma emits_lift {A} (P : request -> Prop) (r : result A) : emits P (lift r).
Proof. intros srv log. exists []. simpl. now rewrite app_nil_r. Qed.

Lemma emits_utcnow (P : request -> Prop) (clock : list request -> string) :
  emits P (Market.utcnow clock).
Proof. intros srv log. exists []. simpl. now rewrite app_nil_r. Qed.

Lemma emits_call (P : request -> Prop) (req : request) :
  P req -> emits P (call req).
Proof. intros H srv log. exists [req]. simpl. auto. Qed.

Lemma emits_bind {A B} (P : request -> Prop) (m : M A) (k : A -> M B) :
  emits P m -> (forall a, emits P (k a)) -> emits P (bind m k).
Proof.
  intros Hm Hk srv log. unfold bind.
  destruct (Hm srv log) as (added & Hlog & HP).
  destruct (m srv log) as [[a | e |] log1]; simpl in Hlog; subst log1;
    try (exists added; simpl; now auto).
  destruct (Hk a srv (log ++ added)) as (added' & Hlog' & HP').
  exists (added ++ added'). rewrite Hlog', app_assoc.
  split; [reflexivity | now apply Forall_app].
Qed.

Lemma emits_for_each {A} (P : request -> Prop) (l : list A)
      (body : A -> M unit) :
  (forall x, emits P (body x)) -> emits P (for_each l body).
Proof.
  intros Hbody. induction l as [| x l IH]; simpl.
  - apply emits_ret.
  - apply emits_bind; auto.
Qed.

Lemma emits_download (P : request -> Prop) :
  P GetStockArchive -> emits P Seller.download_stock.
Proof.
  intros H. unfold Seller.download_stock.
  apply emits_bind; [now apply emits_call |].
  intros [rows | page | page |]; apply emits_lift.
Qed.

Lemma emits_market_offer_ids (P : request -> Prop) (fuel : nat)
      (campaign_id market_token : string) :
  (forall page, P (MarketOfferMappingEntries page campaign_id market_token)) ->
  emits P (Market.get_offer_ids fuel campaign_id market_token).
Proof.
  intros HP. unfold Market.get_offer_ids.
  apply emits_bind; [| intros; apply emits_ret].
  generalize (@nil Yandex.mapping_entry). generalize "".
  induction fuel as [| fuel IH]; intros page product_list; simpl.
  - apply emits_lift.
  - apply emits_bind.
    + unfold Market.get_product_list.
      apply emits_bind; [apply emits_call, HP |].
      intros [rows | p | p |]; apply emits_lift.
    + intros some_prod. destruct (Yandex.nextPageToken some_prod) as [next |];
        [| apply emits_ret].
      destruct (next =? ""); [apply emits_ret | apply IH].
Qed.

Lemma emits_market_channel (P : request -> Prop)
      (clock : list request -> string) (fuel : nat)
      (watch_remnants : list dict)
      (market_token campaign_id warehouse_id : string) :
  (forall page, P (MarketOfferMappingEntries page campaign_id market_token)) ->
  (forall stocks, P (MarketPutStocks stocks campaign_id market_token)) ->
  emits P (market_channel clock fuel watch_remnants market_token
                          campaign_id warehouse_id).
Proof.
  intros Hlist Hput. unfold market_channel.
  apply emits_bind; [now apply emits_market_offer_ids |]. intros offer_ids.
  apply emits_bind; [apply emits_utcnow |]. intros date.
  apply emits_bind; [apply emits_lift |]. intros stocks.
  apply emits_bind; [apply emits_lift |]. intros chunks.
  apply emits_bind; [| intros; apply emits_ret].
  apply emits_for_each. intros some_stock.
  apply emits_bind; [| intros; apply emits_ret].
  apply emits_call, Hput.
Qed.

Lemma bind_assoc {A B C} (m : M A) (f : A -> M B) (g : B -> M C)
      (srv : server) (log : list request) :
  bind (bind m f) g srv log = bind m (fun a => bind (f a) g) srv log.
Proof. unfold bind. destruct (m srv log) as [[a | e |] log']; reflexivity. Qed.

Lemma bind_cong {A B} (m : M A) (f g : A -> M B)
      (srv : server) (log : list request) :
  (forall a log', f a srv log' = g a srv log') ->
  bind m f srv log = bind m g srv log.
Proof.
  intros H. unfold bind. destruct (m srv log) as [[a | e |] log']; auto.
Qed.

(** The [try] block of [main] in market.py is the FBS share followed by
    the DBS share. *)
Lemma market_main_try_split
      (clock : list request -> string) (fuel : nat)
      (watch_remnants : list dict)
      (market_token campaign_fbs_id campaign_dbs_id
       warehouse_fbs_id warehouse_dbs_id : string)
      (srv : server) (log : list request) :
  Market.main_try clock fuel watch_remnants market_token
                  campaign_fbs_id campaign_dbs_id
                  warehouse_fbs_id warehouse_dbs_id srv log
  = (market_channel clock fuel watch_remnants market_token
                    campaign_fbs_id warehouse_fbs_id ;;;
     market_channel clock fuel watch_remnants market_token
                    campaign_dbs_id warehouse_dbs_id) srv log.
Proof.
  unfold Market.main_try, market_channel. cbv zeta.
  symmetry.
  rewrite bind_assoc. apply bind_cong. intros offer_ids log1.
  rewrite bind_assoc. apply bind_cong. intros date log2.
  rewrite bind_assoc. apply bind_cong. intros stocks log3.
  rewrite bind_assoc. apply bind_cong. intros chunks log4.
  rewrite bind_assoc. apply bind_cong. intros [] log5.
  reflexivity.
Qed.

Lemma sent_try_except (r : result unit * list request) :
  sent (try_except r) = snd r.
Proof. destruct r as [[[] | e |] log]; reflexivity. Qed.

Lemma market_try_emits (P : request -> Prop)
      (clock : list request -> string) (fuel : nat)
      (watch_remnants : list dict)
      (market_token campaign_fbs_id campaign_dbs_id
       warehouse_fbs_id warehouse_dbs_id : string)
      (srv : server) (log : list request) :
  (forall page campaign_id,
      P (MarketOfferMappingEntries page campaign_id market_token)) ->
  (forall stocks campaign_id,
      P (MarketPutStocks stocks campaign_id market_token)) ->
  exists added,
    snd (Market.main_try clock fuel watch_remnants market_token
                         campaign_fbs_id campaign_dbs_id
                         warehouse_fbs_id warehouse_dbs_id srv log)
    = log ++ added /\ Forall P added.
Proof.
  intros Hlist Hput. rewrite market_main_try_split.
  apply emits_bind; [| intros _]; apply emits_market_channel; auto.
Qed.

(** ** The second platform's [main] *)

(** C3. No run of [main] in market.py sends a price update: the two
    calls of [upload_prices] only build coroutines.  On the scenario the
    run enumerates and uploads stocks for FBS and for DBS and nothing
    else, while awaiting the FBS coroutine would have sent the two price
    records in one request. *)
Theorem market_main_posts_no_price :
  (forall env clock fuel srv,
      Forall (fun req => is_price_update req = false)
             (sent (Market.main env clock fuel srv))) /\
  Market.main market_env fixed_clock 1 market_server
  = {| ending := Exit 0;
       stdout := [];
       sent :=
         [GetStockArchive;
          MarketOfferMappingEntries "" "fbs" "token";
          MarketPutStocks
            [Market.stock_record "A1" "wh-fbs" 100 "2024-01-01T00:00:00Z";
             Market.stock_record "A2" "wh-fbs" 0 "2024-01-01T00:00:00Z";
             Market.stock_record "A3" "wh-fbs" 0 "2024-01-01T00:00:00Z"]
            "fbs" "token";
          MarketOfferMappingEntries "" "dbs" "token";
          MarketPutStocks
            [Market.stock_record "A1" "wh-dbs" 100 "2024-01-01T00:00:00Z";
             Market.stock_record "A2" "wh-dbs" 0 "2024-01-01T00:00:00Z";
             Market.stock_record "A3" "wh-dbs" 0 "2024-01-01T00:00:00Z"]
            "dbs" "token"] |} /\
  await (Market.upload_prices 1 scenario_inventory "fbs" "token")
        market_server []
  = (Ok [market_price "A1" 500; market_price "A2" 100],
     [MarketOfferMappingEntries "" "fbs" "token";
      MarketPostPrices [market_price "A1" 500; market_price "A2" 100]
                       "fbs" "token"]).
Proof.
  split; [| split; reflexivity].
  intros env clock fuel srv. unfold Market.main.
  destruct (env "MARKET_TOKEN") as [market_token |]; [| constructor].
  destruct (env "FBS_ID") as [campaign_fbs_id |]; [| constructor].
  destruct (env "DBS_ID") as [campaign_dbs_id |]; [| constructor].
  destruct (env "WAREHOUSE_FBS_ID") as [warehouse_fbs_id |]; [| constructor].
  destruct (env "WAREHOUSE_DBS_ID") as [warehouse_dbs_id |]; [| constructor].
  destruct (emits_download (fun req => is_price_update req = false)
                           eq_refl srv [])
    as (added & Hlog & HP).
  destruct (Seller.download_stock srv []) as [[watch_remnants | e |] log0];
    simpl in Hlog; subst log0; simpl; try assumption.
  rewrite sent_try_except.
  destruct (market_try_emits (fun req => is_price_update req = false)
                             clock fuel watch_remnants market_token
                             campaign_fbs_id campaign_dbs_id
                             warehouse_fbs_id warehouse_dbs_id srv added)
    as (added' & Hlog' & HP'); try reflexivity.
  rewrite Hlog'. now apply Forall_app.
Qed.

(** C4, amended.  Both channels sit in one [try] block: when the FBS
    share of a run raises, the handler prints its line, the run ends
    with status 0, and what was sent is what the FBS share had sent, in
    which no request is addressed to a different DBS campaign. *)
Theorem fbs_failure_ends_run
        (env : environ) (clock : list request -> string) (fuel : nat)
        (srv : server)
        (market_token campaign_fbs_id campaign_dbs_id
         warehouse_fbs_id warehouse_dbs_id : string)
        (watch_remnants : list dict) (log0 log1 : list request) (e : exn) :
  env "MARKET_TOKEN" = Some market_token ->
  env "FBS_ID" = Some campaign_fbs_id ->
  env "DBS_ID" = Some campaign_dbs_id ->
  env "WAREHOUSE_FBS_ID" = Some warehouse_fbs_id ->
  env "WAREHOUSE_DBS_ID" = Some warehouse_dbs_id ->
  Seller.download_stock srv [] = (Ok watch_remnants, log0) ->
  market_channel clock fuel watch_remnants market_token campaign_fbs_id
                 warehouse_fbs_id srv log0 = (Raise e, log1) ->
  Market.main env clock fuel srv
  = {| ending := Exit 0; stdout := [handler e]; sent := log1 |} /\
  (campaign_fbs_id <> campaign_dbs_id ->
   Forall (fun req => campaign_of req <> Some campaign_dbs_id) log1).
Proof.
  intros Htoken Hfbs Hdbs Hwfbs Hwdbs Hdownload Hraise. split.
  - unfold Market.main.
    rewrite Htoken, Hfbs, Hdbs, Hwfbs, Hwdbs, Hdownload.
    rewrite market_main_try_split. unfold bind. rewrite Hraise. reflexivity.
  - intros Hne.
    set (P := fun req => campaign_of req <> Some campaign_dbs_id).
    destruct (emits_download P ltac:(discriminate) srv [])
      as (added0 & Hlog0 & HP0).
    rewrite Hdownload in Hlog0. simpl in Hlog0. subst log0.
    destruct (emits_market_channel
                P clock fuel watch_remnants market_token campaign_fbs_id
                warehouse_fbs_id
                ltac:(intros page H; inversion H; contradiction)
                ltac:(intros stocks H; inversion H; contradiction)
                srv added0)
      as (added1 & Hlog1 & HP1).
    rewrite Hraise in Hlog1. simpl in Hlog1. subst log1.
    now apply Forall_app.
Qed.

(** ** Errors at the top level *)

(** C5. In seller.py every error raised by the flow, the download
    included, reaches the handler: one line is printed and the run ends
    with status 0.  In market.py the download is made before the [try]
    block is entered: an error it raises is not handled, nothing is
    printed and the run ends with status 1. *)
Theorem download_error_escapes_market_main :
  (forall (env : environ) (fuel : nat) (srv : server)
          (seller_token client_id : string) (e : exn) (log : list request),
      env "SELLER_TOKEN" = Some seller_token ->
      env "CLIENT_ID" = Some client_id ->
      Seller.main_try fuel client_id seller_token srv [] = (Raise e, log) ->
      Seller.main env fuel srv
      = {| ending := Exit 0; stdout := [handler e]; sent := log |}) /\
  (forall (env : environ) (clock : list request -> string) (fuel : nat)
          (srv : server)
          (market_token campaign_fbs_id campaign_dbs_id
           warehouse_fbs_id warehouse_dbs_id : string) (e : exn),
      env "MARKET_TOKEN" = Some market_token ->
      env "FBS_ID" = Some campaign_fbs_id ->
      env "DBS_ID" = Some campaign_dbs_id ->
      env "WAREHOUSE_FBS_ID" = Some warehouse_fbs_id ->
      env "WAREHOUSE_DBS_ID" = Some warehouse_dbs_id ->
      srv [] GetStockArchive = Raise e ->
      Market.main env clock fuel srv
      = {| ending := Exit 1; stdout := []; sent := [GetStockArchive] |}).
Proof.
  split.
  - intros env fuel srv seller_token client_id e log Htoken Hclient Hraise.
    unfold Seller.main. now rewrite Htoken, Hclient, Hraise.
  - intros env clock fuel srv market_token campaign_fbs_id campaign_dbs_id
           warehouse_fbs_id warehouse_dbs_id e
           Htoken Hfbs Hdbs Hwfbs Hwdbs Hraise.
    unfold Market.main. rewrite Htoken, Hfbs, Hdbs, Hwfbs, Hwdbs.
    unfold Seller.download_stock, bind, call. now rewrite Hraise.
Qed.

(** * Further properties of the code *)

(** ** Batches *)

Lemma divide_chunks (A : Type) (lst : list A) (n : Z) :
  (0 < n)%Z ->
  exists chunks,
    Seller.divide lst n = Ok chunks /\
    Forall (fun c => 1 <= length c <= Z.to_nat n) chunks /\
    concat chunks = lst.
Proof.
  intros Hn. rewrite divide_windows by assumption.
  set (w := Z.to_nat n). assert (Hw : 0 < w) by (subst w; lia).
  destruct (ceil_div_bounds (length lst) w Hw) as (Hup & Hlow & Hzero).
  eexists. split; [reflexivity |]. split.
  - apply Forall_forall. intros c Hc.
    apply in_map_iff in Hc. destruct Hc as (k & <- & Hk).
    apply in_seq in Hk. rewrite length_firstn, length_skipn.
    assert (0 < length lst) by (destruct (length lst); [rewrite Hzero in Hk |]; lia).
    specialize (Hlow ltac:(lia)). nia.
  - rewrite concat_windows. apply firstn_all2. lia.
Qed.

Lemma emits_bind_lift {A B} (P : request -> Prop) (r : result A)
      (k : A -> M B) :
  (forall a, r = Ok a -> emits P (k a)) -> emits P (bind (lift r) k).
Proof.
  intros H srv log. unfold bind, lift. destruct r as [a | e |].
  - now apply H.
  - exists []. simpl. now rewrite app_nil_r.
  - exists []. simpl. now rewrite app_nil_r.
Qed.

Lemma emits_for_each_Forall {A} (P : request -> Prop) (Q : A -> Prop)
      (l : list A) (body : A -> M unit) :
  Forall Q l -> (forall x, Q x -> emits P (body x)) ->
  emits P (for_each l body).
Proof.
  intros Hl Hbody. induction Hl as [| x l Hx Hl IH]; simpl.
  - apply emits_ret.
  - apply emits_bind; auto.
Qed.

Lemma emits_batches {A} (P : request -> Prop) (lst : list A) (n : Z)
      (mkreq : list A -> request) :
  (0 < n)%Z ->
  (forall c, 1 <= length c <= Z.to_nat n -> P (mkreq c)) ->
  emits P (chunks <- lift (Seller.divide lst n) ;;
           for_each chunks (fun c => call (mkreq c) ;;; ret tt)).
Proof.
  intros Hn HP. apply emits_bind_lift. intros chunks Hchunks.
  destruct (divide_chunks A lst n Hn) as (chunks' & Heq & Hbounds & _).
  rewrite Heq in Hchunks. inversion Hchunks; subst chunks'.
  apply (emits_for_each_Forall P (fun c => 1 <= length c <= Z.to_nat n));
    [assumption |].
  intros c Hc. apply emits_bind; [| intros; apply emits_ret].
  apply emits_call, HP, Hc.
Qed.

Lemma emits_seller_offer_ids (P : request -> Prop) (fuel : nat)
      (client_id seller_token : string) :
  (forall last_id, P (OzonProductList last_id client_id seller_token)) ->
  emits P (Seller.get_offer_ids fuel client_id seller_token).
Proof.
  intros HP. unfold Seller.get_offer_ids.
  apply emits_bind; [| intros; apply emits_ret].
  generalize (@nil Ozon.product). generalize "".
  induction fuel as [| fuel IH]; intros last_id product_list; simpl.
  - apply emits_lift.
  - apply emits_bind.
    + unfold Seller.get_product_list.
      apply emits_bind; [apply emits_call, HP |].
      intros [rows | p | p |]; apply emits_lift.
    + intros some_prod.
      destruct (Ozon.total some_prod =? _)%Z; [apply emits_ret | apply IH].
Qed.

Lemma emits_seller_main_try (P : request -> Prop) (fuel : nat)
      (client_id seller_token : string) :
  P GetStockArchive ->
  (forall last_id, P (OzonProductList last_id client_id seller_token)) ->
  (forall c, 1 <= length c <= 100 ->
             P (OzonImportStocks c client_id seller_token)) ->
  (forall c, 1 <= length c <= 900 ->
             P (OzonImportPrices c client_id seller_token)) ->
  emits P (Seller.main_try fuel client_id seller_token).
Proof.
  intros Hget Hlist Hstocks Hprices. unfold Seller.main_try.
  apply emits_bind; [now apply emits_seller_offer_ids |]. intros offer_ids.
  apply emits_bind; [now apply emits_download |]. intros watch_remnants.
  destruct (Seller.create_stocks watch_remnants offer_ids)
    as [created remaining].
  apply emits_bind; [apply emits_lift |]. intros stocks.
  apply (emits_bind P (chunks <- lift (Seller.divide stocks 100) ;;
                       for_each chunks (fun some_stock =>
                         Seller.update_stocks some_stock client_id seller_token
                         ;;; ret tt))).
  - apply (emits_batches P stocks 100
             (fun c => OzonImportStocks c client_id seller_token)); [lia |].
    exact Hstocks.
  - intros _. apply emits_bind; [apply emits_lift |]. intros prices.
    apply (emits_batches P prices 900
             (fun c => OzonImportPrices c client_id seller_token)); [lia |].
    exact Hprices.
Qed.

Lemma emits_market_channel_batches (P : request -> Prop)
      (clock : list request -> string) (fuel : nat)
      (watch_remnants : list dict)
      (market_token campaign_id warehouse_id : string) :
  (forall page, P (MarketOfferMappingEntries page campaign_id market_token)) ->
  (forall c, 1 <= length c <= 2000 ->
             P (MarketPutStocks c campaign_id market_token)) ->
  emits P (market_channel clock fuel watch_remnants market_token
                          campaign_id warehouse_id).
Proof.
  intros Hlist Hput. unfold market_channel.
  apply emits_bind; [now apply emits_market_offer_ids |]. intros offer_ids.
  apply emits_bind; [apply emits_utcnow |]. intros date.
  apply emits_bind; [apply emits_lift |]. intros stocks.
  apply (emits_bind P (chunks <- lift (Seller.divide stocks 2000) ;;
                       for_each chunks (fun some_stock =>
                         Market.update_stocks some_stock campaign_id
                                              market_token ;;; ret tt))).
  - apply (emits_batches P stocks 2000
             (fun c => MarketPutStocks c campaign_id market_token)); [lia |].
    exact Hput.
  - intros _. apply emits_ret.
Qed.

(** X1. No run of either [main] sends an update request with an empty
    payload or one above the size its call site cuts to: at most 100
    stock entries and 900 price entries on the first platform, at most
    2000 stock entries on the second. *)
Theorem batches_within_limits (env : environ) (fuel : nat) (srv : server) :
  Forall within_batch_limits (sent (Seller.main env fuel srv)) /\
  (forall clock,
      Forall within_batch_limits (sent (Market.main env clock fuel srv))).
Proof.
  split.
  - unfold Seller.main.
    destruct (env "SELLER_TOKEN") as [seller_token |]; [| constructor].
    destruct (env "CLIENT_ID") as [client_id |]; [| constructor].
    rewrite sent_try_except.
    destruct (emits_seller_main_try within_batch_limits fuel client_id
                                    seller_token)
      with (srv := srv) (log := @nil request)
      as (added & Hlog & HP); simpl; auto.
    now rewrite Hlog.
  - intros clock. unfold Market.main.
    destruct (env "MARKET_TOKEN") as [market_token |]; [| constructor].
    destruct (env "FBS_ID") as [campaign_fbs_id |]; [| constructor].
    destruct (env "DBS_ID") as [campaign_dbs_id |]; [| constructor].
    destruct (env "WAREHOUSE_FBS_ID") as [warehouse_fbs_id |]; [| constructor].
    destruct (env "WAREHOUSE_DBS_ID") as [warehouse_dbs_id |]; [| constructor].
    destruct (emits_download within_batch_limits I srv [])
      as (added & Hlog & HP).
    destruct (Seller.download_stock srv []) as [[watch_remnants | e |] log0];
      simpl in Hlog; subst log0; simpl; try assumption.
    rewrite sent_try_except, market_main_try_split.
    assert (Hchannel : forall campaign_id warehouse_id,
               emits within_batch_limits
                     (market_channel clock fuel watch_remnants market_token
                                     campaign_id warehouse_id)).
    { intros. apply emits_market_channel_batches; simpl; auto. }
    destruct (emits_bind within_batch_limits _ _
                (Hchannel campaign_fbs_id warehouse_fbs_id)
                (fun _ => Hchannel campaign_dbs_id warehouse_dbs_id)
                srv added)
      as (added' & Hlog' & HP').
    rewrite Hlog'. now apply Forall_app.
Qed.

(** ** The upload loops *)

Lemma upload_step_ok {A} (mkreq : A -> request) (srv : server)
      (x : A) (l : list A) (log : list request) (resp : response) :
  srv log (mkreq x) = Ok resp ->
  for_each (x :: l) (fun x => call (mkreq x) ;;; ret tt) srv log
  = for_each l (fun x => call (mkreq x) ;;; ret tt) srv (log ++ [mkreq x]).
Proof.
  intros H. cbn [for_each]. unfold bind at 1. unfold bind at 1, call.
  rewrite H. reflexivity.
Qed.

Lemma upload_step_raise {A} (mkreq : A -> request) (srv : server)
      (x : A) (l : list A) (log : list request) (e : exn) :
  srv log (mkreq x) = Raise e ->
  for_each (x :: l) (fun x => call (mkreq x) ;;; ret tt) srv log
  = (Raise e, log ++ [mkreq x]).
Proof.
  intros H. cbn [for_each]. unfold bind at 1. unfold bind at 1, call.
  rewrite H. reflexivity.
Qed.

Lemma upload_loop_accepted {A} (mkreq : A -> request) (srv : server)
      (l : list A) :
  forall log,
    accepts srv log (map mkreq l) ->
    for_each l (fun x => call (mkreq x) ;;; ret tt) srv log
    = (Ok tt, log ++ map mkreq l).
Proof.
  induction l as [| x l IH]; intros log Hacc.
  - simpl. now rewrite app_nil_r.
  - destruct Hacc as [(resp & Hresp) Hrest].
    rewrite (upload_step_ok mkreq srv x l log resp Hresp).
    rewrite (IH _ Hrest). cbn [map]. now rewrite <- app_assoc.
Qed.

Lemma upload_loop_aborts {A} (mkreq : A -> request) (srv : server)
      (done : list A) (bad : A) (rest : list A) (e : exn) :
  forall log,
    accepts srv log (map mkreq done) ->
    srv (log ++ map mkreq done) (mkreq bad) = Raise e ->
    for_each (done ++ bad :: rest) (fun x => call (mkreq x) ;;; ret tt) srv log
    = (Raise e, log ++ map mkreq done ++ [mkreq bad]).
Proof.
  induction done as [| x done IH]; intros log Hacc Hbad.
  - cbn [map app] in *. rewrite app_nil_r in Hbad.
    now apply upload_step_raise.
  - destruct Hacc as [(resp & Hresp) Hrest].
    cbn [app map] in *.
    rewrite (upload_step_ok mkreq srv x _ log resp Hresp).
    rewrite (IH (log ++ [mkreq x]) Hrest).
    + now rewrite <- app_assoc.
    + rewrite <- app_assoc. exact Hbad.
Qed.

Lemma accepts_app (srv : server) (reqs1 reqs2 : list request) :
  forall log,
    accepts srv log (reqs1 ++ reqs2) <->
    accepts srv log reqs1 /\ accepts srv (log ++ reqs1) reqs2.
Proof.
  induction reqs1 as [| req reqs1 IH]; intros log; simpl.
  - rewrite app_nil_r. tauto.
  - rewrite IH, <- app_assoc. simpl. tauto.
Qed.

Lemma bind_ok {A B} (m : M A) (k : A -> M B) (srv : server)
      (log log' : list request) (a : A) :
  m srv log = (Ok a, log') -> bind m k srv log = k a srv log'.
Proof. intros H. unfold bind. now rewrite H. Qed.

Lemma bind_raise {A B} (m : M A) (k : A -> M B) (srv : server)
      (log log' : list request) (e : exn) :
  m srv log = (Raise e, log') -> bind m k srv log = (Raise e, log').
Proof. intros H. unfold bind. now rewrite H. Qed.

(** [main] of seller.py from the point where [create_stocks] has
    returned. *)
Lemma seller_main_try_after_stocks
      (fuel : nat) (client_id seller_token : string) (srv : server)
      (log log1 log2 : list request) (offer_ids remaining : list string)
      (watch_remnants : list dict) (stocks : list Ozon.stock_entry) :
  Seller.get_offer_ids fuel client_id seller_token srv log
  = (Ok offer_ids, log1) ->
  Seller.download_stock srv log1 = (Ok watch_remnants, log2) ->
  Seller.create_stocks watch_remnants offer_ids = (Ok stocks, remaining) ->
  Seller.main_try fuel client_id seller_token srv log
  = seller_uploads stocks (Seller.create_prices watch_remnants remaining)
                   client_id seller_token srv log2.
Proof.
  intros Hids Hwr Hcreate.
  unfold Seller.main_try, bind at 1. rewrite Hids.
  unfold bind at 1. rewrite Hwr, Hcreate. reflexivity.
Qed.

Lemma seller_uploads_accepted
      (srv : server) (log : list request) (client_id seller_token : string)
      (stocks : list Ozon.stock_entry) (prices : list Ozon.price_entry)
      (stock_chunks : list (list Ozon.stock_entry))
      (price_chunks : list (list Ozon.price_entry)) :
  Seller.divide stocks 100 = Ok stock_chunks ->
  Seller.divide prices 900 = Ok price_chunks ->
  accepts srv log
          (map (fun c => OzonImportStocks c client_id seller_token) stock_chunks
           ++ map (fun c => OzonImportPrices c client_id seller_token)
                  price_chunks) ->
  seller_uploads stocks (Ok prices) client_id seller_token srv log
  = (Ok tt,
     log ++ map (fun c => OzonImportStocks c client_id seller_token)
                stock_chunks
         ++ map (fun c => OzonImportPrices c client_id seller_token)
                price_chunks).
Proof.
  intros Hsc Hpc Hacc.
  apply accepts_app in Hacc. destruct Hacc as [Hacc1 Hacc2].
  pose proof (upload_loop_accepted
                (fun c => OzonImportStocks c client_id seller_token)
                srv stock_chunks log Hacc1) as Hup1.
  pose proof (upload_loop_accepted
                (fun c => OzonImportPrices c client_id seller_token)
                srv price_chunks _ Hacc2) as Hup2.
  cbv beta in Hup1, Hup2.
  unfold seller_uploads, Seller.update_stocks, Seller.update_price.
  rewrite Hsc.
  rewrite (bind_ok _ _ srv log log stock_chunks eq_refl).
  rewrite (bind_ok _ _ srv _ _ tt Hup1).
  rewrite (bind_ok _ _ srv _ _ prices eq_refl).
  rewrite Hpc.
  rewrite (bind_ok _ _ srv _ _ price_chunks eq_refl).
  rewrite Hup2. now rewrite <- app_assoc.
Qed.

(** X2. When the first platform's [main] has enumerated, downloaded and
    reconciled, and the remote side accepts every update, the run sends
    the stock collection cut into consecutive batches, in order, then the
    price collection likewise, prints nothing and ends with status 0. *)
Theorem seller_main_uploads_in_order
        (env : environ) (fuel : nat) (srv : server)
        (seller_token client_id : string)
        (offer_ids remaining : list string) (watch_remnants : list dict)
        (log1 log2 : list request)
        (stocks : list Ozon.stock_entry) (prices : list Ozon.price_entry)
        (stock_chunks : list (list Ozon.stock_entry))
        (price_chunks : list (list Ozon.price_entry)) :
  env "SELLER_TOKEN" = Some seller_token ->
  env "CLIENT_ID" = Some client_id ->
  Seller.get_offer_ids fuel client_id seller_token srv [] = (Ok offer_ids, log1) ->
  Seller.download_stock srv log1 = (Ok watch_remnants, log2) ->
  Seller.create_stocks watch_remnants offer_ids = (Ok stocks, remaining) ->
  Seller.create_prices watch_remnants remaining = Ok prices ->
  Seller.divide stocks 100 = Ok stock_chunks ->
  Seller.divide prices 900 = Ok price_chunks ->
  accepts srv log2
          (map (fun c => OzonImportStocks c client_id seller_token) stock_chunks
           ++ map (fun c => OzonImportPrices c client_id seller_token)
                  price_chunks) ->
  Seller.main env fuel srv
  = {| ending := Exit 0;
       stdout := [];
       sent := log2
               ++ map (fun c => OzonImportStocks c client_id seller_token)
                      stock_chunks
               ++ map (fun c => OzonImportPrices c client_id seller_token)
                      price_chunks |} /\
  concat stock_chunks = stocks /\ concat price_chunks = prices.
Proof.
  intros Htoken Hclient Hids Hwr Hstocks Hprices Hsc Hpc Hacc.
  split.
  - unfold Seller.main. rewrite Htoken, Hclient.
    rewrite (seller_main_try_after_stocks _ _ _ _ _ _ _ _ _ _ _
               Hids Hwr Hstocks), Hprices.
    now rewrite (seller_uploads_accepted _ _ _ _ _ _ _ _ Hsc Hpc Hacc).
  - destruct (divide_chunks _ stocks 100 ltac:(lia)) as (c1 & H1 & _ & Hc1).
    destruct (divide_chunks _ prices 900 ltac:(lia)) as (c2 & H2 & _ & Hc2).
    rewrite Hsc in H1. rewrite Hpc in H2.
    inversion H1; inversion H2; subst. auto.
Qed.

(** X3. In [main] of seller.py a stock batch the remote side refuses
    ends the uploads: the batches after it and all price batches are
    never sent, the handler prints its line for the error and the run
    ends with status 0. *)
Theorem seller_failing_batch_aborts
        (env : environ) (fuel : nat) (srv : server)
        (seller_token client_id : string)
        (offer_ids remaining : list string) (watch_remnants : list dict)
        (log1 log2 : list request) (stocks : list Ozon.stock_entry)
        (done : list (list Ozon.stock_entry)) (bad : list Ozon.stock_entry)
        (rest : list (list Ozon.stock_entry)) (e : exn) :
  env "SELLER_TOKEN" = Some seller_token ->
  env "CLIENT_ID" = Some client_id ->
  Seller.get_offer_ids fuel client_id seller_token srv [] = (Ok offer_ids, log1) ->
  Seller.download_stock srv log1 = (Ok watch_remnants, log2) ->
  Seller.create_stocks watch_remnants offer_ids = (Ok stocks, remaining) ->
  Seller.divide stocks 100 = Ok (done ++ bad :: rest) ->
  accepts srv log2
          (map (fun c => OzonImportStocks c client_id seller_token) done) ->
  srv (log2 ++ map (fun c => OzonImportStocks c client_id seller_token) done)
      (OzonImportStocks bad client_id seller_token) = Raise e ->
  Seller.main env fuel srv
  = {| ending := Exit 0;
       stdout := [handler e];
       sent := log2
               ++ map (fun c => OzonImportStocks c client_id seller_token) done
               ++ [OzonImportStocks bad client_id seller_token] |}.
Proof.
  intros Htoken Hclient Hids Hwr Hstocks Hsc Hacc Hbad.
  pose proof (upload_loop_aborts
                (fun c => OzonImportStocks c client_id seller_token)
                srv done bad rest e log2 Hacc Hbad) as Hup.
  cbv beta in Hup.
  unfold Seller.main. rewrite Htoken, Hclient.
  rewrite (seller_main_try_after_stocks _ _ _ _ _ _ _ _ _ _ _
             Hids Hwr Hstocks).
  unfold seller_uploads, Seller.update_stocks. rewrite Hsc.
  rewrite (bind_ok _ _ srv log2 log2 (done ++ bad :: rest) eq_refl).
  now rewrite (bind_raise _ _ srv _ _ e Hup).
Qed.

(** ** The enumerators on any number of pages *)

Lemma serves_app (srv : server) (ex1 ex2 : list (request * response)) :
  forall log,
    serves srv log (ex1 ++ ex2) <->
    serves srv log ex1 /\ serves srv (log ++ map fst ex1) ex2.
Proof.
  induction ex1 as [| [req resp] ex1 IH]; intros log; simpl.
  - rewrite app_nil_r. tauto.
  - rewrite IH, <- app_assoc. simpl. tauto.
Qed.

Lemma market_loop_step (srv : server) (log : list request) (fuel : nat)
      (page campaign_id market_token : string)
      (acc : list Yandex.mapping_entry) (answer : Yandex.mapping_page) :
  srv log (MarketOfferMappingEntries page campaign_id market_token)
  = Ok (MarketMappings answer) ->
  Market.get_offer_ids_loop (S fuel) page acc campaign_id market_token srv log
  = match Yandex.nextPageToken answer with
    | None =>
        (Ok (acc ++ Yandex.offerMappingEntries answer),
         log ++ [MarketOfferMappingEntries page campaign_id market_token])
    | Some next =>
        if next =? "" then
          (Ok (acc ++ Yandex.offerMappingEntries answer),
           log ++ [MarketOfferMappingEntries page campaign_id market_token])
        else
          Market.get_offer_ids_loop
            fuel next (acc ++ Yandex.offerMappingEntries answer)
            campaign_id market_token srv
            (log ++ [MarketOfferMappingEntries page campaign_id market_token])
    end.
Proof.
  intros H. cbn [Market.get_offer_ids_loop].
  unfold bind at 1, Market.get_product_list, bind at 1, call. rewrite H.
  cbn. destruct (Yandex.nextPageToken answer) as [next |]; [| reflexivity].
  destruct (next =? ""); reflexivity.
Qed.

Lemma market_loop_step_raise (srv : server) (log : list request) (fuel : nat)
      (page campaign_id market_token : string)
      (acc : list Yandex.mapping_entry) (e : exn) :
  srv log (MarketOfferMappingEntries page campaign_id market_token) = Raise e ->
  Market.get_offer_ids_loop (S fuel) page acc campaign_id market_token srv log
  = (Raise e, log ++ [MarketOfferMappingEntries page campaign_id market_token]).
Proof.
  intros H. cbn [Market.get_offer_ids_loop].
  unfold bind at 1, Market.get_product_list, bind at 1, call. now rewrite H.
Qed.

Lemma market_loop_prefix (srv : server) (campaign_id market_token : string)
      (fuel : nat) (pages : list (list Yandex.mapping_entry * string)) :
  forall page acc log,
    Forall (fun p => snd p <> "") pages ->
    serves srv log (market_prefix campaign_id market_token page pages) ->
    Market.get_offer_ids_loop (length pages + fuel) page acc
                              campaign_id market_token srv log
    = Market.get_offer_ids_loop
        fuel (market_cursor page pages) (acc ++ market_entries pages)
        campaign_id market_token srv
        (log ++ map fst (market_prefix campaign_id market_token page pages)).
Proof.
  induction pages as [| [entries next] rest IH]; intros page acc log Htok Hsrv.
  - simpl. unfold market_entries. simpl. now rewrite !app_nil_r.
  - destruct Hsrv as [Hfirst Hrest]. inversion Htok as [| ? ? Hnext Htok']; subst.
    cbn [length Nat.add].
    rewrite (market_loop_step _ _ _ _ _ _ _ _ Hfirst). cbn.
    simpl in Hnext. apply String.eqb_neq in Hnext. rewrite Hnext.
    rewrite (IH _ _ _ Htok' Hrest).
    unfold market_entries. cbn. now rewrite <- !app_assoc.
Qed.

Lemma ozon_loop_step (srv : server) (log : list request) (fuel : nat)
      (last_id client_id seller_token : string)
      (acc : list Ozon.product) (answer : Ozon.product_list) :
  srv log (OzonProductList last_id client_id seller_token)
  = Ok (OzonProducts answer) ->
  Seller.get_offer_ids_loop (S fuel) last_id acc client_id seller_token srv log
  = if (Ozon.total answer
        =? Z.of_nat (length (acc ++ Ozon.items answer)))%Z
    then (Ok (acc ++ Ozon.items answer),
          log ++ [OzonProductList last_id client_id seller_token])
    else Seller.get_offer_ids_loop
           fuel (Ozon.last_id answer) (acc ++ Ozon.items answer)
           client_id seller_token srv
           (log ++ [OzonProductList last_id client_id seller_token]).
Proof.
  intros H. cbn [Seller.get_offer_ids_loop].
  unfold bind at 1, Seller.get_product_list, bind at 1, call. rewrite H.
  cbn [ret]. destruct (_ =? _)%Z; reflexivity.
Qed.

Lemma ozon_loop_step_raise (srv : server) (log : list request) (fuel : nat)
      (last_id client_id seller_token : string)
      (acc : list Ozon.product) (e : exn) :
  srv log (OzonProductList last_id client_id seller_token) = Raise e ->
  Seller.get_offer_ids_loop (S fuel) last_id acc client_id seller_token srv log
  = (Raise e, log ++ [OzonProductList last_id client_id seller_token]).
Proof.
  intros H. cbn [Seller.get_offer_ids_loop].
  unfold bind at 1, Seller.get_product_list, bind at 1, call. now rewrite H.
Qed.

Lemma ozon_loop_prefix (srv : server) (client_id seller_token : string)
      (fuel : nat) (pages : list Ozon.product_list) :
  forall last_id acc log,
    ozon_goes_on (length acc) pages ->
    serves srv log (ozon_prefix client_id seller_token last_id pages) ->
    Seller.get_offer_ids_loop (length pages + fuel) last_id acc
                              client_id seller_token srv log
    = Seller.get_offer_ids_loop
        fuel (ozon_cursor last_id pages) (acc ++ ozon_items pages)
        client_id seller_token srv
        (log ++ map fst (ozon_prefix client_id seller_token last_id pages)).
Proof.
  induction pages as [| page rest IH]; intros last_id acc log Hgo Hsrv.
  - simpl. unfold ozon_items. simpl. now rewrite !app_nil_r.
  - destruct Hsrv as [Hfirst Hrest]. destruct Hgo as [Hne Hgo].
    cbn [length Nat.add].
    rewrite (ozon_loop_step _ _ _ _ _ _ _ _ Hfirst).
    rewrite length_app. apply Z.eqb_neq in Hne. rewrite Hne.
    rewrite <- length_app in Hgo.
    rewrite (IH _ _ _ Hgo Hrest).
    unfold ozon_items. cbn. now rewrite <- !app_assoc.
Qed.

(** X4. The second platform's enumerator, on any number of pages that
    each name a next page followed by one that names none, returns the
    identifiers of all pages in page order after one request per page,
    each request carrying the token the page before it named.  This
    holds with fuel for one round per page. *)
Theorem market_enumeration_pages
        (srv : server) (log : list request) (fuel : nat)
        (campaign_id market_token : string)
        (pages : list (list Yandex.mapping_entry * string))
        (last : list Yandex.mapping_entry) (end_token : option string) :
  Forall (fun p => snd p <> "") pages ->
  exhausted end_token ->
  serves srv log
         (market_prefix campaign_id market_token "" pages
          ++ [(MarketOfferMappingEntries (market_cursor "" pages)
                                         campaign_id market_token,
               MarketMappings (Yandex.Build_mapping_page last end_token))]) ->
  length pages < fuel ->
  Market.get_offer_ids fuel campaign_id market_token srv log
  = (Ok (map Yandex.shopSku (market_entries pages ++ last)),
     log ++ map fst (market_prefix campaign_id market_token "" pages)
         ++ [MarketOfferMappingEntries (market_cursor "" pages)
                                       campaign_id market_token]).
Proof.
  intros Htok Hend Hsrv Hfuel.
  apply serves_app in Hsrv. destruct Hsrv as [Hpre [Hlast _]].
  replace fuel with (length pages + S (fuel - S (length pages))) by lia.
  unfold Market.get_offer_ids.
  erewrite bind_ok; [reflexivity |].
  rewrite (market_loop_prefix _ _ _ _ _ _ _ _ Htok Hpre).
  rewrite (market_loop_step _ _ _ _ _ _ _ _ Hlast). cbn.
  rewrite <- app_assoc.
  destruct Hend as [-> | ->]; reflexivity.
Qed.

(** X5. The first platform's enumerator, on pages none of which reports
    a total equal to the number of products received so far, followed by
    one that does, returns the identifiers of all pages in page order
    after one request per page, each request carrying the cursor the
    page before it gave.  This holds with fuel for one round per page. *)
Theorem ozon_enumeration_pages
        (srv : server) (log : list request) (fuel : nat)
        (client_id seller_token : string)
        (pages : list Ozon.product_list) (last : Ozon.product_list) :
  ozon_goes_on 0 pages ->
  Ozon.total last
  = Z.of_nat (length (ozon_items pages) + length (Ozon.items last)) ->
  serves srv log
         (ozon_prefix client_id seller_token "" pages
          ++ [(OzonProductList (ozon_cursor "" pages) client_id seller_token,
               OzonProducts last)]) ->
  length pages < fuel ->
  Seller.get_offer_ids fuel client_id seller_token srv log
  = (Ok (map Ozon.item_offer_id (ozon_items pages ++ Ozon.items last)),
     log ++ map fst (ozon_prefix client_id seller_token "" pages)
         ++ [OzonProductList (ozon_cursor "" pages) client_id seller_token]).
Proof.
  intros Hgo Htotal Hsrv Hfuel.
  apply serves_app in Hsrv. destruct Hsrv as [Hpre [Hlast _]].
  replace fuel with (length pages + S (fuel - S (length pages))) by lia.
  unfold Seller.get_offer_ids.
  erewrite bind_ok; [reflexivity |].
  rewrite (ozon_loop_prefix _ _ _ _ _ _ [] _ Hgo Hpre).
  rewrite (ozon_loop_step _ _ _ _ _ _ _ _ Hlast).
  cbn [app]. rewrite length_app, Htotal, Z.eqb_refl.
  now rewrite <- app_assoc.
Qed.

Lemma market_loop_endless (srv : server) (campaign_id market_token : string) :
  (forall log page,
      exists entries next,
        srv log (MarketOfferMappingEntries page campaign_id market_token)
        = Ok (MarketMappings
                (Yandex.Build_mapping_page entries (Some next))) /\
        next <> "") ->
  forall fuel page acc log,
  exists log',
    Market.get_offer_ids_loop fuel page acc campaign_id market_token srv log
    = (OutOfFuel, log') /\
    length log' = length log + fuel.
Proof.
  intros Hsrv. induction fuel as [| fuel IH]; intros page acc log.
  - exists log. simpl. split; [reflexivity | lia].
  - destruct (Hsrv log page) as (entries & next & Hans & Hnext).
    rewrite (market_loop_step _ _ _ _ _ _ _ _ Hans). cbn.
    apply String.eqb_neq in Hnext. rewrite Hnext.
    destruct (IH next (acc ++ entries)
                 (log ++ [MarketOfferMappingEntries page campaign_id
                                                    market_token]))
      as (log' & Hrun & Hlen).
    exists log'. split; [assumption |].
    rewrite Hlen, length_app. simpl. lia.
Qed.

(** X6. The second platform's enumerator has no bound of its own: as
    long as every answer names a non-empty next page it keeps asking,
    one request per round, and never returns. *)
Theorem market_enumeration_never_returns
        (srv : server) (campaign_id market_token : string) :
  (forall log page,
      exists entries next,
        srv log (MarketOfferMappingEntries page campaign_id market_token)
        = Ok (MarketMappings
                (Yandex.Build_mapping_page entries (Some next))) /\
        next <> "") ->
  forall fuel log,
  exists log',
    Market.get_offer_ids fuel campaign_id market_token srv log
    = (OutOfFuel, log') /\
    length log' = length log + fuel.
Proof.
  intros Hsrv fuel log.
  destruct (market_loop_endless srv campaign_id market_token Hsrv
                                fuel "" [] log)
    as (log' & Hrun & Hlen).
  exists log'. split; [| assumption].
  unfold Market.get_offer_ids, bind. now rewrite Hrun.
Qed.

Lemma ozon_loop_overshoot (srv : server) (client_id seller_token : string)
      (bound : Z) :
  (forall log last_id,
      exists page,
        srv log (OzonProductList last_id client_id seller_token)
        = Ok (OzonProducts page) /\
        (Ozon.total page <= bound)%Z) ->
  forall fuel last_id acc log,
    (bound < Z.of_nat (length acc))%Z ->
    exists log',
      Seller.get_offer_ids_loop fuel last_id acc client_id seller_token srv log
      = (OutOfFuel, log') /\
      length log' = length log + fuel.
Proof.
  intros Hsrv. induction fuel as [| fuel IH]; intros last_id acc log Hacc.
  - exists log. simpl. split; [reflexivity | lia].
  - destruct (Hsrv log last_id) as (page & Hans & Htotal).
    rewrite (ozon_loop_step _ _ _ _ _ _ _ _ Hans).
    destruct (Z.eqb_spec (Ozon.total page)
                         (Z.of_nat (length (acc ++ Ozon.items page))))
      as [Heq | _].
    + rewrite length_app in Heq. lia.
    + destruct (IH (Ozon.last_id page) (acc ++ Ozon.items page)
                   (log ++ [OzonProductList last_id client_id seller_token]))
        as (log' & Hrun & Hlen).
      { rewrite length_app. lia. }
      exists log'. split; [assumption |].
      rewrite Hlen, length_app. simpl. lia.
Qed.

(** X7. The first platform's enumerator stops only on an exact match of
    the reported total: when no answer reports a total above [bound] and
    the first page alone holds more than [bound] products, it keeps
    asking, one request per round, and never returns. *)
Theorem ozon_enumeration_never_returns
        (srv : server) (client_id seller_token : string) (bound : Z)
        (log : list request) (first : Ozon.product_list) :
  (forall log last_id,
      exists page,
        srv log (OzonProductList last_id client_id seller_token)
        = Ok (OzonProducts page) /\
        (Ozon.total page <= bound)%Z) ->
  srv log (OzonProductList "" client_id seller_token)
  = Ok (OzonProducts first) ->
  (bound < Z.of_nat (length (Ozon.items first)))%Z ->
  forall fuel,
  exists log',
    Seller.get_offer_ids fuel client_id seller_token srv log
    = (OutOfFuel, log') /\
    length log' = length log + fuel.
Proof.
  intros Hsrv Hfirst Hmany fuel.
  assert (Hloop : exists log',
             Seller.get_offer_ids_loop fuel "" [] client_id seller_token
                                       srv log
             = (OutOfFuel, log') /\
             length log' = length log + fuel).
  { destruct fuel as [| fuel].
    - exists log. simpl. split; [reflexivity | lia].
    - rewrite (ozon_loop_step _ _ _ _ _ _ _ _ Hfirst).
      destruct (Hsrv log "") as (page & Hans & Htotal).
      rewrite Hfirst in Hans. inversion Hans; subst page.
      cbn [app].
      destruct (Z.eqb_spec (Ozon.total first)
                           (Z.of_nat (length (Ozon.items first))))
        as [Heq | _]; [lia |].
      destruct (ozon_loop_overshoot
                  srv client_id seller_token bound Hsrv fuel
                  (Ozon.last_id first) (Ozon.items first)
                  (log ++ [OzonProductList "" client_id seller_token]) Hmany)
        as (log' & Hrun & Hlen).
      exists log'. split; [assumption |].
      rewrite Hlen, length_app. simpl. lia. }
  destruct Hloop as (log' & Hrun & Hlen).
  exists log'. split; [| assumption].
  unfold Seller.get_offer_ids, bind. now rewrite Hrun.
Qed.

(** X8. An error on a page request ends the enumeration with that error:
    both enumerators raise it as it is, after the requests for the pages
    before and the one that failed, and give no partial list. *)
Theorem enumeration_error_propagates
        (srv : server) (log : list request) (fuel : nat) (e : exn) :
  (forall (campaign_id market_token : string)
          (pages : list (list Yandex.mapping_entry * string)),
      Forall (fun p => snd p <> "") pages ->
      serves srv log (market_prefix campaign_id market_token "" pages) ->
      srv (log ++ map fst (market_prefix campaign_id market_token "" pages))
          (MarketOfferMappingEntries (market_cursor "" pages)
                                     campaign_id market_token) = Raise e ->
      length pages < fuel ->
      Market.get_offer_ids fuel campaign_id market_token srv log
      = (Raise e,
         log ++ map fst (market_prefix campaign_id market_token "" pages)
             ++ [MarketOfferMappingEntries (market_cursor "" pages)
                                           campaign_id market_token])) /\
  (forall (client_id seller_token : string) (pages : list Ozon.product_list),
      ozon_goes_on 0 pages ->
      serves srv log (ozon_prefix client_id seller_token "" pages) ->
      srv (log ++ map fst (ozon_prefix client_id seller_token "" pages))
          (OzonProductList (ozon_cursor "" pages) client_id seller_token)
      = Raise e ->
      length pages < fuel ->
      Seller.get_offer_ids fuel client_id seller_token srv log
      = (Raise e,
         log ++ map fst (ozon_prefix client_id seller_token "" pages)
             ++ [OzonProductList (ozon_cursor "" pages)
                                 client_id seller_token])).
Proof.
  split.
  - intros campaign_id market_token pages Htok Hpre Hraise Hfuel.
    replace fuel with (length pages + S (fuel - S (length pages))) by lia.
    unfold Market.get_offer_ids.
    erewrite bind_raise; [reflexivity |].
    rewrite (market_loop_prefix _ _ _ _ _ _ _ _ Htok Hpre).
    rewrite (market_loop_step_raise _ _ _ _ _ _ _ _ Hraise).
    now rewrite <- app_assoc.
  - intros client_id seller_token pages Hgo Hpre Hraise Hfuel.
    replace fuel with (length pages + S (fuel - S (length pages))) by lia.
    unfold Seller.get_offer_ids.
    erewrite bind_raise; [reflexivity |].
    rewrite (ozon_loop_prefix _ _ _ _ _ _ [] _ Hgo Hpre).
    rewrite (ozon_loop_step_raise _ _ _ _ _ _ _ _ Hraise).
    now rewrite <- app_assoc.
Qed.

(** ** More on the reconciler *)

Lemma py_int_no_fuel (v : pyval) : py_int v <> OutOfFuel.
Proof.
  destruct v as [| z | s]; simpl; try discriminate.
  destruct (if ascii_only s then _ else _); discriminate.
Qed.

Lemma bucket_no_fuel (v : pyval) : bucket v <> OutOfFuel.
Proof.
  unfold bucket. destruct (_ =? ">10"); [discriminate |].
  destruct (_ =? "1"); [discriminate | apply py_int_no_fuel].
Qed.

Section ReconcileMore.
Variable E : Type.
Variable mk : string -> Z -> E.
Variable key : E -> string.
Hypothesis key_mk : forall c q, key (mk c q) = c.

Lemma stocks_of_listed (watch_remnants : list dict) (offer_ids : list string)
      (stocks : list E) (remaining : list string) :
  stocks_of mk watch_remnants offer_ids = (Ok stocks, remaining) ->
  Permutation (map key stocks) offer_ids /\
  length stocks = length offer_ids.
Proof.
  intros H.
  destruct (stocks_of_inv E mk key key_mk _ _ _ _ H)
    as (matched & -> & _ & _ & Hperm & _).
  assert (Hkeys : map key (matched ++ map (fun i => mk i 0%Z) remaining)
                  = map key matched ++ remaining).
  { rewrite map_app, map_map. f_equal.
    rewrite <- (map_id remaining) at 2. apply map_ext. intros; apply key_mk. }
  split.
  - rewrite Hkeys. now symmetry.
  - rewrite <- (length_map key), Hkeys. symmetry.
    now apply Permutation_length.
Qed.

(** What the first loop has done when it raises. *)
Lemma stocks_loop_raises (watch_remnants : list dict) :
  forall offer_ids e left,
    stocks_loop mk watch_remnants [] offer_ids = (Raise e, left) ->
    exists before watch after matched,
      watch_remnants = before ++ watch :: after /\
      stocks_loop mk before [] offer_ids = (Ok matched, left) /\
      In (code_of watch) left /\
      py_str (dict_get watch "Количество") <> ">10" /\
      py_str (dict_get watch "Количество") <> "1" /\
      py_int (dict_get watch "Количество") = Raise e.
Proof.
  induction watch_remnants as [| watch rest IH]; intros offer_ids e left H.
  - discriminate.
  - destruct (py_in (code_of watch) offer_ids) eqn:Hin.
    + pose proof (proj1 (py_in_In _ _) Hin) as Hin'.
      destruct (bucket (dict_get watch "Количество")) as [q | e' |] eqn:Hq.
      * destruct (list_remove_split _ _ Hin') as (l1 & l2 & _ & _ & Hrem).
        rewrite (stocks_loop_known E mk watch rest offer_ids (l1 ++ l2) q)
          in H by assumption.
        unfold with_head in H.
        destruct (stocks_loop mk rest [] (l1 ++ l2)) as [[tail | e' |] ids']
          eqn:Hrest; simpl in H; inversion H; subst e' ids'.
        destruct (IH _ _ _ Hrest)
          as (before & w & after & matched & -> & Hbefore & Hw).
        exists (watch :: before), w, after, (mk (code_of watch) q :: matched).
        split; [reflexivity |]. split; [| exact Hw].
        rewrite (stocks_loop_known E mk watch before offer_ids (l1 ++ l2) q)
          by assumption.
        now rewrite Hbefore.
      * cbn [stocks_loop] in H. rewrite Hin, Hq in H.
        inversion H; subst e' left.
        exists [], watch, rest, []. repeat split; auto.
        -- intros Hc. unfold bucket in Hq. rewrite Hc in Hq. discriminate.
        -- intros Hc. unfold bucket in Hq. rewrite Hc in Hq.
           simpl in Hq. discriminate.
        -- unfold bucket in Hq.
           destruct (_ =? ">10"); [discriminate |].
           destruct (_ =? "1"); [discriminate | assumption].
      * now elim (bucket_no_fuel _ Hq).
    + apply py_in_false in Hin.
      rewrite stocks_loop_unknown in H by assumption.
      destruct (IH _ _ _ H)
        as (before & w & after & matched & -> & Hbefore & Hw).
      exists (watch :: before), w, after, matched.
      split; [reflexivity |]. split; [| exact Hw].
      now rewrite stocks_loop_unknown.
Qed.

Lemma stocks_loop_no_fuel (watch_remnants : list dict) :
  forall offer_ids left,
    stocks_loop mk watch_remnants [] offer_ids <> (OutOfFuel, left).
Proof.
  induction watch_remnants as [| watch rest IH]; intros offer_ids left H.
  - discriminate.
  - destruct (py_in (code_of watch) offer_ids) eqn:Hin.
    + pose proof (proj1 (py_in_In _ _) Hin) as Hin'.
      destruct (bucket (dict_get watch "Количество")) as [q | e' |] eqn:Hq.
      * destruct (list_remove_split _ _ Hin') as (l1 & l2 & _ & _ & Hrem).
        rewrite (stocks_loop_known E mk watch rest offer_ids (l1 ++ l2) q)
          in H by assumption.
        unfold with_head in H.
        destruct (stocks_loop mk rest [] (l1 ++ l2)) as [[tail | e' |] ids']
          eqn:Hrest; simpl in H; inversion H; subst.
        now apply (IH _ _ Hrest).
      * cbn [stocks_loop] in H. rewrite Hin, Hq in H. discriminate.
      * now elim (bucket_no_fuel _ Hq).
    + apply py_in_false in Hin.
      rewrite stocks_loop_unknown in H by assumption.
      now apply (IH _ _ H).
Qed.

Lemma stocks_of_raises_inv (watch_remnants : list dict)
      (offer_ids left : list string) (e : exn) :
  stocks_of mk watch_remnants offer_ids = (Raise e, left) ->
  exists before watch after stocks,
    watch_remnants = before ++ watch :: after /\
    stocks_of mk before offer_ids = (Ok stocks, left) /\
    In (code_of watch) left /\
    py_str (dict_get watch "Количество") <> ">10" /\
    py_str (dict_get watch "Количество") <> "1" /\
    py_int (dict_get watch "Количество") = Raise e.
Proof.
  unfold stocks_of. intros H.
  destruct (stocks_loop mk watch_remnants [] offer_ids)
    as [[matched | e' |] ids'] eqn:Hloop; inversion H; subst e' ids'.
  destruct (stocks_loop_raises _ _ _ _ Hloop)
    as (before & w & after & matched & -> & Hbefore & Hw).
  exists before, w, after, (matched ++ map (fun i => mk i 0%Z) left).
  split; [reflexivity |]. split; [| exact Hw].
  now rewrite Hbefore.
Qed.

Lemma stocks_of_no_fuel (watch_remnants : list dict)
      (offer_ids left : list string) :
  stocks_of mk watch_remnants offer_ids <> (OutOfFuel, left).
Proof.
  unfold stocks_of. intros H.
  destruct (stocks_loop mk watch_remnants [] offer_ids)
    as [[matched | e' |] ids'] eqn:Hloop; inversion H; subst.
  now apply (stocks_loop_no_fuel _ _ _ Hloop).
Qed.
End ReconcileMore.

Lemma py_int_raise_class (v : pyval) (e : exn) :
  py_int v = Raise e -> exn_cls e = ValueError \/ exn_cls e = TypeError.
Proof.
  destruct v as [| z | s]; simpl; intros H.
  - inversion H. now right.
  - discriminate.
  - destruct (if ascii_only s then _ else _); inversion H. now left.
Qed.

Lemma stocks_loop_map {E1 E2 : Type} (mk1 : string -> Z -> E1)
      (mk2 : string -> Z -> E2) (f : E1 -> E2) :
  (forall c q, f (mk1 c q) = mk2 c q) ->
  forall watch_remnants acc offer_ids,
    stocks_loop mk2 watch_remnants (map f acc) offer_ids
    = (rbind (fst (stocks_loop mk1 watch_remnants acc offer_ids))
             (fun stocks => Ok (map f stocks)),
       snd (stocks_loop mk1 watch_remnants acc offer_ids)).
Proof.
  intros Hf. induction watch_remnants as [| watch rest IH];
    intros acc offer_ids; [reflexivity |].
  cbn [stocks_loop].
  destruct (py_in (code_of watch) offer_ids); [| apply IH].
  destruct (bucket (dict_get watch "Количество")) as [q | e |];
    try reflexivity.
  destruct (list_remove (code_of watch) offer_ids) as [ids1 |];
    [| reflexivity].
  rewrite <- (Hf (code_of watch) q).
  change [f (mk1 (code_of watch) q)] with (map f [mk1 (code_of watch) q]).
  rewrite <- map_app. apply IH.
Qed.

Lemma stocks_of_map {E1 E2 : Type} (mk1 : string -> Z -> E1)
      (mk2 : string -> Z -> E2) (f : E1 -> E2) :
  (forall c q, f (mk1 c q) = mk2 c q) ->
  forall watch_remnants offer_ids,
    stocks_of mk2 watch_remnants offer_ids
    = (rbind (fst (stocks_of mk1 watch_remnants offer_ids))
             (fun stocks => Ok (map f stocks)),
       snd (stocks_of mk1 watch_remnants offer_ids)).
Proof.
  intros Hf watch_remnants offer_ids. unfold stocks_of.
  pose proof (stocks_loop_map mk1 mk2 f Hf watch_remnants [] offer_ids)
    as Hloop.
  cbn [map] in Hloop. rewrite Hloop.
  destruct (stocks_loop mk1 watch_remnants [] offer_ids)
    as [[stocks | e |] ids']; simpl; try reflexivity.
  rewrite map_app, map_map. do 3 f_equal.
  apply map_ext. intros i. symmetry. apply Hf.
Qed.

(** X9. Whatever the list of identifiers holds, repetitions included,
    when either [create_stocks] returns, its collection has one entry
    per element of the list as it was passed: the identifiers of the
    entries are those of the list up to order, and there are as many. *)
Theorem create_stocks_entry_per_listed_identifier
        (watch_remnants : list dict) (offer_ids : list string) :
  (forall stocks remaining,
      Seller.create_stocks watch_remnants offer_ids = (Ok stocks, remaining) ->
      Permutation (map Ozon.offer_id stocks) offer_ids /\
      length stocks = length offer_ids) /\
  (forall warehouse_id date stocks remaining,
      Market.create_stocks watch_remnants offer_ids warehouse_id date
      = (Ok stocks, remaining) ->
      Permutation (map Yandex.sku stocks) offer_ids /\
      length stocks = length offer_ids).
Proof.
  split.
  - intros stocks remaining H. rewrite seller_create_stocks_shape in H.
    apply (stocks_of_listed _ Ozon.Build_stock_entry Ozon.offer_id) in H;
      [assumption | reflexivity].
  - intros warehouse_id date stocks remaining H.
    rewrite market_create_stocks_shape in H.
    apply (stocks_of_listed
             _ (fun sku q => Market.stock_record sku warehouse_id q date)
             Yandex.sku) in H; [assumption | reflexivity].
Qed.

(** X10. The two [create_stocks] agree: on the same inventory and list
    the second platform's raises the same error or returns, entry for
    entry, the first platform's identifiers and quantities, each wrapped
    with the warehouse given and one item of type FIT stamped with the
    date, and it leaves the same identifiers in the list. *)
Theorem create_stocks_agree
        (watch_remnants : list dict) (offer_ids : list string)
        (warehouse_id date : string) :
  Market.create_stocks watch_remnants offer_ids warehouse_id date
  = (rbind (fst (Seller.create_stocks watch_remnants offer_ids))
           (fun stocks => Ok (map (to_market_stock warehouse_id date) stocks)),
     snd (Seller.create_stocks watch_remnants offer_ids)).
Proof.
  rewrite market_create_stocks_shape, seller_create_stocks_shape.
  apply stocks_of_map. reflexivity.
Qed.

(** X11. Neither [create_stocks] runs out of rounds, and when one raises
    it is [int] failing (ValueError or TypeError) on the quantity of a
    record whose code was in the list and whose quantity is neither >10
    nor 1; the caller's list is then left as the records before that one
    left it, with the identifiers they matched already removed. *)
Theorem create_stocks_error
        (watch_remnants : list dict) (offer_ids : list string) :
  (forall left, Seller.create_stocks watch_remnants offer_ids
                <> (OutOfFuel, left)) /\
  (forall warehouse_id date left,
      Market.create_stocks watch_remnants offer_ids warehouse_id date
      <> (OutOfFuel, left)) /\
  (forall e left,
      Seller.create_stocks watch_remnants offer_ids = (Raise e, left) ->
      (exn_cls e = ValueError \/ exn_cls e = TypeError) /\
      exists before watch after stocks,
        watch_remnants = before ++ watch :: after /\
        Seller.create_stocks before offer_ids = (Ok stocks, left) /\
        In (code_of watch) left /\
        py_str (dict_get watch "Количество") <> ">10" /\
        py_str (dict_get watch "Количество") <> "1" /\
        py_int (dict_get watch "Количество") = Raise e) /\
  (forall warehouse_id date e left,
      Market.create_stocks watch_remnants offer_ids warehouse_id date
      = (Raise e, left) ->
      (exn_cls e = ValueError \/ exn_cls e = TypeError) /\
      exists before watch after stocks,
        watch_remnants = before ++ watch :: after /\
        Market.create_stocks before offer_ids warehouse_id date
        = (Ok stocks, left) /\
        In (code_of watch) left /\
        py_str (dict_get watch "Количество") <> ">10" /\
        py_str (dict_get watch "Количество") <> "1" /\
        py_int (dict_get watch "Количество") = Raise e).
Proof.
  repeat split.
  - intros left. rewrite seller_create_stocks_shape. apply stocks_of_no_fuel.
  - intros warehouse_id date left. rewrite market_create_stocks_shape.
    apply stocks_of_no_fuel.
  - rewrite seller_create_stocks_shape in H.
    destruct (stocks_of_raises_inv _ _ _ _ _ _ H)
      as (before & w & after & stocks & _ & _ & _ & _ & _ & Hint).
    eapply py_int_raise_class; eassumption.
  - rewrite seller_create_stocks_shape in H.
    destruct (stocks_of_raises_inv _ _ _ _ _ _ H)
      as (before & w & after & stocks & Hw).
    exists before, w, after, stocks.
    now rewrite seller_create_stocks_shape.
  - rewrite market_create_stocks_shape in H.
    destruct (stocks_of_raises_inv _ _ _ _ _ _ H)
      as (before & w & after & stocks & _ & _ & _ & _ & _ & Hint).
    eapply py_int_raise_class; eassumption.
  - rewrite market_create_stocks_shape in H.
    destruct (stocks_of_raises_inv _ _ _ _ _ _ H)
      as (before & w & after & stocks & Hw).
    exists before, w, after, stocks.
    now rewrite market_create_stocks_shape.
Qed.

(** ** More on prices *)

Lemma py_in_same (x : string) (l l' : list string) :
  (forall y, In y l <-> In y l') -> py_in x l = py_in x l'.
Proof.
  intros H. destruct (py_in x l') eqn:E.
  - apply py_in_In. apply H. now apply py_in_In.
  - apply py_in_false. intros Hin. apply H in Hin.
    apply py_in_In in Hin. congruence.
Qed.

(** X12. Both [create_prices] look at the list of identifiers only
    through membership: two lists with the same elements, in whatever
    order and with whatever repetitions, give the same result. *)
Theorem create_prices_membership_only
        (watch_remnants : list dict) (offer_ids offer_ids' : list string) :
  (forall x, In x offer_ids <-> In x offer_ids') ->
  Seller.create_prices watch_remnants offer_ids
  = Seller.create_prices watch_remnants offer_ids' /\
  Market.create_prices watch_remnants offer_ids
  = Market.create_prices watch_remnants offer_ids'.
Proof.
  intros Hsame. split.
  - unfold Seller.create_prices. generalize (@nil Ozon.price_entry).
    induction watch_remnants as [| watch rest IH]; intros acc;
      [reflexivity |].
    cbn [Seller.create_prices_loop].
    rewrite (py_in_same _ offer_ids offer_ids' Hsame).
    destruct (py_in _ offer_ids'); [| apply IH].
    destruct (Seller.price_conversion_of _); cbn [rbind];
      [apply IH | reflexivity | reflexivity].
  - unfold Market.create_prices. generalize (@nil Yandex.price_entry).
    induction watch_remnants as [| watch rest IH]; intros acc;
      [reflexivity |].
    cbn [Market.create_prices_loop].
    rewrite (py_in_same _ offer_ids offer_ids' Hsame).
    destruct (py_in _ offer_ids'); [| apply IH].
    destruct (Seller.price_conversion_of _) as [p | |]; cbn [rbind];
      try reflexivity.
    destruct (py_int (PyStr p)); cbn [rbind];
      [apply IH | reflexivity | reflexivity].
Qed.

Lemma digit_not_space (c : ascii) : is_digit c = true -> is_space c = false.
Proof.
  destruct c as [[] [] [] [] [] [] [] []]; vm_compute; intros H;
    try reflexivity; discriminate H.
Qed.

Lemma int_of_string_digit_head (s : string) (c : ascii) (l : list ascii) :
  strip (list_ascii_of_string s) = c :: l ->
  is_digit c = true ->
  int_of_string s = int_digits false 0 (c :: l).
Proof.
  intros Hstrip H. unfold int_of_string. rewrite Hstrip.
  destruct c as [[] [] [] [] [] [] [] []];
    try (vm_compute in H; discriminate H); reflexivity.
Qed.

Lemma rev_head {A} (P : A -> Prop) (l : list A) :
  l <> [] -> Forall P l -> exists c t, rev l = c :: t /\ P c.
Proof.
  intros Hne Hall. destruct (rev l) as [| c t] eqn:E.
  - apply (f_equal (@rev A)) in E. rewrite rev_involutive in E.
    simpl in E. contradiction.
  - exists c, t. split; [reflexivity |].
    rewrite Forall_forall in Hall. apply Hall, in_rev.
    rewrite E. now left.
Qed.

Lemma strip_digits (l : list ascii) :
  Forall (fun c => is_digit c = true) l -> strip l = l.
Proof.
  intros Hall. destruct l as [| c l]; [reflexivity |].
  unfold strip.
  assert (Hl : lstrip (c :: l) = c :: l).
  { simpl. inversion Hall; subst. now rewrite digit_not_space. }
  rewrite Hl.
  destruct (rev_head _ (c :: l) ltac:(discriminate) Hall)
    as (d & t & Hrev & Hd).
  rewrite Hrev. simpl. rewrite (digit_not_space _ Hd).
  rewrite <- Hrev. apply rev_involutive.
Qed.

Lemma int_digits_digits (l : list ascii) :
  forall after_digit acc,
    Forall (fun c => is_digit c = true) l ->
    l <> [] \/ after_digit = true ->
    int_digits after_digit acc l = Some (digits_value acc l).
Proof.
  induction l as [| c l IH]; intros after_digit acc Hall Hne.
  - destruct Hne as [Hne | ->]; [contradiction | reflexivity].
  - inversion Hall; subst. simpl. rewrite H1.
    apply IH; [assumption | now right].
Qed.

Lemma digits_value_nonneg (l : list ascii) :
  forall acc, (0 <= acc)%Z -> (0 <= digits_value acc l)%Z.
Proof.
  unfold digits_value. induction l as [| c l IH]; intros acc Hacc;
    cbn [fold_left].
  - assumption.
  - apply IH. unfold digit_val. lia.
Qed.

Lemma length_list_ascii (s : string) :
  length (list_ascii_of_string s) = String.length s.
Proof. induction s; simpl; congruence. Qed.

Lemma digits_ascii_only (p : string) :
  Forall (fun c => is_digit c = true) (list_ascii_of_string p) ->
  ascii_only p = true.
Proof.
  intros Hall. unfold ascii_only. apply forallb_forall. intros c Hc.
  rewrite Forall_forall in Hall. specialize (Hall c Hc).
  unfold is_digit in Hall. apply andb_true_iff in Hall.
  destruct Hall as [_ Hle]. apply Nat.leb_le in Hle.
  apply Nat.ltb_lt. lia.
Qed.

Lemma digits_literal (p : string) :
  Forall (fun c => is_digit c = true) (list_ascii_of_string p) ->
  literal_digits p = String.length p.
Proof.
  intros Hall. unfold literal_digits.
  rewrite forallb_filter_id, length_list_ascii; [reflexivity |].
  apply forallb_forall. now apply Forall_forall.
Qed.

Lemma int_of_string_digits (p : string) :
  Forall (fun c => is_digit c = true) (list_ascii_of_string p) ->
  p <> "" ->
  int_of_string p = Some (digits_value 0 (list_ascii_of_string p)).
Proof.
  intros Hall Hne.
  pose proof (strip_digits _ Hall) as Hstrip.
  destruct (list_ascii_of_string p) as [| c l] eqn:E.
  - destruct p; [contradiction | discriminate].
  - inversion Hall; subst.
    rewrite (int_of_string_digit_head p c l); [| now rewrite E | assumption].
    apply (int_digits_digits (c :: l) false 0 Hall). left. discriminate.
Qed.

(** [int] on a string of ASCII digits. *)
Lemma py_int_digits (p : string) :
  Forall (fun c => is_digit c = true) (list_ascii_of_string p) ->
  p <> "" ->
  over_limit (String.length p) = false ->
  py_int (PyStr p) = Ok (digits_value 0 (list_ascii_of_string p)).
Proof.
  intros Hall Hne Hlimit. unfold py_int.
  rewrite (digits_ascii_only _ Hall), (digits_literal _ Hall), Hlimit.
  now rewrite (int_of_string_digits _ Hall Hne).
Qed.

Lemma py_int_digits_error (p : string) :
  Forall (fun c => is_digit c = true) (list_ascii_of_string p) ->
  p = "" \/ over_limit (String.length p) = true ->
  exists e, py_int (PyStr p) = Raise e /\ exn_cls e = ValueError.
Proof.
  intros Hall Hbad. unfold py_int.
  rewrite (digits_ascii_only _ Hall), (digits_literal _ Hall).
  destruct (over_limit (String.length p)) eqn:Hlimit.
  - eexists. split; reflexivity.
  - destruct Hbad as [-> | Hbad]; [| discriminate].
    eexists. split; reflexivity.
Qed.

Lemma py_int_digits_inv (p : string) (v : Z) :
  Forall (fun c => is_digit c = true) (list_ascii_of_string p) ->
  py_int (PyStr p) = Ok v ->
  p <> "" /\ over_limit (String.length p) = false /\
  v = digits_value 0 (list_ascii_of_string p).
Proof.
  intros Hall H.
  destruct (string_dec p "") as [Hempty | Hne].
  - destruct (py_int_digits_error p Hall (or_introl Hempty)) as (e & He & _).
    congruence.
  - destruct (over_limit (String.length p)) eqn:Hlimit.
    + destruct (py_int_digits_error p Hall (or_intror Hlimit)) as (e & He & _).
      congruence.
    + rewrite (py_int_digits p Hall Hne Hlimit) in H. inversion H. auto.
Qed.

Lemma price_conversion_all_digits (price : string) :
  Forall (fun c => is_digit c = true)
         (list_ascii_of_string (Seller.price_conversion price)).
Proof.
  unfold Seller.price_conversion. rewrite re_sub_non_digits_filter.
  apply Forall_forall. intros c Hc. now apply filter_In in Hc.
Qed.


Lemma digits_fixed (t : string) :
  Forall (fun c => is_digit c = true) (list_ascii_of_string t) ->
  py_split "." t = [t] /\ re_sub_non_digits t = t.
Proof.
  induction t as [| c t IH]; intros Hall; [split; reflexivity |].
  simpl in Hall. inversion Hall; subst.
  destruct (IH H2) as [Hsplit Hsub]. simpl.
  destruct (Ascii.eqb_spec c ".") as [-> | _];
    [vm_compute in H1; discriminate |].
  now rewrite Hsplit, H1, Hsub.
Qed.

(** X13. What [price_conversion] returns holds ASCII digits only, is no
    longer than the price it was given, and is left as it is by a second
    pass. *)
Theorem price_conversion_digits (price : string) :
  Forall (fun c => is_digit c = true)
         (list_ascii_of_string (Seller.price_conversion price)) /\
  String.length (Seller.price_conversion price) <= String.length price /\
  Seller.price_conversion (Seller.price_conversion price)
  = Seller.price_conversion price.
Proof.
  split; [apply price_conversion_all_digits |]. split.
  - destruct (py_split_head price)
      as (pre & post & pieces & Hs & Hcat & _ & _).
    unfold Seller.price_conversion. rewrite Hs. simpl.
    rewrite <- (length_list_ascii (re_sub_non_digits pre)).
    rewrite re_sub_non_digits_filter.
    transitivity (length (list_ascii_of_string pre));
      [apply filter_length_le |].
    rewrite length_list_ascii.
    replace (String.length price)
      with (String.length pre + String.length post)
      by (rewrite Hcat; clear; induction pre; simpl; congruence).
    lia.
  - destruct (digits_fixed _ (price_conversion_all_digits price))
      as [Hsplit Hsub].
    unfold Seller.price_conversion at 1. now rewrite Hsplit.
Qed.

Lemma seller_prices_loop_bad (watch_remnants : list dict)
      (offer_ids : list string) :
  (exists watch, In watch watch_remnants /\ In (code_of watch) offer_ids /\
                 ~ price_is_string watch) ->
  forall acc,
  exists e,
    Seller.create_prices_loop watch_remnants acc offer_ids = Raise e /\
    exn_cls e = AttributeError.
Proof.
  induction watch_remnants as [| watch rest IH];
    intros (bad & Hbad & Hin & Hprice) acc; [contradiction |].
  cbn [Seller.create_prices_loop]. fold (code_of watch).
  destruct (py_in (code_of watch) offer_ids) eqn:Hmatch.
  - destruct (dict_get watch "Цена") as [| z | s] eqn:Hget;
      try (eexists; split; reflexivity).
    cbn [Seller.price_conversion_of rbind]. apply IH.
    destruct Hbad as [<- | Hbad]; [| eauto].
    exfalso. apply Hprice. now exists s.
  - apply IH. destruct Hbad as [<- | Hbad]; [| eauto].
    apply py_in_In in Hin. congruence.
Qed.

(** X14. The first platform's [create_prices] returns exactly when the
    price field of every record it matches is a string; a matched record
    whose price is missing or is a number makes it raise AttributeError,
    while the price of a record it does not match is never looked at. *)
Theorem seller_create_prices_outcome
        (watch_remnants : list dict) (offer_ids : list string) :
  ((forall watch, In watch watch_remnants -> In (code_of watch) offer_ids ->
                  price_is_string watch) ->
   exists prices, Seller.create_prices watch_remnants offer_ids = Ok prices) /\
  ((exists watch, In watch watch_remnants /\ In (code_of watch) offer_ids /\
                  ~ price_is_string watch) ->
   exists e,
     Seller.create_prices watch_remnants offer_ids = Raise e /\
     exn_cls e = AttributeError).
Proof.
  split.
  - apply seller_create_prices_total.
  - intros Hbad. now apply seller_prices_loop_bad.
Qed.

Lemma market_prices_loop_total (watch_remnants : list dict)
      (offer_ids : list string) :
  (forall watch, In watch watch_remnants -> In (code_of watch) offer_ids ->
                 price_parses watch) ->
  forall acc,
  exists prices,
    Market.create_prices_loop watch_remnants acc offer_ids = Ok prices.
Proof.
  induction watch_remnants as [| watch rest IH]; intros Hok acc;
    [simpl; eauto |].
  cbn [Market.create_prices_loop]. fold (code_of watch).
  destruct (py_in (code_of watch) offer_ids) eqn:Hmatch.
  - destruct (Hok watch (or_introl eq_refl)) as (s & Hs & Hne & Hlimit);
      [now apply py_in_In |].
    rewrite Hs. cbn [Seller.price_conversion_of rbind].
    rewrite (py_int_digits _ (price_conversion_all_digits s) Hne Hlimit).
    cbn [rbind]. apply IH. intros w Hw. apply Hok. now right.
  - apply IH. intros w Hw. apply Hok. now right.
Qed.

Lemma market_prices_loop_bad (watch_remnants : list dict)
      (offer_ids : list string) :
  (exists watch, In watch watch_remnants /\ In (code_of watch) offer_ids /\
                 ~ price_parses watch) ->
  forall acc,
  exists e,
    Market.create_prices_loop watch_remnants acc offer_ids = Raise e /\
    (exn_cls e = AttributeError \/ exn_cls e = ValueError).
Proof.
  induction watch_remnants as [| watch rest IH];
    intros (bad & Hbad & Hin & Hprice) acc; [contradiction |].
  cbn [Market.create_prices_loop]. fold (code_of watch).
  destruct (py_in (code_of watch) offer_ids) eqn:Hmatch.
  - destruct (dict_get watch "Цена") as [| z | s] eqn:Hget;
      try (eexists; split; [reflexivity | now left]).
    cbn [Seller.price_conversion_of rbind].
    pose proof (price_conversion_all_digits s) as Hdigits.
    destruct (string_dec (Seller.price_conversion s) "") as [Hempty | Hne].
    + destruct (py_int_digits_error _ Hdigits (or_introl Hempty))
        as (e & He & Hcls).
      rewrite He. exists e. split; [reflexivity | now right].
    + destruct (over_limit (String.length (Seller.price_conversion s)))
        eqn:Hlimit.
      * destruct (py_int_digits_error _ Hdigits (or_intror Hlimit))
          as (e & He & Hcls).
        rewrite He. exists e. split; [reflexivity | now right].
      * rewrite (py_int_digits _ Hdigits Hne Hlimit).
        cbn [rbind]. apply IH.
        destruct Hbad as [<- | Hbad]; [| eauto].
        exfalso. apply Hprice. now exists s.
  - apply IH. destruct Hbad as [<- | Hbad]; [| eauto].
    apply py_in_In in Hin. congruence.
Qed.

(** X15. The second platform's [create_prices] returns when the price
    of every record it matches is a string with at least one digit
    before its first dot and no more digits there than [int] takes (the
    interpreter's limit, checked above 640 digits).  If some matched
    record is not so, it raises AttributeError or ValueError; a matched
    record whose price has no such digit (a blank cell, a price written
    .50), or too many, makes [int] raise ValueError. *)
Theorem market_create_prices_outcome
        (watch_remnants : list dict) (offer_ids : list string) :
  ((forall watch, In watch watch_remnants -> In (code_of watch) offer_ids ->
                  price_parses watch) ->
   exists prices, Market.create_prices watch_remnants offer_ids = Ok prices) /\
  ((exists watch, In watch watch_remnants /\ In (code_of watch) offer_ids /\
                  ~ price_parses watch) ->
   exists e,
     Market.create_prices watch_remnants offer_ids = Raise e /\
     (exn_cls e = AttributeError \/ exn_cls e = ValueError)) /\
  (forall watch rest s,
      In (code_of watch) offer_ids ->
      dict_get watch "Цена" = PyStr s ->
      Seller.price_conversion s = "" \/
      over_limit (String.length (Seller.price_conversion s)) = true ->
      exists e,
        Market.create_prices (watch :: rest) offer_ids = Raise e /\
        exn_cls e = ValueError).
Proof.
  split; [| split].
  - intros Hok. now apply market_prices_loop_total.
  - intros Hbad. now apply market_prices_loop_bad.
  - intros watch rest s Hin Hs Hbad.
    unfold Market.create_prices. cbn [Market.create_prices_loop].
    fold (code_of watch). rewrite (proj2 (py_in_In _ _) Hin), Hs.
    cbn [Seller.price_conversion_of rbind].
    destruct (py_int_digits_error _ (price_conversion_all_digits s) Hbad)
      as (e & He & Hcls).
    rewrite He. exists e. split; [reflexivity | assumption].
Qed.

Lemma prices_loops_related (watch_remnants : list dict)
      (offer_ids : list string) :
  forall macc sacc mprices,
    Forall2 same_price macc sacc ->
    Market.create_prices_loop watch_remnants macc offer_ids = Ok mprices ->
    exists sprices,
      Seller.create_prices_loop watch_remnants sacc offer_ids = Ok sprices /\
      Forall2 same_price mprices sprices.
Proof.
  induction watch_remnants as [| watch rest IH];
    intros macc sacc mprices Hacc H.
  - inversion H; subst. exists sacc. split; [reflexivity | assumption].
  - cbn [Market.create_prices_loop Seller.create_prices_loop] in *.
    destruct (py_in (py_str (dict_get watch "Код")) offer_ids);
      [| now apply (IH macc)].
    destruct (dict_get watch "Цена") as [| z | s]; try discriminate.
    cbn [Seller.price_conversion_of rbind] in *.
    pose proof (price_conversion_all_digits s) as Hdigits.
    destruct (py_int (PyStr (Seller.price_conversion s))) as [v | e |]
      eqn:Hint; cbn [rbind] in H; try discriminate.
    destruct (py_int_digits_inv _ _ Hdigits Hint) as (Hne & _ & ->).
    eapply IH; [| exact H].
    apply Forall2_app; [assumption |]. constructor; [| constructor].
    unfold same_price. simpl. repeat split; auto.
    apply digits_value_nonneg. lia.
Qed.

(** X16. Whenever the second platform's [create_prices] returns, the
    first platform's returns too on the same arguments, with an entry
    for the same record at each position: same identifier, and the value
    of the second platform's entry is the number written by the digits of
    the first platform's price string, never negative, in currency RUR. *)
Theorem market_prices_are_seller_prices
        (watch_remnants : list dict) (offer_ids : list string)
        (mprices : list Yandex.price_entry) :
  Market.create_prices watch_remnants offer_ids = Ok mprices ->
  exists sprices,
    Seller.create_prices watch_remnants offer_ids = Ok sprices /\
    Forall2 same_price mprices sprices.
Proof.
  intros H. apply (prices_loops_related _ _ [] [] _ (Forall2_nil _) H).
Qed.

(** ** Runs of the first platform's [main] and of the coroutines *)

Lemma seller_prices_after_stocks (watch_remnants : list dict)
      (offer_ids remaining : list string) (stocks : list Ozon.stock_entry) :
  NoDup offer_ids ->
  Seller.create_stocks watch_remnants offer_ids = (Ok stocks, remaining) ->
  Seller.create_prices watch_remnants remaining = Ok [].
Proof.
  intros Hnd H. rewrite seller_create_stocks_shape in H.
  apply (stocks_of_inv _ Ozon.Build_stock_entry Ozon.offer_id) in H;
    [| reflexivity].
  destruct H as (matched & _ & _ & _ & _ & _ & Hfilter).
  rewrite (Hfilter Hnd). apply seller_prices_loop_none.
  intros watch Hw. now apply filter_unmatched_out.
Qed.

Lemma emits_seller_uploads_no_price (stocks : list Ozon.stock_entry)
      (client_id seller_token : string) :
  emits (fun req => is_ozon_price_update req = false)
        (seller_uploads stocks (Ok []) client_id seller_token).
Proof.
  unfold seller_uploads.
  apply (emits_bind _ (chunks <- lift (Seller.divide stocks 100) ;;
                       for_each chunks (fun some_stock =>
                         Seller.update_stocks some_stock client_id seller_token
                         ;;; ret tt))).
  - apply (emits_batches _ stocks 100
             (fun c => OzonImportStocks c client_id seller_token)); [lia |].
    reflexivity.
  - intros _. apply (emits_ret _ tt).
Qed.

Lemma seller_main_try_stocks_fail
      (fuel : nat) (client_id seller_token : string) (srv : server)
      (log log1 log2 : list request) (offer_ids left : list string)
      (watch_remnants : list dict) (created : result (list Ozon.stock_entry)) :
  Seller.get_offer_ids fuel client_id seller_token srv log
  = (Ok offer_ids, log1) ->
  Seller.download_stock srv log1 = (Ok watch_remnants, log2) ->
  Seller.create_stocks watch_remnants offer_ids = (created, left) ->
  (forall stocks, created <> Ok stocks) ->
  snd (Seller.main_try fuel client_id seller_token srv log) = log2.
Proof.
  intros Hids Hwr Hcreate Hfail.
  unfold Seller.main_try, bind at 1. rewrite Hids.
  unfold bind at 1. rewrite Hwr, Hcreate.
  destruct created as [stocks | e |]; [now elim (Hfail stocks) | |];
    reflexivity.
Qed.

Lemma seller_main_try_download_fail
      (fuel : nat) (client_id seller_token : string) (srv : server)
      (log log1 log2 : list request) (offer_ids : list string)
      (downloaded : result (list dict)) :
  Seller.get_offer_ids fuel client_id seller_token srv log
  = (Ok offer_ids, log1) ->
  Seller.download_stock srv log1 = (downloaded, log2) ->
  (forall watch_remnants, downloaded <> Ok watch_remnants) ->
  snd (Seller.main_try fuel client_id seller_token srv log) = log2.
Proof.
  intros Hids Hwr Hfail.
  unfold Seller.main_try, bind at 1. rewrite Hids.
  unfold bind at 1. rewrite Hwr.
  destruct downloaded as [watch_remnants | e |];
    [now elim (Hfail watch_remnants) | |]; reflexivity.
Qed.

(** X17. Whenever the enumeration of a run of the first platform's
    [main] returns a list without repetition, the run sends no price
    update at all, whatever the inventory holds and whatever the remote
    side answers: by the time [create_prices] is called, [create_stocks]
    has taken every matching identifier off the list. *)
Theorem seller_main_sends_no_price
        (env : environ) (fuel : nat) (srv : server)
        (seller_token client_id : string)
        (offer_ids : list string) (log1 : list request) :
  env "SELLER_TOKEN" = Some seller_token ->
  env "CLIENT_ID" = Some client_id ->
  Seller.get_offer_ids fuel client_id seller_token srv [] = (Ok offer_ids, log1) ->
  NoDup offer_ids ->
  Forall (fun req => is_ozon_price_update req = false)
         (sent (Seller.main env fuel srv)).
Proof.
  intros Htoken Hclient Hids Hnd.
  unfold Seller.main. rewrite Htoken, Hclient, sent_try_except.
  destruct (emits_seller_offer_ids
              (fun req => is_ozon_price_update req = false)
              fuel client_id seller_token ltac:(reflexivity) srv [])
    as (added0 & Hlog0 & HP0).
  rewrite Hids in Hlog0. cbn [snd app] in Hlog0. subst log1.
  destruct (emits_download (fun req => is_ozon_price_update req = false)
                           eq_refl srv added0)
    as (added1 & Hlog1 & HP1).
  destruct (Seller.download_stock srv added0)
    as [downloaded log2] eqn:Hwr. cbn [snd] in Hlog1. subst log2.
  destruct downloaded as [watch_remnants | e |].
  - destruct (Seller.create_stocks watch_remnants offer_ids)
      as [created left] eqn:Hcreate.
    destruct created as [stocks | e |].
    + rewrite (seller_main_try_after_stocks _ _ _ _ _ _ _ _ _ _ _
                 Hids Hwr Hcreate).
      rewrite (seller_prices_after_stocks _ _ _ _ Hnd Hcreate).
      destruct (emits_seller_uploads_no_price stocks client_id seller_token
                                              srv (added0 ++ added1))
        as (added2 & Hlog2 & HP2).
      rewrite Hlog2.
      apply Forall_app. split; [| assumption].
      apply Forall_app. now split.
    + rewrite (seller_main_try_stocks_fail _ _ _ _ _ _ _ _ _ _ _
                 Hids Hwr Hcreate) by discriminate.
      now apply Forall_app.
    + rewrite (seller_main_try_stocks_fail _ _ _ _ _ _ _ _ _ _ _
                 Hids Hwr Hcreate) by discriminate.
      now apply Forall_app.
  - rewrite (seller_main_try_download_fail _ _ _ _ _ _ _ _ _ Hids Hwr)
      by discriminate.
    now apply Forall_app.
  - rewrite (seller_main_try_download_fail _ _ _ _ _ _ _ _ _ Hids Hwr)
      by discriminate.
    now apply Forall_app.
Qed.

Lemma bind_inv_ok {A B} (m : M A) (k : A -> M B) (srv : server)
      (log log' : list request) (b : B) :
  bind m k srv log = (Ok b, log') ->
  exists a log1, m srv log = (Ok a, log1) /\ k a srv log1 = (Ok b, log').
Proof.
  unfold bind. destruct (m srv log) as [[a | e |] log1]; intros H;
    try discriminate.
  exists a, log1. auto.
Qed.

(** X18. Awaited, [upload_prices] of either platform enumerates afresh,
    builds the price collection from that full list and, when the remote
    side accepts every batch, sends it cut into consecutive batches of
    1000 (first platform) or 500 (second), in order, then returns the
    collection. *)
Theorem upload_prices_awaited
        (fuel : nat) (watch_remnants : list dict) (srv : server)
        (log log1 : list request) (offer_ids : list string) :
  (forall client_id seller_token prices chunks,
      Seller.get_offer_ids fuel client_id seller_token srv log
      = (Ok offer_ids, log1) ->
      Seller.create_prices watch_remnants offer_ids = Ok prices ->
      Seller.divide prices 1000 = Ok chunks ->
      accepts srv log1
              (map (fun c => OzonImportPrices c client_id seller_token)
                   chunks) ->
      await (Seller.upload_prices fuel watch_remnants client_id seller_token)
            srv log
      = (Ok prices,
         log1 ++ map (fun c => OzonImportPrices c client_id seller_token)
                     chunks) /\
      concat chunks = prices /\
      Forall (fun c => 1 <= length c <= 1000) chunks) /\
  (forall campaign_id market_token prices chunks,
      Market.get_offer_ids fuel campaign_id market_token srv log
      = (Ok offer_ids, log1) ->
      Market.create_prices watch_remnants offer_ids = Ok prices ->
      Seller.divide prices 500 = Ok chunks ->
      accepts srv log1
              (map (fun c => MarketPostPrices c campaign_id market_token)
                   chunks) ->
      await (Market.upload_prices fuel watch_remnants campaign_id market_token)
            srv log
      = (Ok prices,
         log1 ++ map (fun c => MarketPostPrices c campaign_id market_token)
                     chunks) /\
      concat chunks = prices /\
      Forall (fun c => 1 <= length c <= 500) chunks).
Proof.
  split.
  - intros client_id seller_token prices chunks Hids Hprices Hdiv Hacc.
    pose proof (upload_loop_accepted
                  (fun c => OzonImportPrices c client_id seller_token)
                  srv chunks log1 Hacc) as Hup.
    cbv beta in Hup.
    destruct (divide_chunks _ prices 1000 ltac:(lia))
      as (chunks' & Hdiv' & Hbounds & Hconcat).
    rewrite Hdiv in Hdiv'. inversion Hdiv'; subst chunks'.
    split; [| split; assumption].
    unfold await, Seller.upload_prices, Seller.update_price.
    rewrite (bind_ok _ _ _ _ _ _ Hids). rewrite Hprices.
    rewrite (bind_ok _ _ srv log1 log1 prices eq_refl). rewrite Hdiv.
    rewrite (bind_ok _ _ srv log1 log1 chunks eq_refl).
    now rewrite (bind_ok _ _ srv _ _ tt Hup).
  - intros campaign_id market_token prices chunks Hids Hprices Hdiv Hacc.
    pose proof (upload_loop_accepted
                  (fun c => MarketPostPrices c campaign_id market_token)
                  srv chunks log1 Hacc) as Hup.
    cbv beta in Hup.
    destruct (divide_chunks _ prices 500 ltac:(lia))
      as (chunks' & Hdiv' & Hbounds & Hconcat).
    rewrite Hdiv in Hdiv'. inversion Hdiv'; subst chunks'.
    split; [| split; assumption].
    unfold await, Market.upload_prices, Market.update_price.
    rewrite (bind_ok _ _ _ _ _ _ Hids). rewrite Hprices.
    rewrite (bind_ok _ _ srv log1 log1 prices eq_refl). rewrite Hdiv.
    rewrite (bind_ok _ _ srv log1 log1 chunks eq_refl).
    now rewrite (bind_ok _ _ srv _ _ tt Hup).
Qed.

Section NonZeroEntries.
Variable E : Type.
Variable mk : string -> Z -> E.
Variable key : E -> string.
Variable qty : E -> Z.
Hypothesis key_mk : forall c q, key (mk c q) = c.
Hypothesis qty_mk : forall c q, qty (mk c q) = q.

Lemma stocks_of_nonzero (watch_remnants : list dict)
      (offer_ids remaining : list string) (stocks : list E) :
  stocks_of mk watch_remnants offer_ids = (Ok stocks, remaining) ->
  forall s, In s stocks -> qty s <> 0%Z ->
            In (key s) (map code_of watch_remnants).
Proof.
  intros H s Hs Hq.
  destruct (stocks_of_inv E mk key key_mk _ _ _ _ H)
    as (matched & -> & Hcodes & _).
  apply in_app_or in Hs. destruct Hs as [Hs | Hs].
  - rewrite Forall_forall in Hcodes. now apply Hcodes.
  - apply in_map_iff in Hs. destruct Hs as (i & <- & _).
    rewrite qty_mk in Hq. contradiction.
Qed.
End NonZeroEntries.

(** X19. Awaited, [upload_stocks] of either platform returns the full
    stock collection and, beside it, the entries of non-zero quantity;
    each of these comes from a record of the inventory, never from an
    identifier defaulted to zero, and every entry of non-zero quantity is
    among them. *)
Theorem upload_stocks_not_empty
        (fuel : nat) (watch_remnants : list dict) (srv : server)
        (log log' : list request) :
  (forall client_id seller_token not_empty stocks,
      await (Seller.upload_stocks fuel watch_remnants client_id seller_token)
            srv log
      = (Ok (not_empty, stocks), log') ->
      Forall (fun s => In s stocks /\ Ozon.stock s <> 0%Z /\
                       In (Ozon.offer_id s) (map code_of watch_remnants))
             not_empty /\
      (forall s, In s stocks -> Ozon.stock s <> 0%Z -> In s not_empty)) /\
  (forall clock campaign_id market_token warehouse_id not_empty stocks,
      await (Market.upload_stocks clock fuel watch_remnants campaign_id
                                  market_token warehouse_id) srv log
      = (Ok (not_empty, stocks), log') ->
      Forall (fun s => In s stocks /\ market_count s <> 0%Z /\
                       In (Yandex.sku s) (map code_of watch_remnants))
             not_empty /\
      (forall s, In s stocks -> market_count s <> 0%Z -> In s not_empty)).
Proof.
  split.
  - intros client_id seller_token not_empty stocks H.
    unfold await, Seller.upload_stocks in H.
    apply bind_inv_ok in H. destruct H as (offer_ids & log1 & _ & H).
    apply bind_inv_ok in H. destruct H as (stocks0 & log2 & Hcreate & H).
    apply bind_inv_ok in H. destruct H as (chunks & log3 & _ & H).
    apply bind_inv_ok in H. destruct H as ([] & log4 & _ & H).
    inversion H; subst not_empty stocks log4. clear H.
    unfold lift in Hcreate. inversion Hcreate as [[Hfst Hlog]]. clear Hcreate.
    destruct (Seller.create_stocks watch_remnants offer_ids)
      as [created remaining] eqn:Hc. simpl in Hfst. subst created.
    rewrite seller_create_stocks_shape in Hc.
    split.
    + apply Forall_forall. intros s Hs. apply filter_In in Hs.
      destruct Hs as [Hs Hnz]. apply negb_true_iff, Z.eqb_neq in Hnz.
      repeat split; auto.
      apply (stocks_of_nonzero _ Ozon.Build_stock_entry Ozon.offer_id
                               Ozon.stock (fun _ _ => eq_refl) (fun _ _ => eq_refl) _ _ _ _ Hc);
        assumption.
    + intros s Hs Hnz. apply filter_In. split; [assumption |].
      now apply negb_true_iff, Z.eqb_neq.
  - intros clock campaign_id market_token warehouse_id not_empty stocks H.
    unfold await, Market.upload_stocks in H.
    apply bind_inv_ok in H. destruct H as (offer_ids & log1 & _ & H).
    apply bind_inv_ok in H. destruct H as (date & log2 & _ & H).
    apply bind_inv_ok in H. destruct H as (stocks0 & log3 & Hcreate & H).
    apply bind_inv_ok in H. destruct H as (chunks & log4 & _ & H).
    apply bind_inv_ok in H. destruct H as ([] & log5 & _ & H).
    inversion H; subst not_empty stocks log5. clear H.
    unfold lift in Hcreate. inversion Hcreate as [[Hfst Hlog]]. clear Hcreate.
    destruct (Market.create_stocks watch_remnants offer_ids warehouse_id date)
      as [created remaining] eqn:Hc. simpl in Hfst. subst created.
    rewrite market_create_stocks_shape in Hc.
    assert (Hflag : forall s,
               match Yandex.items s with
               | item :: _ => negb (Yandex.count item =? 0)%Z
               | [] => false
               end = true <-> market_count s <> 0%Z).
    { intros s. unfold market_count. destruct (Yandex.items s) as [| item ?].
      - split; [discriminate | intros Hq; now elim Hq].
      - rewrite negb_true_iff. apply Z.eqb_neq. }
    split.
    + apply Forall_forall. intros s Hs. apply filter_In in Hs.
      destruct Hs as [Hs Hnz]. apply Hflag in Hnz.
      repeat split; auto.
      apply (stocks_of_nonzero
               _ (fun sku q => Market.stock_record sku warehouse_id q date)
               Yandex.sku market_count (fun _ _ => eq_refl) (fun _ _ => eq_refl) _ _ _ _ Hc);
        assumption.
    + intros s Hs Hnz. apply filter_In. split; [assumption |].
      now apply Hflag.
Qed.

(** ** Runs of the second platform's [main] *)

Lemma market_channel_run
      (clock : list request -> string) (fuel : nat)
      (watch_remnants : list dict)
      (market_token campaign_id warehouse_id : string)
      (srv : server) (log log1 : list request)
      (offer_ids remaining : list string)
      (stocks : list Yandex.stock_entry)
      (chunks : list (list Yandex.stock_entry)) :
  Market.get_offer_ids fuel campaign_id market_token srv log
  = (Ok offer_ids, log1) ->
  Market.create_stocks watch_remnants offer_ids warehouse_id (clock log1)
  = (Ok stocks, remaining) ->
  Seller.divide stocks 2000 = Ok chunks ->
  accepts srv log1
          (map (fun c => MarketPutStocks c campaign_id market_token) chunks) ->
  market_channel clock fuel watch_remnants market_token campaign_id
                 warehouse_id srv log
  = (Ok tt,
     log1 ++ map (fun c => MarketPutStocks c campaign_id market_token) chunks).
Proof.
  intros Hids Hcreate Hdiv Hacc.
  pose proof (upload_loop_accepted
                (fun c => MarketPutStocks c campaign_id market_token)
                srv chunks log1 Hacc) as Hup.
  cbv beta in Hup.
  unfold market_channel, Market.update_stocks. cbv zeta.
  rewrite (bind_ok _ _ _ _ _ _ Hids).
  rewrite (bind_ok _ _ srv log1 log1 (clock log1) eq_refl).
  rewrite Hcreate. cbn [fst].
  rewrite (bind_ok _ _ srv log1 log1 stocks eq_refl). rewrite Hdiv.
  rewrite (bind_ok _ _ srv log1 log1 chunks eq_refl).
  now rewrite (bind_ok _ _ srv _ _ tt Hup).
Qed.

(** X20. A run of the second platform's [main] in which every step
    succeeds downloads the inventory once, then handles FBS and after it
    DBS the same way: it enumerates the campaign afresh, reconciles the
    one inventory against that list with the campaign's warehouse and
    the clock read after the enumeration, and sends the stock collection
    in consecutive batches of 2000.  It prints nothing and ends with
    status 0. *)
Theorem market_main_run
        (env : environ) (clock : list request -> string) (fuel : nat)
        (srv : server)
        (market_token campaign_fbs_id campaign_dbs_id
         warehouse_fbs_id warehouse_dbs_id : string)
        (watch_remnants : list dict) (log0 log1 log2 : list request)
        (fbs_ids fbs_left dbs_ids dbs_left : list string)
        (fbs_stocks dbs_stocks : list Yandex.stock_entry)
        (fbs_chunks dbs_chunks : list (list Yandex.stock_entry)) :
  env "MARKET_TOKEN" = Some market_token ->
  env "FBS_ID" = Some campaign_fbs_id ->
  env "DBS_ID" = Some campaign_dbs_id ->
  env "WAREHOUSE_FBS_ID" = Some warehouse_fbs_id ->
  env "WAREHOUSE_DBS_ID" = Some warehouse_dbs_id ->
  Seller.download_stock srv [] = (Ok watch_remnants, log0) ->
  Market.get_offer_ids fuel campaign_fbs_id market_token srv log0
  = (Ok fbs_ids, log1) ->
  Market.create_stocks watch_remnants fbs_ids warehouse_fbs_id (clock log1)
  = (Ok fbs_stocks, fbs_left) ->
  Seller.divide fbs_stocks 2000 = Ok fbs_chunks ->
  accepts srv log1
          (map (fun c => MarketPutStocks c campaign_fbs_id market_token)
               fbs_chunks) ->
  Market.get_offer_ids
    fuel campaign_dbs_id market_token srv
    (log1 ++ map (fun c => MarketPutStocks c campaign_fbs_id market_token)
                 fbs_chunks)
  = (Ok dbs_ids, log2) ->
  Market.create_stocks watch_remnants dbs_ids warehouse_dbs_id (clock log2)
  = (Ok dbs_stocks, dbs_left) ->
  Seller.divide dbs_stocks 2000 = Ok dbs_chunks ->
  accepts srv log2
          (map (fun c => MarketPutStocks c campaign_dbs_id market_token)
               dbs_chunks) ->
  Market.main env clock fuel srv
  = {| ending := Exit 0;
       stdout := [];
       sent := log2
               ++ map (fun c => MarketPutStocks c campaign_dbs_id market_token)
                      dbs_chunks |}.
Proof.
  intros Htoken Hfbs Hdbs Hwfbs Hwdbs Hdownload
         Hids1 Hcreate1 Hdiv1 Hacc1 Hids2 Hcreate2 Hdiv2 Hacc2.
  unfold Market.main.
  rewrite Htoken, Hfbs, Hdbs, Hwfbs, Hwdbs, Hdownload.
  rewrite market_main_try_split.
  rewrite (bind_ok _ _ _ _ _ _
             (market_channel_run clock fuel watch_remnants market_token
                                 campaign_fbs_id warehouse_fbs_id srv log0 log1
                                 fbs_ids fbs_left fbs_stocks fbs_chunks
                                 Hids1 Hcreate1 Hdiv1 Hacc1)).
  rewrite (market_channel_run clock fuel watch_remnants market_token
                              campaign_dbs_id warehouse_dbs_id srv _ log2
                              dbs_ids dbs_left dbs_stocks dbs_chunks
                              Hids2 Hcreate2 Hdiv2 Hacc2).
  reflexivity.
Qed.

End Properties.

(** * The statements at concrete inputs *)

#[local] Existing Instance cpython_3_11.

Lemma divide_spec_witness :
  (0 < 3)%Z /\
  exists chunks,
    Seller.divide [1; 2; 3; 4; 5; 6; 7] 3 = Ok chunks /\
    length chunks = ceil_div 7 3 /\
    (forall i, S i < length chunks -> length (nth i chunks []) = 3) /\
    (forall last,
        nth_error chunks (length chunks - 1) = Some last ->
        0 < length last <= 3 /\ (length last < 3 <-> 7 mod 3 <> 0)) /\
    concat chunks = [1; 2; 3; 4; 5; 6; 7].
Proof.
  split; [lia |].
  apply (divide_spec nat [1; 2; 3; 4; 5; 6; 7] 3). lia.
Defined.

Lemma quantity_bucketing_witness :
  In (code_of (inventory_row (PyStr "A") (PyStr "7") PyNone)) ["B"; "A"] /\
  Seller.create_stocks
    [inventory_row (PyStr "A") (PyStr "7") PyNone] ["B"; "A"]
  = with_head (Ozon.Build_stock_entry "A" 7) (Seller.create_stocks [] ["B"]) /\
  Seller.create_stocks [] ["B"] = (Ok [Ozon.Build_stock_entry "B" 0], ["B"]) /\
  Market.create_stocks
    [inventory_row (PyStr "A") (PyStr "7") PyNone] ["B"; "A"]
    "wh-fbs" "2024-01-01T00:00:00Z"
  = with_head (Market.stock_record "A" "wh-fbs" 7 "2024-01-01T00:00:00Z")
              (Market.create_stocks [] ["B"] "wh-fbs" "2024-01-01T00:00:00Z") /\
  Market.create_stocks [] ["B"] "wh-fbs" "2024-01-01T00:00:00Z"
  = (Ok [Market.stock_record "B" "wh-fbs" 0 "2024-01-01T00:00:00Z"], ["B"]).
Proof.
  split; [right; left; reflexivity |].
  destruct quantity_bucketing as ([Hsbase Hseller] & Hmarket & _).
  destruct (Hmarket "wh-fbs" "2024-01-01T00:00:00Z") as [Hmbase Hmstep].
  split; [| split; [apply Hsbase | split; [| apply Hmbase]]].
  - destruct (proj1 (Hseller (inventory_row (PyStr "A") (PyStr "7") PyNone) []
                             ["B"; "A"]))
      as (remaining & Hrem & _ & _ & Hint & _);
      [right; left; reflexivity |].
    vm_compute in Hrem. inversion Hrem; subst remaining.
    apply Hint; [discriminate | discriminate | reflexivity].
  - destruct (proj1 (Hmstep (inventory_row (PyStr "A") (PyStr "7") PyNone) []
                            ["B"; "A"]))
      as (remaining & Hrem & _ & _ & Hint & _);
      [right; left; reflexivity |].
    vm_compute in Hrem. inversion Hrem; subst remaining.
    apply Hint; [discriminate | discriminate | reflexivity].
Defined.

Lemma reconciliation_complete_witness :
  NoDup scenario_offer_ids /\
  (forall watch, first_of_its_code scenario_inventory watch ->
                 In (code_of watch) scenario_offer_ids -> quantity_ok watch) /\
  (exists stocks remaining,
      Seller.create_stocks scenario_inventory scenario_offer_ids
      = (Ok stocks, remaining) /\
      Permutation (map Ozon.offer_id stocks) scenario_offer_ids /\
      NoDup (map Ozon.offer_id stocks) /\
      (forall s, In s stocks ->
                 unmatched scenario_inventory (Ozon.offer_id s) = true ->
                 Ozon.stock s = 0%Z)) /\
  (forall warehouse_id date : string,
      exists stocks remaining,
        Market.create_stocks scenario_inventory scenario_offer_ids
                             warehouse_id date
        = (Ok stocks, remaining) /\
        Permutation (map Yandex.sku stocks) scenario_offer_ids /\
        NoDup (map Yandex.sku stocks) /\
        (forall s, In s stocks ->
                   unmatched scenario_inventory (Yandex.sku s) = true ->
                   market_count s = 0%Z)) /\
  (forall prices,
      Seller.create_prices scenario_inventory scenario_offer_ids = Ok prices ->
      map Ozon.price_offer_id prices
      = filter (fun c => py_in c scenario_offer_ids)
               (map code_of scenario_inventory) /\
      Forall (fun p => In (Ozon.price_offer_id p) scenario_offer_ids) prices) /\
  (forall prices,
      Market.create_prices scenario_inventory scenario_offer_ids = Ok prices ->
      map Yandex.id prices
      = filter (fun c => py_in c scenario_offer_ids)
               (map code_of scenario_inventory) /\
      Forall (fun p => In (Yandex.id p) scenario_offer_ids) prices).
Proof.
  assert (Hnd : NoDup scenario_offer_ids).
  { repeat constructor; simpl; intuition discriminate. }
  assert (Hok : forall watch, first_of_its_code scenario_inventory watch ->
                              In (code_of watch) scenario_offer_ids ->
                              quantity_ok watch).
  { intros watch (before & after & Hsplit & _) _.
    assert (Hin : In watch scenario_inventory)
      by (rewrite Hsplit; apply in_elt).
    destruct Hin as [<- | [<- | []]].
    - left. reflexivity.
    - right. left. reflexivity. }
  split; [exact Hnd |]. split; [exact Hok |].
  exact (reconciliation_complete scenario_inventory scenario_offer_ids
                                 Hnd Hok).
Defined.



Lemma pagination_three_pages_witness :
  3 <= 5 /\
  Market.get_offer_ids 5 "fbs" "token" mock_market_source []
  = (Ok (numbered "sku-" 0 450),
     [MarketOfferMappingEntries "" "fbs" "token";
      MarketOfferMappingEntries "page-2" "fbs" "token";
      MarketOfferMappingEntries "page-3" "fbs" "token"]) /\
  Seller.get_offer_ids 5 "client" "token" mock_ozon_source []
  = (Ok (numbered "offer-" 0 450),
     [OzonProductList "" "client" "token";
      OzonProductList "cursor-1" "client" "token";
      OzonProductList "cursor-2" "client" "token"]).
Proof.
  split; [lia |]. split.
  - destruct (pagination_three_pages mock_market_source [] 5) as [Hmarket _];
      [lia |].
    destruct (Hmarket "fbs" "token" "page-2" "page-3" (Some "")
                (map Yandex.Build_mapping_entry (numbered "sku-" 0 200))
                (map Yandex.Build_mapping_entry (numbered "sku-" 200 200))
                (map Yandex.Build_mapping_entry (numbered "sku-" 400 50))
                eq_refl eq_refl eq_refl
                ltac:(discriminate) ltac:(discriminate) (or_intror eq_refl)
                ltac:(repeat split; reflexivity))
      as [Hrun _].
    rewrite Hrun. reflexivity.
  - destruct (pagination_three_pages mock_ozon_source [] 5) as [_ Hozon];
      [lia |].
    destruct (Hozon "client" "token" "cursor-1" "cursor-2" ""
                (map (fun s => Ozon.Build_product s 0)
                     (numbered "offer-" 0 200))
                (map (fun s => Ozon.Build_product s 0)
                     (numbered "offer-" 200 200))
                (map (fun s => Ozon.Build_product s 0)
                     (numbered "offer-" 400 50))
                eq_refl eq_refl eq_refl
                ltac:(repeat split; reflexivity))
      as [Hrun _].
    rewrite Hrun. reflexivity.
Defined.

(** C4, as the specification words it, fails on the run where the FBS
    catalogue cannot be reached: the DBS catalogue is never asked for. *)
Lemma channel_independence_fails :
  ~ channel_independence market_env fixed_clock 1 fbs_down_server.
Proof.
  intros H.
  destruct H as (market_token & campaign_dbs_id & page & Htoken & Hdbs & Hin).
  - exists "token", "fbs", "wh-fbs", scenario_inventory, [GetStockArchive],
      (mkExn ConnectionError "HTTPSConnectionPool: FBS"),
      [GetStockArchive; MarketOfferMappingEntries "" "fbs" "token"].
    repeat split; reflexivity.
  - vm_compute in Htoken, Hdbs. inversion Htoken; inversion Hdbs; subst.
    vm_compute in Hin. destruct Hin as [Hin | [Hin | []]]; discriminate Hin.
Qed.

Lemma fbs_failure_ends_run_witness :
  Market.main market_env fixed_clock 1 fbs_down_server
  = {| ending := Exit 0;
       stdout := [handler (mkExn ConnectionError "HTTPSConnectionPool: FBS")];
       sent := [GetStockArchive;
                MarketOfferMappingEntries "" "fbs" "token"] |} /\
  ("fbs" <> "dbs" ->
   Forall (fun req => campaign_of req <> Some "dbs")
          [GetStockArchive; MarketOfferMappingEntries "" "fbs" "token"]).
Proof.
  apply (fbs_failure_ends_run
           market_env fixed_clock 1 fbs_down_server
           "token" "fbs" "dbs" "wh-fbs" "wh-dbs"
           scenario_inventory [GetStockArchive]);
    reflexivity.
Defined.

Lemma download_error_escapes_market_main_witness :
  Seller.main scenario_env 1 archive_down_server
  = {| ending := Exit 0;
       stdout :=
         [handler (mkExn ConnectionError "HTTPSConnectionPool: timeworld.ru")];
       sent := [OzonProductList "" "client" "token"; GetStockArchive] |} /\
  Market.main market_env fixed_clock 1 archive_down_server
  = {| ending := Exit 1; stdout := []; sent := [GetStockArchive] |}.
Proof.
  destruct download_error_escapes_market_main as [Hseller Hmarket]. split.
  - apply (Hseller scenario_env 1 archive_down_server "token" "client");
      reflexivity.
  - apply (Hmarket market_env fixed_clock 1 archive_down_server
                   "token" "fbs" "dbs" "wh-fbs" "wh-dbs"
                   (mkExn ConnectionError "HTTPSConnectionPool: timeworld.ru"));
      reflexivity.
Defined.

Lemma seller_main_uploads_in_order_witness :
  Seller.main scenario_env 1 scenario_server
  = {| ending := Exit 0;
       stdout := [];
       sent := [OzonProductList "" "client" "token"; GetStockArchive]
               ++ map (fun c => OzonImportStocks c "client" "token")
                      [[Ozon.Build_stock_entry "A1" 100;
                        Ozon.Build_stock_entry "A2" 0;
                        Ozon.Build_stock_entry "A3" 0]]
               ++ map (fun c => OzonImportPrices c "client" "token") [] |} /\
  concat [[Ozon.Build_stock_entry "A1" 100; Ozon.Build_stock_entry "A2" 0;
           Ozon.Build_stock_entry "A3" 0]]
  = [Ozon.Build_stock_entry "A1" 100; Ozon.Build_stock_entry "A2" 0;
     Ozon.Build_stock_entry "A3" 0] /\
  concat [] = @nil Ozon.price_entry.
Proof.
  apply (seller_main_uploads_in_order
           scenario_env 1 scenario_server "token" "client"
           scenario_offer_ids ["A3"] scenario_inventory
           [OzonProductList "" "client" "token"]);
    try reflexivity.
  simpl. split; [eexists; reflexivity | exact I].
Defined.

Lemma seller_failing_batch_aborts_witness :
  Seller.main scenario_env 1 second_batch_down_server
  = {| ending := Exit 0;
       stdout :=
         [handler (mkExn HTTPError
                         "500 Server Error: /v1/product/import/stocks")];
       sent := [OzonProductList "" "client" "token"; GetStockArchive]
               ++ map (fun c => OzonImportStocks c "client" "token")
                      [firstn 100 large_stocks]
               ++ [OzonImportStocks (skipn 100 large_stocks)
                                    "client" "token"] |}.
Proof.
  apply (seller_failing_batch_aborts
           scenario_env 1 second_batch_down_server "token" "client"
           large_offer_ids large_offer_ids []
           [OzonProductList "" "client" "token"]
           [OzonProductList "" "client" "token"; GetStockArchive]
           large_stocks
           [firstn 100 large_stocks] (skipn 100 large_stocks) []);
    try reflexivity.
  simpl. split; [eexists; reflexivity | exact I].
Defined.

Lemma market_enumeration_pages_witness :
  Market.get_offer_ids 3 "fbs" "token" mock_market_source []
  = (Ok (map Yandex.shopSku
             (market_entries
                [(map Yandex.Build_mapping_entry (numbered "sku-" 0 200),
                  "page-2");
                 (map Yandex.Build_mapping_entry (numbered "sku-" 200 200),
                  "page-3")]
              ++ map Yandex.Build_mapping_entry (numbered "sku-" 400 50))),
     [] ++ map fst
            (market_prefix
               "fbs" "token" ""
               [(map Yandex.Build_mapping_entry (numbered "sku-" 0 200),
                 "page-2");
                (map Yandex.Build_mapping_entry (numbered "sku-" 200 200),
                 "page-3")])
        ++ [MarketOfferMappingEntries "page-3" "fbs" "token"]).
Proof.
  apply (market_enumeration_pages
           mock_market_source [] 3 "fbs" "token"
           [(map Yandex.Build_mapping_entry (numbered "sku-" 0 200), "page-2");
            (map Yandex.Build_mapping_entry (numbered "sku-" 200 200),
             "page-3")]
           (map Yandex.Build_mapping_entry (numbered "sku-" 400 50))
           (Some "")).
  - repeat constructor; discriminate.
  - right. reflexivity.
  - repeat split; reflexivity.
  - simpl. lia.
Defined.

Lemma ozon_enumeration_pages_witness :
  Seller.get_offer_ids 3 "client" "token" mock_ozon_source []
  = (Ok (map Ozon.item_offer_id
             (ozon_items
                [Ozon.Build_product_list
                   (map (fun s => Ozon.Build_product s 0)
                        (numbered "offer-" 0 200)) "cursor-1" 450;
                 Ozon.Build_product_list
                   (map (fun s => Ozon.Build_product s 0)
                        (numbered "offer-" 200 200)) "cursor-2" 450]
              ++ map (fun s => Ozon.Build_product s 0)
                     (numbered "offer-" 400 50))),
     [] ++ map fst
            (ozon_prefix
               "client" "token" ""
               [Ozon.Build_product_list
                  (map (fun s => Ozon.Build_product s 0)
                       (numbered "offer-" 0 200)) "cursor-1" 450;
                Ozon.Build_product_list
                  (map (fun s => Ozon.Build_product s 0)
                       (numbered "offer-" 200 200)) "cursor-2" 450])
        ++ [OzonProductList "cursor-2" "client" "token"]).
Proof.
  apply (ozon_enumeration_pages
           mock_ozon_source [] 3 "client" "token"
           [Ozon.Build_product_list
              (map (fun s => Ozon.Build_product s 0)
                   (numbered "offer-" 0 200)) "cursor-1" 450;
            Ozon.Build_product_list
              (map (fun s => Ozon.Build_product s 0)
                   (numbered "offer-" 200 200)) "cursor-2" 450]
           (Ozon.Build_product_list
              (map (fun s => Ozon.Build_product s 0)
                   (numbered "offer-" 400 50)) "" 450)).
  - simpl. repeat split; discriminate.
  - reflexivity.
  - repeat split; reflexivity.
  - simpl. lia.
Defined.

Lemma market_enumeration_never_returns_witness :
  exists log',
    Market.get_offer_ids 7 "fbs" "token" endless_market_source []
    = (OutOfFuel, log') /\
    length log' = length (@nil request) + 7.
Proof.
  apply (market_enumeration_never_returns endless_market_source "fbs" "token").
  intros log page.
  exists (map Yandex.Build_mapping_entry (numbered "sku-" 0 2)), "more".
  split; [reflexivity | discriminate].
Defined.

Lemma ozon_enumeration_never_returns_witness :
  exists log',
    Seller.get_offer_ids 7 "client" "token" overshooting_ozon_source []
    = (OutOfFuel, log') /\
    length log' = length (@nil request) + 7.
Proof.
  apply (ozon_enumeration_never_returns
           overshooting_ozon_source "client" "token" 1 []
           (Ozon.Build_product_list
              [Ozon.Build_product "offer-0" 0; Ozon.Build_product "offer-1" 0]
              "offer-1" 1)).
  - intros log last_id. eexists. split; [reflexivity | simpl; lia].
  - reflexivity.
  - simpl. lia.
Defined.

Lemma enumeration_error_propagates_witness :
  Market.get_offer_ids 5 "fbs" "token" second_page_down_source []
  = (Raise (mkExn ReadTimeout "Read timed out."),
     [MarketOfferMappingEntries "" "fbs" "token";
      MarketOfferMappingEntries "page-2" "fbs" "token"]) /\
  Seller.get_offer_ids 5 "client" "token" second_page_down_source []
  = (Raise (mkExn ReadTimeout "Read timed out."),
     [OzonProductList "" "client" "token";
      OzonProductList "cursor-1" "client" "token"]).
Proof.
  destruct (enumeration_error_propagates
              second_page_down_source [] 5
              (mkExn ReadTimeout "Read timed out."))
    as [Hmarket Hozon].
  split.
  - apply (Hmarket "fbs" "token"
                   [(map Yandex.Build_mapping_entry (numbered "sku-" 0 200),
                     "page-2")]).
    + repeat constructor; discriminate.
    + repeat split; reflexivity.
    + reflexivity.
    + simpl. lia.
  - apply (Hozon "client" "token"
                 [Ozon.Build_product_list
                    (map (fun s => Ozon.Build_product s 0)
                         (numbered "offer-" 0 200)) "cursor-1" 450]).
    + simpl. split; [discriminate | exact I].
    + repeat split; reflexivity.
    + reflexivity.
    + simpl. lia.
Defined.

Lemma create_stocks_entry_per_listed_identifier_witness :
  Permutation
    (map Ozon.offer_id
         [Ozon.Build_stock_entry "A" 5; Ozon.Build_stock_entry "A" 0])
    ["A"; "A"] /\
  length [Ozon.Build_stock_entry "A" 5; Ozon.Build_stock_entry "A" 0]
  = length ["A"; "A"].
Proof.
  apply (proj1 (create_stocks_entry_per_listed_identifier
                  [inventory_row (PyStr "A") (PyStr "5") PyNone] ["A"; "A"])
               _ ["A"]).
  reflexivity.
Defined.

Lemma create_stocks_error_witness :
  (exn_cls (mkExn ValueError "invalid literal for int() with base 10: 'many'")
   = ValueError \/
   exn_cls (mkExn ValueError "invalid literal for int() with base 10: 'many'")
   = TypeError) /\
  exists before watch after stocks,
    [inventory_row (PyStr "A1") (PyStr ">10") PyNone;
     inventory_row (PyStr "A2") (PyStr "many") PyNone;
     inventory_row (PyStr "A3") (PyStr "1") PyNone]
    = before ++ watch :: after /\
    Seller.create_stocks before ["A1"; "A2"; "A3"]
    = (Ok stocks, ["A2"; "A3"]) /\
    In (code_of watch) ["A2"; "A3"] /\
    py_str (dict_get watch "Количество") <> ">10" /\
    py_str (dict_get watch "Количество") <> "1" /\
    py_int (dict_get watch "Количество")
    = Raise (mkExn ValueError "invalid literal for int() with base 10: 'many'").
Proof.
  apply (proj1 (proj2 (proj2 (create_stocks_error
                  [inventory_row (PyStr "A1") (PyStr ">10") PyNone;
                   inventory_row (PyStr "A2") (PyStr "many") PyNone;
                   inventory_row (PyStr "A3") (PyStr "1") PyNone]
                  ["A1"; "A2"; "A3"])))).
  reflexivity.
Defined.

Lemma create_prices_membership_only_witness :
  Seller.create_prices scenario_inventory ["A1"; "A2"]
  = Seller.create_prices scenario_inventory ["A2"; "A1"; "A2"] /\
  Market.create_prices scenario_inventory ["A1"; "A2"]
  = Market.create_prices scenario_inventory ["A2"; "A1"; "A2"].
Proof.
  apply (create_prices_membership_only
           scenario_inventory ["A1"; "A2"] ["A2"; "A1"; "A2"]).
  intros x. simpl. tauto.
Defined.

Lemma seller_create_prices_outcome_witness :
  (exists prices,
      Seller.create_prices
        [inventory_row (PyStr "A1") (PyStr "3") (PyStr "10.00");
         inventory_row (PyStr "B7") (PyStr "3") PyNone] ["A1"]
      = Ok prices) /\
  (exists e,
      Seller.create_prices
        [inventory_row (PyStr "A1") (PyStr "3") (PyStr "10.00");
         inventory_row (PyStr "B7") (PyStr "3") PyNone] ["A1"; "B7"]
      = Raise e /\
      exn_cls e = AttributeError).
Proof.
  split.
  - apply (proj1 (seller_create_prices_outcome _ ["A1"])).
    intros watch [<- | [<- | []]] Hin.
    + now exists "10.00".
    + simpl in Hin. destruct Hin as [Hin | []]. discriminate Hin.
  - apply (proj2 (seller_create_prices_outcome _ ["A1"; "B7"])).
    exists (inventory_row (PyStr "B7") (PyStr "3") PyNone).
    split; [right; now left |]. split; [right; now left |].
    intros [s Hs]. discriminate Hs.
Defined.

Lemma market_create_prices_outcome_witness :
  (exists prices,
      Market.create_prices scenario_inventory scenario_offer_ids = Ok prices) /\
  (exists e,
      Market.create_prices
        [inventory_row (PyStr "A1") (PyStr "3") (PyStr "")] ["A1"]
      = Raise e /\
      exn_cls e = ValueError).
Proof.
  destruct (market_create_prices_outcome scenario_inventory scenario_offer_ids)
    as (Hok & _ & _).
  destruct (market_create_prices_outcome
              [inventory_row (PyStr "A1") (PyStr "3") (PyStr "")] ["A1"])
    as (_ & _ & Hblank).
  split.
  - apply Hok. intros watch [<- | [<- | []]] _.
    + exists "500.00 р.". split; [reflexivity |].
      split; [discriminate | reflexivity].
    + exists "100.00 р.". split; [reflexivity |].
      split; [discriminate | reflexivity].
  - apply (Hblank _ [] ""); [now left | reflexivity | left; reflexivity].
Defined.

Lemma market_prices_are_seller_prices_witness :
  exists sprices,
    Seller.create_prices scenario_inventory scenario_offer_ids = Ok sprices /\
    Forall2 same_price [market_price "A1" 500; market_price "A2" 100] sprices.
Proof.
  apply (market_prices_are_seller_prices scenario_inventory scenario_offer_ids).
  reflexivity.
Defined.

Lemma seller_main_sends_no_price_witness :
  Forall (fun req => is_ozon_price_update req = false)
         (sent (Seller.main scenario_env 1 scenario_server)).
Proof.
  apply (seller_main_sends_no_price
           scenario_env 1 scenario_server "token" "client"
           scenario_offer_ids [OzonProductList "" "client" "token"]);
    try reflexivity.
  repeat constructor; simpl; intuition discriminate.
Defined.

Lemma upload_prices_awaited_witness :
  await (Seller.upload_prices 1 scenario_inventory "client" "token")
        scenario_server []
  = (Ok [ozon_price "A1" "500"; ozon_price "A2" "100"],
     [OzonProductList "" "client" "token"]
     ++ map (fun c => OzonImportPrices c "client" "token")
            [[ozon_price "A1" "500"; ozon_price "A2" "100"]]) /\
  concat [[ozon_price "A1" "500"; ozon_price "A2" "100"]]
  = [ozon_price "A1" "500"; ozon_price "A2" "100"] /\
  Forall (fun c => 1 <= length c <= 1000)
         [[ozon_price "A1" "500"; ozon_price "A2" "100"]].
Proof.
  apply (proj1 (upload_prices_awaited
                  1 scenario_inventory scenario_server []
                  [OzonProductList "" "client" "token"] scenario_offer_ids));
    try reflexivity.
  simpl. split; [eexists; reflexivity | exact I].
Defined.

Lemma upload_stocks_not_empty_witness :
  Forall (fun s => In s [Ozon.Build_stock_entry "A1" 100;
                         Ozon.Build_stock_entry "A2" 0;
                         Ozon.Build_stock_entry "A3" 0] /\
                   Ozon.stock s <> 0%Z /\
                   In (Ozon.offer_id s) (map code_of scenario_inventory))
         [Ozon.Build_stock_entry "A1" 100] /\
  (forall s, In s [Ozon.Build_stock_entry "A1" 100;
                   Ozon.Build_stock_entry "A2" 0;
                   Ozon.Build_stock_entry "A3" 0] ->
             Ozon.stock s <> 0%Z ->
             In s [Ozon.Build_stock_entry "A1" 100]).
Proof.
  apply (proj1 (upload_stocks_not_empty
                  1 scenario_inventory scenario_server []
                  [OzonProductList "" "client" "token";
                   OzonImportStocks
                     [Ozon.Build_stock_entry "A1" 100;
                      Ozon.Build_stock_entry "A2" 0;
                      Ozon.Build_stock_entry "A3" 0] "client" "token"])
               "client" "token").
  reflexivity.
Defined.

Lemma market_main_run_witness :
  Market.main market_env fixed_clock 1 market_server
  = {| ending := Exit 0;
       stdout := [];
       sent :=
         [GetStockArchive;
          MarketOfferMappingEntries "" "fbs" "token";
          MarketPutStocks
            [Market.stock_record "A1" "wh-fbs" 100 "2024-01-01T00:00:00Z";
             Market.stock_record "A2" "wh-fbs" 0 "2024-01-01T00:00:00Z";
             Market.stock_record "A3" "wh-fbs" 0 "2024-01-01T00:00:00Z"]
            "fbs" "token";
          MarketOfferMappingEntries "" "dbs" "token"]
         ++ map (fun c => MarketPutStocks c "dbs" "token")
                [[Market.stock_record "A1" "wh-dbs" 100 "2024-01-01T00:00:00Z";
                  Market.stock_record "A2" "wh-dbs" 0 "2024-01-01T00:00:00Z";
                  Market.stock_record "A3" "wh-dbs" 0
                                      "2024-01-01T00:00:00Z"]] |}.
Proof.
  apply (market_main_run
           market_env fixed_clock 1 market_server
           "token" "fbs" "dbs" "wh-fbs" "wh-dbs"
           scenario_inventory
           [GetStockArchive]
           [GetStockArchive; MarketOfferMappingEntries "" "fbs" "token"]
           [GetStockArchive;
            MarketOfferMappingEntries "" "fbs" "token";
            MarketPutStocks
              [Market.stock_record "A1" "wh-fbs" 100 "2024-01-01T00:00:00Z";
               Market.stock_record "A2" "wh-fbs" 0 "2024-01-01T00:00:00Z";
               Market.stock_record "A3" "wh-fbs" 0 "2024-01-01T00:00:00Z"]
              "fbs" "token";
            MarketOfferMappingEntries "" "dbs" "token"]
           scenario_offer_ids ["A3"] scenario_offer_ids ["A3"]
           [Market.stock_record "A1" "wh-fbs" 100 "2024-01-01T00:00:00Z";
            Market.stock_record "A2" "wh-fbs" 0 "2024-01-01T00:00:00Z";
            Market.stock_record "A3" "wh-fbs" 0 "2024-01-01T00:00:00Z"]
           [Market.stock_record "A1" "wh-dbs" 100 "2024-01-01T00:00:00Z";
            Market.stock_record "A2" "wh-dbs" 0 "2024-01-01T00:00:00Z";
            Market.stock_record "A3" "wh-dbs" 0 "2024-01-01T00:00:00Z"]
           [[Market.stock_record "A1" "wh-fbs" 100 "2024-01-01T00:00:00Z";
             Market.stock_record "A2" "wh-fbs" 0 "2024-01-01T00:00:00Z";
             Market.stock_record "A3" "wh-fbs" 0 "2024-01-01T00:00:00Z"]]
           [[Market.stock_record "A1" "wh-dbs" 100 "2024-01-01T00:00:00Z";
             Market.stock_record "A2" "wh-dbs" 0 "2024-01-01T00:00:00Z";
             Market.stock_record "A3" "wh-dbs" 0 "2024-01-01T00:00:00Z"]]);
    try reflexivity;
    simpl; (split; [eexists; reflexivity | exact I]).
Defined.
